(** * The hybrid recommendation engine of [services/recommendationEngine.js]

    A shallow embedding of the [RecommendationEngine] class: the six
    sub-scores and their weighted sum, the ranking and cold-start paths over
    the content collections, and the preference learner that updates the
    per-user weight maps.

    Modelling conventions.
    - JavaScript numbers are [num]: an exact rational or one of the IEEE
      special values.  Rounding of doubles is not modelled; division by
      zero, [NaN] propagation and [Math.min] are.
    - [async] functions are functions into [result]: a rejected promise is
      [Throw], [await] is the monadic bind and [try]/[catch] is [try_catch].
    - The database is an explicit [DB] value passed in (and, for the
      learner, returned).  [Date.now()] and the draws of [Math.random()]
      are parameters; one call of the engine sees one value of
      [Date.now()].
    - The order in which [sort] returns the elements when its comparator
      is not consistent is the engine's choice, a parameter as well.
    - The store keeps whatever document it is given, unless the
      collection is failing: limits that a database server places on field
      names or sizes are not modelled.
    - A string is the UTF-8 encoding of the JavaScript string;
      [toLowerCase] lower-cases by the Unicode character data.
    - A weight object is a finite map from its own keys to numbers and
      strings; the members that it inherits from [Object.prototype] are
      read where it has no own key. *)

From Stdlib Require Import ZArith QArith Qminmax String Ascii List Bool Lia Lqa.
From Stdlib Require Import Permutation Sorted.
From stdpp Require Import base option gmap strings.

Import ListNotations.
Local Open Scope Z_scope.
Local Open Scope string_scope.

(** ** JavaScript numbers *)

Inductive num : Type :=
  | Fin (q : Q)
  | PosInf
  | NegInf
  | NaN.

Definition Qzero (q : Q) : bool := Qeq_bool q 0.
Definition Qpos (q : Q) : bool := negb (Qle_bool q 0).

Definition num_neg (a : num) : num :=
  match a with
  | Fin q => Fin (- q)
  | PosInf => NegInf
  | NegInf => PosInf
  | NaN => NaN
  end.

Definition num_add (a b : num) : num :=
  match a, b with
  | NaN, _ | _, NaN => NaN
  | PosInf, NegInf | NegInf, PosInf => NaN
  | PosInf, _ | _, PosInf => PosInf
  | NegInf, _ | _, NegInf => NegInf
  | Fin x, Fin y => Fin (x + y)
  end.

Definition num_sub (a b : num) : num := num_add a (num_neg b).

(** An infinity scaled by a finite factor: [NaN] for a zero factor. *)
Definition scale_inf (positive : bool) (q : Q) : num :=
  if Qzero q then NaN
  else if Bool.eqb positive (Qpos q) then PosInf else NegInf.

Definition num_mul (a b : num) : num :=
  match a, b with
  | NaN, _ | _, NaN => NaN
  | Fin x, Fin y => Fin (x * y)
  | PosInf, Fin y | Fin y, PosInf => scale_inf true y
  | NegInf, Fin y | Fin y, NegInf => scale_inf false y
  | PosInf, PosInf | NegInf, NegInf => PosInf
  | PosInf, NegInf | NegInf, PosInf => NegInf
  end.

(** Division; a zero divisor is taken to be [+0]. *)
Definition num_div (a b : num) : num :=
  match a, b with
  | NaN, _ | _, NaN => NaN
  | Fin x, Fin y =>
      if Qzero y then
        (if Qzero x then NaN else if Qpos x then PosInf else NegInf)
      else Fin (x / y)
  | Fin _, (PosInf | NegInf) => Fin 0
  | PosInf, Fin y => if Qle_bool 0 y then PosInf else NegInf
  | NegInf, Fin y => if Qle_bool 0 y then NegInf else PosInf
  | (PosInf | NegInf), (PosInf | NegInf) => NaN
  end.

(** [Math.min(a, b)] *)
Definition Math_min (a b : num) : num :=
  match a, b with
  | NaN, _ | _, NaN => NaN
  | NegInf, _ | _, NegInf => NegInf
  | PosInf, x | x, PosInf => x
  | Fin x, Fin y => Fin (Qmin x y)
  end.

(** [a <= b]; any comparison with [NaN] is false. *)
Definition num_leb (a b : num) : bool :=
  match a, b with
  | NaN, _ | _, NaN => false
  | NegInf, _ | _, PosInf => true
  | PosInf, _ | _, NegInf => false
  | Fin x, Fin y => Qle_bool x y
  end.

(** [a > 0] *)
Definition num_positive (a : num) : bool :=
  match a with
  | Fin q => Qpos q
  | PosInf => true
  | NegInf | NaN => false
  end.

(** Equality of numbers up to the representation of the fraction. *)
Definition num_eq (a b : num) : Prop :=
  match a, b with
  | Fin x, Fin y => (x == y)%Q
  | PosInf, PosInf | NegInf, NegInf | NaN, NaN => True
  | _, _ => False
  end.

(** The closed interval [[lo, hi]]. *)
Definition num_between (lo hi : Q) (a : num) : Prop :=
  match a with
  | Fin q => (lo <= q)%Q /\ (q <= hi)%Q
  | _ => False
  end.

Definition of_Z (z : Z) : num := Fin (inject_Z z).
Definition of_nat (n : nat) : num := Fin (inject_Z (Z.of_nat n)).

(** ** Strings

    A string stands for the JavaScript string of which it is the UTF-8
    encoding.  [String.prototype.toLowerCase] is the default lower-casing
    of Unicode: every code point is replaced by its lower-case mapping,
    and a capital sigma by the final or the medial small sigma according
    to the letters around it.  The character data are those of Unicode
    14.0. *)

Definition byte_of (z : Z) : ascii := ascii_of_N (Z.to_N z).
Definition of_byte (b : ascii) : Z := Z.of_N (N_of_ascii b).

(** The UTF-8 encoding of a code point.  A negative number [-1 - b]
    stands for the byte [b] of an ill-formed sequence and is written back
    as that byte. *)
Definition utf8 (cp : Z) : string :=
  let tail k := byte_of (128 + Z.land (Z.shiftr cp (6 * k)) 63) in
  if (cp <? 0)%Z then String (byte_of (-1 - cp)) ""
  else if (cp <? 128)%Z then String (byte_of cp) ""
  else if (cp <? 2048)%Z then
    String (byte_of (192 + Z.shiftr cp 6)) (String (tail 0) "")
  else if (cp <? 65536)%Z then
    String (byte_of (224 + Z.shiftr cp 12))
           (String (tail 1) (String (tail 0) ""))
  else
    String (byte_of (240 + Z.shiftr cp 18))
           (String (tail 2) (String (tail 1) (String (tail 0) ""))).

Definition String_fromCodePoints (l : list Z) : string :=
  fold_right (fun cp s => utf8 cp ++ s) "" l.

(** The code point whose encoding the string starts with, and how many
    bytes that takes; nothing when the string starts with no well-formed
    sequence (a stray continuation byte, an overlong form, a
    surrogate). *)
Definition sequence_at (s : string) : option (Z * nat) :=
  match s with
  | "" => None
  | String b0 s1 =>
      let n0 := of_byte b0 in
      let size : nat :=
        (if (n0 <? 128)%Z then 1 else if (n0 <? 192)%Z then 0
         else if (n0 <? 224)%Z then 2 else if (n0 <? 240)%Z then 3
         else if (n0 <? 248)%Z then 4 else 0)%nat in
      let lead :=
        match size with
        | 2%nat => n0 - 192
        | 3%nat => n0 - 224
        | 4%nat => n0 - 240
        | _ => n0
        end in
      let cp :=
        fold_left (fun acc b => 64 * acc + Z.land (of_byte b) 63)
                  (list_ascii_of_string (String.substring 0 (size - 1)%nat s1))
                  lead in
      if negb (size =? 0)%nat &&
         negb ((55296 <=? cp)%Z && (cp <=? 57343)%Z) &&
         String.eqb (utf8 cp) (String.substring 0 size s)
      then Some (cp, size)
      else None
  end.

(** The code points of a string; [skip] bytes were already read. *)
Fixpoint codePoints_from (skip : nat) (s : string) : list Z :=
  match s with
  | "" => []
  | String b s' =>
      match skip with
      | S k => codePoints_from k s'
      | O =>
          match sequence_at s with
          | Some (cp, size) => cp :: codePoints_from (size - 1)%nat s'
          | None => (-1 - of_byte b) :: codePoints_from 0%nat s'
          end
      end
  end.

Definition codePoints (s : string) : list Z := codePoints_from 0%nat s.

(** The simple lower-case mappings: in each row [(first, last, step,
    delta)] the code points [first], [first + step], ... up to [last] map
    to themselves plus [delta]. *)
Definition lower_rows : list (Z * Z * Z * Z) :=
  [(65, 90, 1, 32); (192, 214, 1, 32); (216, 222, 1, 32); (256, 302, 2, 1);
   (306, 310, 2, 1); (313, 327, 2, 1); (330, 374, 2, 1);
   (376, 376, 1, (-121)); (377, 381, 2, 1); (385, 385, 1, 210);
   (386, 388, 2, 1); (390, 390, 1, 206); (391, 391, 1, 1);
   (393, 394, 1, 205); (395, 395, 1, 1); (398, 398, 1, 79);
   (399, 399, 1, 202); (400, 400, 1, 203); (401, 401, 1, 1);
   (403, 403, 1, 205); (404, 404, 1, 207); (406, 406, 1, 211);
   (407, 407, 1, 209); (408, 408, 1, 1); (412, 412, 1, 211);
   (413, 413, 1, 213); (415, 415, 1, 214); (416, 420, 2, 1);
   (422, 422, 1, 218); (423, 423, 1, 1); (425, 425, 1, 218);
   (428, 428, 1, 1); (430, 430, 1, 218); (431, 431, 1, 1);
   (433, 434, 1, 217); (435, 437, 2, 1); (439, 439, 1, 219);
   (440, 440, 1, 1); (444, 444, 1, 1); (452, 452, 1, 2); (453, 453, 1, 1);
   (455, 455, 1, 2); (456, 456, 1, 1); (458, 458, 1, 2); (459, 475, 2, 1);
   (478, 494, 2, 1); (497, 497, 1, 2); (498, 500, 2, 1);
   (502, 502, 1, (-97)); (503, 503, 1, (-56)); (504, 542, 2, 1);
   (544, 544, 1, (-130)); (546, 562, 2, 1); (570, 570, 1, 10795);
   (571, 571, 1, 1); (573, 573, 1, (-163)); (574, 574, 1, 10792);
   (577, 577, 1, 1); (579, 579, 1, (-195)); (580, 580, 1, 69);
   (581, 581, 1, 71); (582, 590, 2, 1); (880, 882, 2, 1); (886, 886, 1, 1);
   (895, 895, 1, 116); (902, 902, 1, 38); (904, 906, 1, 37);
   (908, 908, 1, 64); (910, 911, 1, 63); (913, 929, 1, 32);
   (931, 939, 1, 32); (975, 975, 1, 8); (984, 1006, 2, 1);
   (1012, 1012, 1, (-60)); (1015, 1015, 1, 1); (1017, 1017, 1, (-7));
   (1018, 1018, 1, 1); (1021, 1023, 1, (-130)); (1024, 1039, 1, 80);
   (1040, 1071, 1, 32); (1120, 1152, 2, 1); (1162, 1214, 2, 1);
   (1216, 1216, 1, 15); (1217, 1229, 2, 1); (1232, 1326, 2, 1);
   (1329, 1366, 1, 48); (4256, 4293, 1, 7264); (4295, 4295, 1, 7264);
   (4301, 4301, 1, 7264); (5024, 5103, 1, 38864); (5104, 5109, 1, 8);
   (7312, 7354, 1, (-3008)); (7357, 7359, 1, (-3008)); (7680, 7828, 2, 1);
   (7838, 7838, 1, (-7615)); (7840, 7934, 2, 1); (7944, 7951, 1, (-8));
   (7960, 7965, 1, (-8)); (7976, 7983, 1, (-8)); (7992, 7999, 1, (-8));
   (8008, 8013, 1, (-8)); (8025, 8031, 2, (-8)); (8040, 8047, 1, (-8));
   (8072, 8079, 1, (-8)); (8088, 8095, 1, (-8)); (8104, 8111, 1, (-8));
   (8120, 8121, 1, (-8)); (8122, 8123, 1, (-74)); (8124, 8124, 1, (-9));
   (8136, 8139, 1, (-86)); (8140, 8140, 1, (-9)); (8152, 8153, 1, (-8));
   (8154, 8155, 1, (-100)); (8168, 8169, 1, (-8)); (8170, 8171, 1, (-112));
   (8172, 8172, 1, (-7)); (8184, 8185, 1, (-128)); (8186, 8187, 1, (-126));
   (8188, 8188, 1, (-9)); (8486, 8486, 1, (-7517));
   (8490, 8490, 1, (-8383)); (8491, 8491, 1, (-8262)); (8498, 8498, 1, 28);
   (8544, 8559, 1, 16); (8579, 8579, 1, 1); (9398, 9423, 1, 26);
   (11264, 11311, 1, 48); (11360, 11360, 1, 1); (11362, 11362, 1, (-10743));
   (11363, 11363, 1, (-3814)); (11364, 11364, 1, (-10727));
   (11367, 11371, 2, 1); (11373, 11373, 1, (-10780));
   (11374, 11374, 1, (-10749)); (11375, 11375, 1, (-10783));
   (11376, 11376, 1, (-10782)); (11378, 11378, 1, 1); (11381, 11381, 1, 1);
   (11390, 11391, 1, (-10815)); (11392, 11490, 2, 1); (11499, 11501, 2, 1);
   (11506, 11506, 1, 1); (42560, 42604, 2, 1); (42624, 42650, 2, 1);
   (42786, 42798, 2, 1); (42802, 42862, 2, 1); (42873, 42875, 2, 1);
   (42877, 42877, 1, (-35332)); (42878, 42886, 2, 1); (42891, 42891, 1, 1);
   (42893, 42893, 1, (-42280)); (42896, 42898, 2, 1); (42902, 42920, 2, 1);
   (42922, 42922, 1, (-42308)); (42923, 42923, 1, (-42319));
   (42924, 42924, 1, (-42315)); (42925, 42925, 1, (-42305));
   (42926, 42926, 1, (-42308)); (42928, 42928, 1, (-42258));
   (42929, 42929, 1, (-42282)); (42930, 42930, 1, (-42261));
   (42931, 42931, 1, 928); (42932, 42946, 2, 1); (42948, 42948, 1, (-48));
   (42949, 42949, 1, (-42307)); (42950, 42950, 1, (-35384));
   (42951, 42953, 2, 1); (42960, 42960, 1, 1); (42966, 42968, 2, 1);
   (42997, 42997, 1, 1); (65313, 65338, 1, 32); (66560, 66599, 1, 40);
   (66736, 66771, 1, 40); (66928, 66938, 1, 39); (66940, 66954, 1, 39);
   (66956, 66962, 1, 39); (66964, 66965, 1, 39); (68736, 68786, 1, 64);
   (71840, 71871, 1, 32); (93760, 93791, 1, 32); (125184, 125217, 1, 34)].

(** The code points with the properties [Case_Ignorable], and [Cased]
    without [Case_Ignorable], as ranges. *)
Definition case_ignorable_ranges : list (Z * Z) :=
  [(39, 39); (46, 46); (58, 58); (94, 94); (96, 96); (168, 168); (173, 173);
   (175, 175); (180, 180); (183, 184); (688, 879); (884, 885); (890, 890);
   (900, 901); (903, 903); (1155, 1161); (1369, 1369); (1375, 1375);
   (1425, 1469); (1471, 1471); (1473, 1474); (1476, 1477); (1479, 1479);
   (1524, 1524); (1536, 1541); (1552, 1562); (1564, 1564); (1600, 1600);
   (1611, 1631); (1648, 1648); (1750, 1757); (1759, 1768); (1770, 1773);
   (1807, 1807); (1809, 1809); (1840, 1866); (1958, 1968); (2027, 2037);
   (2042, 2042); (2045, 2045); (2070, 2093); (2137, 2139); (2184, 2184);
   (2192, 2193); (2200, 2207); (2249, 2306); (2362, 2362); (2364, 2364);
   (2369, 2376); (2381, 2381); (2385, 2391); (2402, 2403); (2417, 2417);
   (2433, 2433); (2492, 2492); (2497, 2500); (2509, 2509); (2530, 2531);
   (2558, 2558); (2561, 2562); (2620, 2620); (2625, 2626); (2631, 2632);
   (2635, 2637); (2641, 2641); (2672, 2673); (2677, 2677); (2689, 2690);
   (2748, 2748); (2753, 2757); (2759, 2760); (2765, 2765); (2786, 2787);
   (2810, 2815); (2817, 2817); (2876, 2876); (2879, 2879); (2881, 2884);
   (2893, 2893); (2901, 2902); (2914, 2915); (2946, 2946); (3008, 3008);
   (3021, 3021); (3072, 3072); (3076, 3076); (3132, 3132); (3134, 3136);
   (3142, 3144); (3146, 3149); (3157, 3158); (3170, 3171); (3201, 3201);
   (3260, 3260); (3263, 3263); (3270, 3270); (3276, 3277); (3298, 3299);
   (3328, 3329); (3387, 3388); (3393, 3396); (3405, 3405); (3426, 3427);
   (3457, 3457); (3530, 3530); (3538, 3540); (3542, 3542); (3633, 3633);
   (3636, 3642); (3654, 3662); (3761, 3761); (3764, 3772); (3782, 3782);
   (3784, 3789); (3864, 3865); (3893, 3893); (3895, 3895); (3897, 3897);
   (3953, 3966); (3968, 3972); (3974, 3975); (3981, 3991); (3993, 4028);
   (4038, 4038); (4141, 4144); (4146, 4151); (4153, 4154); (4157, 4158);
   (4184, 4185); (4190, 4192); (4209, 4212); (4226, 4226); (4229, 4230);
   (4237, 4237); (4253, 4253); (4348, 4348); (4957, 4959); (5906, 5908);
   (5938, 5939); (5970, 5971); (6002, 6003); (6068, 6069); (6071, 6077);
   (6086, 6086); (6089, 6099); (6103, 6103); (6109, 6109); (6155, 6159);
   (6211, 6211); (6277, 6278); (6313, 6313); (6432, 6434); (6439, 6440);
   (6450, 6450); (6457, 6459); (6679, 6680); (6683, 6683); (6742, 6742);
   (6744, 6750); (6752, 6752); (6754, 6754); (6757, 6764); (6771, 6780);
   (6783, 6783); (6823, 6823); (6832, 6862); (6912, 6915); (6964, 6964);
   (6966, 6970); (6972, 6972); (6978, 6978); (7019, 7027); (7040, 7041);
   (7074, 7077); (7080, 7081); (7083, 7085); (7142, 7142); (7144, 7145);
   (7149, 7149); (7151, 7153); (7212, 7219); (7222, 7223); (7288, 7293);
   (7376, 7378); (7380, 7392); (7394, 7400); (7405, 7405); (7412, 7412);
   (7416, 7417); (7468, 7530); (7544, 7544); (7579, 7679); (8125, 8125);
   (8127, 8129); (8141, 8143); (8157, 8159); (8173, 8175); (8189, 8190);
   (8203, 8207); (8216, 8217); (8228, 8228); (8231, 8231); (8234, 8238);
   (8288, 8292); (8294, 8303); (8305, 8305); (8319, 8319); (8336, 8348);
   (8400, 8432); (11388, 11389); (11503, 11505); (11631, 11631);
   (11647, 11647); (11744, 11775); (11823, 11823); (12293, 12293);
   (12330, 12333); (12337, 12341); (12347, 12347); (12441, 12446);
   (12540, 12542); (40981, 40981); (42232, 42237); (42508, 42508);
   (42607, 42610); (42612, 42621); (42623, 42623); (42652, 42655);
   (42736, 42737); (42752, 42785); (42864, 42864); (42888, 42890);
   (42994, 42996); (43000, 43001); (43010, 43010); (43014, 43014);
   (43019, 43019); (43045, 43046); (43052, 43052); (43204, 43205);
   (43232, 43249); (43263, 43263); (43302, 43309); (43335, 43345);
   (43392, 43394); (43443, 43443); (43446, 43449); (43452, 43453);
   (43471, 43471); (43493, 43494); (43561, 43566); (43569, 43570);
   (43573, 43574); (43587, 43587); (43596, 43596); (43632, 43632);
   (43644, 43644); (43696, 43696); (43698, 43700); (43703, 43704);
   (43710, 43711); (43713, 43713); (43741, 43741); (43756, 43757);
   (43763, 43764); (43766, 43766); (43867, 43871); (43881, 43883);
   (44005, 44005); (44008, 44008); (44013, 44013); (64286, 64286);
   (64434, 64450); (65024, 65039); (65043, 65043); (65056, 65071);
   (65106, 65106); (65109, 65109); (65279, 65279); (65287, 65287);
   (65294, 65294); (65306, 65306); (65342, 65342); (65344, 65344);
   (65392, 65392); (65438, 65439); (65507, 65507); (65529, 65531);
   (66045, 66045); (66272, 66272); (66422, 66426); (67456, 67461);
   (67463, 67504); (67506, 67514); (68097, 68099); (68101, 68102);
   (68108, 68111); (68152, 68154); (68159, 68159); (68325, 68326);
   (68900, 68903); (69291, 69292); (69446, 69456); (69506, 69509);
   (69633, 69633); (69688, 69702); (69744, 69744); (69747, 69748);
   (69759, 69761); (69811, 69814); (69817, 69818); (69821, 69821);
   (69826, 69826); (69837, 69837); (69888, 69890); (69927, 69931);
   (69933, 69940); (70003, 70003); (70016, 70017); (70070, 70078);
   (70089, 70092); (70095, 70095); (70191, 70193); (70196, 70196);
   (70198, 70199); (70206, 70206); (70367, 70367); (70371, 70378);
   (70400, 70401); (70459, 70460); (70464, 70464); (70502, 70508);
   (70512, 70516); (70712, 70719); (70722, 70724); (70726, 70726);
   (70750, 70750); (70835, 70840); (70842, 70842); (70847, 70848);
   (70850, 70851); (71090, 71093); (71100, 71101); (71103, 71104);
   (71132, 71133); (71219, 71226); (71229, 71229); (71231, 71232);
   (71339, 71339); (71341, 71341); (71344, 71349); (71351, 71351);
   (71453, 71455); (71458, 71461); (71463, 71467); (71727, 71735);
   (71737, 71738); (71995, 71996); (71998, 71998); (72003, 72003);
   (72148, 72151); (72154, 72155); (72160, 72160); (72193, 72202);
   (72243, 72248); (72251, 72254); (72263, 72263); (72273, 72278);
   (72281, 72283); (72330, 72342); (72344, 72345); (72752, 72758);
   (72760, 72765); (72767, 72767); (72850, 72871); (72874, 72880);
   (72882, 72883); (72885, 72886); (73009, 73014); (73018, 73018);
   (73020, 73021); (73023, 73029); (73031, 73031); (73104, 73105);
   (73109, 73109); (73111, 73111); (73459, 73460); (78896, 78904);
   (92912, 92916); (92976, 92982); (92992, 92995); (94031, 94031);
   (94095, 94111); (94176, 94177); (94179, 94180); (110576, 110579);
   (110581, 110587); (110589, 110590); (113821, 113822); (113824, 113827);
   (118528, 118573); (118576, 118598); (119143, 119145); (119155, 119170);
   (119173, 119179); (119210, 119213); (119362, 119364); (121344, 121398);
   (121403, 121452); (121461, 121461); (121476, 121476); (121499, 121503);
   (121505, 121519); (122880, 122886); (122888, 122904); (122907, 122913);
   (122915, 122916); (122918, 122922); (123184, 123197); (123566, 123566);
   (123628, 123631); (125136, 125142); (125252, 125259); (127995, 127999);
   (917505, 917505); (917536, 917631); (917760, 917999)].

Definition cased_ranges : list (Z * Z) :=
  [(65, 90); (97, 122); (170, 170); (181, 181); (186, 186); (192, 214);
   (216, 246); (248, 442); (444, 447); (452, 659); (661, 687); (880, 883);
   (886, 887); (891, 893); (895, 895); (902, 902); (904, 906); (908, 908);
   (910, 929); (931, 1013); (1015, 1153); (1162, 1327); (1329, 1366);
   (1376, 1416); (4256, 4293); (4295, 4295); (4301, 4301); (4304, 4346);
   (4349, 4351); (5024, 5109); (5112, 5117); (7296, 7304); (7312, 7354);
   (7357, 7359); (7424, 7467); (7531, 7543); (7545, 7578); (7680, 7957);
   (7960, 7965); (7968, 8005); (8008, 8013); (8016, 8023); (8025, 8025);
   (8027, 8027); (8029, 8029); (8031, 8061); (8064, 8116); (8118, 8124);
   (8126, 8126); (8130, 8132); (8134, 8140); (8144, 8147); (8150, 8155);
   (8160, 8172); (8178, 8180); (8182, 8188); (8450, 8450); (8455, 8455);
   (8458, 8467); (8469, 8469); (8473, 8477); (8484, 8484); (8486, 8486);
   (8488, 8488); (8490, 8493); (8495, 8500); (8505, 8505); (8508, 8511);
   (8517, 8521); (8526, 8526); (8544, 8575); (8579, 8580); (9398, 9449);
   (11264, 11387); (11390, 11492); (11499, 11502); (11506, 11507);
   (11520, 11557); (11559, 11559); (11565, 11565); (42560, 42605);
   (42624, 42651); (42786, 42863); (42865, 42887); (42891, 42894);
   (42896, 42954); (42960, 42961); (42963, 42963); (42965, 42969);
   (42997, 42998); (43002, 43002); (43824, 43866); (43872, 43880);
   (43888, 43967); (64256, 64262); (64275, 64279); (65313, 65338);
   (65345, 65370); (66560, 66639); (66736, 66771); (66776, 66811);
   (66928, 66938); (66940, 66954); (66956, 66962); (66964, 66965);
   (66967, 66977); (66979, 66993); (66995, 67001); (67003, 67004);
   (68736, 68786); (68800, 68850); (71840, 71903); (93760, 93823);
   (119808, 119892); (119894, 119964); (119966, 119967); (119970, 119970);
   (119973, 119974); (119977, 119980); (119982, 119993); (119995, 119995);
   (119997, 120003); (120005, 120069); (120071, 120074); (120077, 120084);
   (120086, 120092); (120094, 120121); (120123, 120126); (120128, 120132);
   (120134, 120134); (120138, 120144); (120146, 120485); (120488, 120512);
   (120514, 120538); (120540, 120570); (120572, 120596); (120598, 120628);
   (120630, 120654); (120656, 120686); (120688, 120712); (120714, 120744);
   (120746, 120770); (120772, 120779); (122624, 122633); (122635, 122654);
   (125184, 125251); (127280, 127305); (127312, 127337); (127344, 127369)].

Definition in_row (cp : Z) (row : Z * Z * Z * Z) : bool :=
  let '(first, last, step, _) := row in
  (first <=? cp)%Z && (cp <=? last)%Z && ((cp - first) mod step =? 0)%Z.

Definition in_ranges (ranges : list (Z * Z)) (cp : Z) : bool :=
  existsb (fun r => (r.1 <=? cp)%Z && (cp <=? r.2)%Z) ranges.

(** The lower-case mapping of a code point; only the dotted capital I
    maps to more than one. *)
Definition lower_point (cp : Z) : list Z :=
  if (cp =? 304)%Z then [105; 775]
  else
    match find (in_row cp) lower_rows with
    | Some (_, _, _, delta) => [cp + delta]
    | None => [cp]
    end.

(** Past any case-ignorable code points a cased letter comes first. *)
Fixpoint cased_first (l : list Z) : bool :=
  match l with
  | [] => false
  | cp :: l' =>
      if in_ranges case_ignorable_ranges cp then cased_first l'
      else in_ranges cased_ranges cp
  end.

(** Lower-casing with the code points [before] (nearest first) and those
    that follow in view: the capital sigma (931) becomes the final sigma
    (962) after a cased letter and not before one, else the medial
    (963). *)
Fixpoint lower_from (before l : list Z) : list Z :=
  match l with
  | [] => []
  | cp :: l' =>
      (if (cp =? 931)%Z then
         if cased_first before && negb (cased_first l') then [962] else [963]
       else lower_point cp)
      ++ lower_from (cp :: before) l'
  end.

(** [s.toLowerCase()] *)
Definition toLowerCase (s : string) : string :=
  String_fromCodePoints (lower_from [] (codePoints s)).

(** [s.includes(sub)] *)
Fixpoint includes (s sub : string) : bool :=
  String.prefix sub s ||
  match s with
  | EmptyString => false
  | String _ s' => includes s' sub
  end.

(** Truthiness of an optional string field: absent and [''] are falsy. *)
Definition truthy_str (o : option string) : bool :=
  match o with
  | Some s => negb (String.eqb s "")
  | None => false
  end.

(** ** Errors and the result monad *)

Inductive exn : Type :=
  | TypeError (msg : string)
  | NotConnected
  | StoreError (collection : string).

Inductive result (A : Type) : Type :=
  | Ok (a : A)
  | Throw (e : exn).

Arguments Ok {A} a.
Arguments Throw {A} e.

Definition bind {A B} (m : result A) (k : A -> result B) : result B :=
  match m with
  | Ok a => k a
  | Throw e => Throw e
  end.

Notation "'await' x <- m ; k" := (bind m (fun x => k))
  (at level 10, x name, m at level 100, k at level 200).

(** [try { body } catch (error) { handler }] *)
Definition try_catch {A} (body : result A) (handler : exn -> A) : A :=
  match body with
  | Ok a => a
  | Throw e => handler e
  end.

(** [Promise.all(xs.map(f))], where [f] also receives the position. *)
Fixpoint Promise_all_from {A B} (f : nat -> A -> result B) (i : nat)
    (xs : list A) : result (list B) :=
  match xs with
  | [] => Ok []
  | x :: xs' =>
      await y <- f i x;
      await ys <- Promise_all_from f (S i) xs';
      Ok (y :: ys)
  end.

Definition Promise_all {A B} (f : nat -> A -> result B) (xs : list A)
    : result (list B) :=
  Promise_all_from f 0%nat xs.

(** ** Data model *)

Record LocationData : Type := {
  country : option string;
  province : option string;
  city : option string
}.

(** A document of [user_profiles]: onboarding data, lists of strings. *)
Module Profile.
Record t : Type := {
  interests : option (list string);
  skills : option (list string);
  location_data : option LocationData
}.
End Profile.

(** What a weight object holds under a key: a number, or the string that
    [+] makes once something other than a number was read. *)
Inductive WeightValue : Type :=
  | WNum (q : Q)
  | WStr (s : string).

(** A document of [user_preferences]: the weight maps that
    [updatePreferencesFromEngagement] maintains, objects keyed by tag.  A
    map holds the own keys of the object. *)
Module Preferences.
Record t : Type := {
  interests : option (gmap string WeightValue);
  skills : option (gmap string WeightValue);
  location_data : option LocationData;
  updated_at : option Z
}.
End Preferences.

(** A document of one of the content collections.  [created_at] is in
    milliseconds since the epoch. *)
Record ContentItem : Type := {
  _id : string;
  status : string;
  tags : option (list string);
  requirements : option (list string);
  location : option string;
  created_at : Z;
  likes_count : option Z;
  saves_count : option Z;
  views : option Z
}.

Record Scores : Type := {
  interestMatch : num;
  skillMatch : num;
  locationMatch : num;
  popularity : num;
  recency : num;
  explore : num
}.

(** A property of an object: missing, present holding [undefined], or
    present holding a value. *)
Inductive prop (A : Type) : Type :=
  | Absent
  | Undefined
  | Value (a : A).

Arguments Absent {A}.
Arguments Undefined {A}.
Arguments Value {A} a.

(** The objects that flow through the ranking pipeline:
    [{ ...item, type, score, scoreBreakdown }]. *)
Record Candidate : Type := {
  item : ContentItem;
  type : string;
  score : prop num;
  scoreBreakdown : prop Scores
}.

(** [x || 0] on a counter, [x || []] on a list, [x || ''] on a string. *)
Definition or0 (o : option Z) : Z := default 0 o.
Definition orEmpty (o : option (list string)) : list string := default [] o.
Definition orEmptyStr (o : option string) : string := default "" o.

(** ** The Scorer *)

Definition decayRate : Q := 1 # 10.
Definition exploreFactor : Q := 5 # 100.

(** The value of [userProfile?.interests || userPreferences?.interests || []]
    (and of its [skills] twin): a list of strings taken from the profile, a
    weight object taken from the preferences, or the literal [[]].  Arrays
    and objects are truthy, also when empty. *)
Inductive UserTerms : Type :=
  | FromArray (l : list string)
  | FromObject (m : gmap string WeightValue).

Definition userInterestsOf (userProfile : option Profile.t)
    (userPreferences : option Preferences.t) : UserTerms :=
  match userProfile ≫= Profile.interests with
  | Some l => FromArray l
  | None =>
      match userPreferences ≫= Preferences.interests with
      | Some m => FromObject m
      | None => FromArray []
      end
  end.

Definition userSkillsOf (userProfile : option Profile.t)
    (userPreferences : option Preferences.t) : UserTerms :=
  match userProfile ≫= Profile.skills with
  | Some l => FromArray l
  | None =>
      match userPreferences ≫= Preferences.skills with
      | Some m => FromObject m
      | None => FromArray []
      end
  end.

(** [u.length === 0].  On a weight object [length] is an ordinary key,
    which [Object.prototype] does not define. *)
Definition length_is_zero (u : UserTerms) : bool :=
  match u with
  | FromArray l => (length l =? 0)%nat
  | FromObject m =>
      match m !! "length" with
      | Some (WNum w) => Qzero w
      | Some (WStr _) | None => false
      end
  end.

(** [a.toLowerCase().includes(b.toLowerCase()) ||
     b.toLowerCase().includes(a.toLowerCase())] *)
Definition overlaps (a b : string) : bool :=
  includes (toLowerCase a) (toLowerCase b) ||
  includes (toLowerCase b) (toLowerCase a).

(** [xs.filter(x => us.some(u => ...))] *)
Definition matched (xs us : list string) : list string :=
  List.filter (fun x => existsb (fun u => overlaps u x) us) xs.

Definition not_a_function : exn :=
  TypeError "some is not a function".

Definition calculateInterestMatch (item : ContentItem)
    (userProfile : option Profile.t) (userPreferences : option Preferences.t)
    : result num :=
  let userInterests := userInterestsOf userProfile userPreferences in
  let itemTags := orEmpty (tags item) in
  if length_is_zero userInterests || (length itemTags =? 0)%nat then
    Ok (Fin 0)
  else
    match userInterests with
    | FromArray us =>
        let matchedInterests := matched itemTags us in
        Ok (num_mul (num_div (of_nat (length matchedInterests))
                             (of_nat (length us)))
                    (Fin 100))
    | FromObject _ => Throw not_a_function
    end.

Definition calculateSkillMatch (item : ContentItem)
    (userProfile : option Profile.t) (userPreferences : option Preferences.t)
    : result num :=
  let userSkills := userSkillsOf userProfile userPreferences in
  let itemRequirements := orEmpty (requirements item) in
  if length_is_zero userSkills || (length itemRequirements =? 0)%nat then
    Ok (Fin 0)
  else
    match userSkills with
    | FromArray us =>
        let matchedSkills := matched itemRequirements us in
        Ok (num_mul (num_div (of_nat (length matchedSkills))
                             (of_nat (length itemRequirements)))
                    (Fin 100))
    | FromObject _ => Throw not_a_function
    end.

Definition noLocation : LocationData :=
  {| country := None; province := None; city := None |}.

(** [userProfile?.location_data || userPreferences?.location_data || {}] *)
Definition userLocationOf (userProfile : option Profile.t)
    (userPreferences : option Preferences.t) : LocationData :=
  match userProfile ≫= Profile.location_data with
  | Some l => l
  | None => default noLocation (userPreferences ≫= Preferences.location_data)
  end.

(** [field && itemLocation.toLowerCase().includes(field.toLowerCase())] *)
Definition located (itemLocation : string) (field : option string) : bool :=
  truthy_str field &&
  includes (toLowerCase itemLocation) (toLowerCase (orEmptyStr field)).

Definition calculateLocationMatch (item : ContentItem)
    (userProfile : option Profile.t) (userPreferences : option Preferences.t)
    : num :=
  let userLocation := userLocationOf userProfile userPreferences in
  let itemLocation := orEmptyStr (location item) in
  if negb (truthy_str (country userLocation)) &&
     negb (truthy_str (province userLocation)) &&
     negb (truthy_str (city userLocation)) then Fin 50
  else if includes (toLowerCase itemLocation) "remote" ||
          includes (toLowerCase itemLocation) "virtual" ||
          includes (toLowerCase itemLocation) "online" then Fin 100
  else if located itemLocation (city userLocation) then Fin 100
  else if located itemLocation (province userLocation) then Fin 80
  else if located itemLocation (country userLocation) then Fin 60
  else Fin 20.

Definition msPerDay : Z := 1000 * 60 * 60 * 24.

(** [(Date.now() - new Date(item.created_at).getTime()) / (1000*60*60*24)] *)
Definition ageInDays (now : Z) (item : ContentItem) : num :=
  num_div (of_Z (now - created_at item)) (of_Z msPerDay).

Definition calculateDecayedPopularity (now : Z) (item : ContentItem) : num :=
  let likes := or0 (likes_count item) in
  let saves := or0 (saves_count item) in
  let views := or0 (views item) in
  let popularity := likes + saves + views in
  let decayedPopularity :=
    num_div (of_Z popularity)
            (num_add (Fin 1) (num_mul (ageInDays now item) (Fin decayRate))) in
  Math_min (num_div decayedPopularity (Fin 10)) (Fin 100).

Definition calculateRecency (now : Z) (item : ContentItem) : num :=
  let age := ageInDays now item in
  if num_leb age (Fin 1) then Fin 100
  else if num_leb age (Fin 7) then Fin 80
  else if num_leb age (Fin 30) then Fin 60
  else if num_leb age (Fin 90) then Fin 40
  else Fin 20.

(** [Math.random() * 100]; [random] is the draw. *)
Definition calculateExploreFactor (random : Q) (item : ContentItem) : num :=
  num_mul (Fin random) (Fin 100).

Definition weighted (s : Scores) : num :=
  num_add (num_add (num_add (num_add (num_add
    (num_mul (interestMatch s) (Fin (4 # 10)))
    (num_mul (skillMatch s) (Fin (25 # 100))))
    (num_mul (locationMatch s) (Fin (5 # 100))))
    (num_mul (popularity s) (Fin (15 # 100))))
    (num_mul (recency s) (Fin (1 # 10))))
    (num_mul (explore s) (Fin (5 # 100))).

Definition anyUser (userProfile : option Profile.t)
    (userPreferences : option Preferences.t) : bool :=
  bool_decide (is_Some userProfile) || bool_decide (is_Some userPreferences).

(** The three personalised sub-scores, computed only when a profile or a
    preferences document is there. *)
Definition personalScores (it : ContentItem)
    (userProfile : option Profile.t) (userPreferences : option Preferences.t)
    : result (num * num * num) :=
  if anyUser userProfile userPreferences then
    await i <- calculateInterestMatch it userProfile userPreferences;
    await s <- calculateSkillMatch it userProfile userPreferences;
    Ok (i, s, calculateLocationMatch it userProfile userPreferences)
  else Ok (Fin 0, Fin 0, Fin 0).

Definition calculateScore (now : Z) (random : Q) (c : Candidate)
    (userProfile : option Profile.t) (userPreferences : option Preferences.t)
    : result Candidate :=
  await p <- personalScores (item c) userProfile userPreferences;
  let scores :=
    {| interestMatch := p.1.1;
       skillMatch := p.1.2;
       locationMatch := p.2;
       popularity := calculateDecayedPopularity now (item c);
       recency := calculateRecency now (item c);
       explore := calculateExploreFactor random (item c) |} in
  let totalScore := weighted scores in
  Ok {| item := item c; type := type c;
        score := Value totalScore; scoreBreakdown := Value scores |}.

(** ** The database *)

(** The state of the store: the documents of the collections the engine
    reads and writes, whether [connectDB] has run, and the collections on
    which an operation currently rejects. *)
Record DB : Type := {
  connected : bool;
  failing : list string;
  user_profiles : gmap string Profile.t;
  user_preferences : gmap string Preferences.t;
  opportunities : list ContentItem;
  events : list ContentItem;
  jobs : list ContentItem;
  resources : list ContentItem
}.

Definition getDB (db : DB) : result DB :=
  if connected db then Ok db else Throw NotConnected.

(** [db.collection(name)] followed by an operation that may reject. *)
Definition collection (db : DB) (name : string) : result unit :=
  if existsb (String.eqb name) (failing db) then Throw (StoreError name)
  else Ok tt.

(** [db.collection('user_profiles').findOne({ user_id })] *)
Definition findOne_profile (db : DB) (userId : string)
    : result (option Profile.t) :=
  await _ <- collection db "user_profiles";
  Ok (user_profiles db !! userId).

(** [db.collection('user_preferences').findOne({ user_id })] *)
Definition findOne_preferences (db : DB) (userId : string)
    : result (option Preferences.t) :=
  await _ <- collection db "user_preferences";
  Ok (user_preferences db !! userId).

Definition content_of (db : DB) (name : string) : list ContentItem :=
  if String.eqb name "opportunities" then opportunities db
  else if String.eqb name "events" then events db
  else if String.eqb name "jobs" then jobs db
  else if String.eqb name "resources" then resources db
  else [].

Definition is_active (it : ContentItem) : bool :=
  String.eqb (status it) "active".

(** [db.collection(name).find({ status: 'active' }).toArray()] *)
Definition find_active (db : DB) (name : string) : result (list ContentItem) :=
  await _ <- collection db name;
  Ok (List.filter is_active (content_of db name)).

(** [db.collection('user_preferences').updateOne({ user_id }, { $set })];
    no upsert: without a matching document nothing is written. *)
Definition updateOne_preferences (db : DB) (userId : string)
    (set : Preferences.t -> Preferences.t) : result DB :=
  await _ <- collection db "user_preferences";
  Ok {| connected := connected db;
        failing := failing db;
        user_profiles := user_profiles db;
        user_preferences := alter set userId (user_preferences db);
        opportunities := opportunities db;
        events := events db;
        jobs := jobs db;
        resources := resources db |}.

(** ** Arrays *)

(** The order that ECMAScript requires of [sort] for a consistent
    comparator, the stable sort, computed by insertion:
    [comparefn(a, b) > 0] puts [b] first. *)
Fixpoint sort_insert {A} (comparefn : A -> A -> num) (x : A) (l : list A)
    : list A :=
  match l with
  | [] => [x]
  | y :: l' =>
      if num_positive (comparefn x y) then y :: sort_insert comparefn x l'
      else x :: l
  end.

Fixpoint stable_sort {A} (comparefn : A -> A -> num) (l : list A)
    : list A :=
  match l with
  | [] => []
  | x :: l' => sort_insert comparefn x (stable_sort comparefn l')
  end.

(** [n < 0], [n = 0] or [n > 0]; none of them holds of [NaN]. *)
Definition has_sign (s : comparison) (n : num) : bool :=
  match n, s with
  | Fin q, Lt => negb (Qle_bool 0 q)
  | Fin q, Eq => Qzero q
  | Fin q, Gt => Qpos q
  | NegInf, Lt | PosInf, Gt => true
  | _, _ => false
  end.

Definition is_NaN (n : num) : bool :=
  match n with
  | NaN => true
  | _ => false
  end.

(** [comparefn] is a consistent comparator for the elements of [l], as
    ECMAScript defines it: no result is [NaN]; [a =CF a]; [a =CF b]
    implies [b =CF a]; and each of [=CF], [<CF] and [>CF] is
    transitive. *)
Definition consistent {A} (comparefn : A -> A -> num) (l : list A) : bool :=
  let holds s a b := has_sign s (comparefn a b) in
  let transitive s a b c :=
    implb (holds s a b && holds s b c) (holds s a c) in
  forallb
    (fun a =>
       holds Eq a a &&
       forallb
         (fun b =>
            negb (is_NaN (comparefn a b)) &&
            implb (holds Eq a b) (holds Eq b a) &&
            forallb
              (fun c =>
                 transitive Eq a b c && transitive Lt a b c &&
                 transitive Gt a b c)
              l)
         l)
    l.

(** The exchange of the elements at the positions [i] and [i + 1], and
    the order that a sequence of such exchanges leads to. *)
Fixpoint swap_at {A} (i : nat) (l : list A) : list A :=
  match i, l with
  | O, x :: y :: l' => y :: x :: l'
  | S i', x :: l' => x :: swap_at i' l'
  | _, _ => l
  end.

Definition rearrange {A} (swaps : list nat) (l : list A) : list A :=
  fold_left (fun l i => swap_at i l) swaps l.

(** What ECMAScript leaves to the engine.  When [comparefn] is not a
    consistent comparator the elements come back in an order that the
    implementation defines.  The choice is a parameter: from the results
    of all the comparisons to the exchanges of neighbours that lead from
    the given order to the engine's. *)
Definition SortChoice : Type := list (list num) -> list nat.

Definition comparisons {A} (comparefn : A -> A -> num) (l : list A)
    : list (list num) :=
  map (fun a => map (comparefn a) l) l.

(** [l.sort(comparefn)]: the stable sort for a consistent comparator, an
    order of the engine's choosing otherwise. *)
Definition sort {A} (impl : SortChoice) (comparefn : A -> A -> num)
    (l : list A) : list A :=
  if consistent comparefn l then stable_sort comparefn l
  else rearrange (impl (comparisons comparefn l)) l.

(** [l.slice(0, end)] for an integer [end]: a negative [end] counts from
    the back. *)
Definition slice0 {A} (l : list A) (stop : Z) : list A :=
  if (stop <? 0)%Z then
    firstn (Z.to_nat (Z.max (Z.of_nat (length l) + stop) 0)) l
  else firstn (Z.to_nat stop) l.

(** ** The Ranker and the Cold-Start Selector *)

(** [{ ...item, type: t }] *)
Definition typed (t : string) (it : ContentItem) : Candidate :=
  {| item := it; type := t; score := Absent; scoreBreakdown := Absent |}.

(** One [if (contentType === 'all' || contentType === t)] block of
    [getActiveContent]. *)
Definition push_active (db : DB) (contentType t name : string)
    (collections : list Candidate) : result (list Candidate) :=
  if String.eqb contentType "all" || String.eqb contentType t then
    await docs <- find_active db name;
    Ok (collections ++ map (typed t) docs)%list
  else Ok collections.

Definition getActiveContent (db : DB) (contentType : string)
    : result (list Candidate) :=
  await db <- getDB db;
  let collections := [] in
  await collections <-
    push_active db contentType "opportunity" "opportunities" collections;
  await collections <- push_active db contentType "event" "events" collections;
  await collections <- push_active db contentType "job" "jobs" collections;
  await collections <-
    push_active db contentType "resource" "resources" collections;
  Ok collections.

(** [x.score] read as a number. *)
Definition score_num (c : Candidate) : num :=
  match score c with
  | Value n => n
  | Absent | Undefined => NaN
  end.

(** [(a, b) => b.score - a.score] *)
Definition by_score_desc (a b : Candidate) : num :=
  num_sub (score_num b) (score_num a).

(** [{ ...item, score: s }] *)
Definition with_score (s : prop num) (c : Candidate) : Candidate :=
  {| item := item c; type := type c; score := s;
     scoreBreakdown := scoreBreakdown c |}.

(** [(item.likes_count || 0) + (item.saves_count || 0) + (item.views || 0)] *)
Definition rawPopularity (it : ContentItem) : Z :=
  or0 (likes_count it) + or0 (saves_count it) + or0 (views it).

Definition getColdStartRecommendations (impl : SortChoice) (db : DB)
    (contentType : string) (limit : Z) : result (list Candidate) :=
  await _ <- getDB db;
  await content <- getActiveContent db contentType;
  Ok (map (with_score Undefined)
        (slice0
           (sort impl by_score_desc
              (map (fun c => with_score (Value (of_Z (rawPopularity (item c)))) c)
                   content))
           limit)).

(** The body of the [try] block of [getRecommendations].  [random i] is the
    draw of [Math.random()] made while scoring the [i]-th item. *)
Definition getRecommendations_body (impl : SortChoice) (now : Z)
    (random : nat -> Q) (db : DB) (userId contentType : string) (limit : Z)
    : result (list Candidate) :=
  await db <- getDB db;
  await userProfile <- findOne_profile db userId;
  await userPreferences <- findOne_preferences db userId;
  if negb (bool_decide (is_Some userProfile)) &&
     negb (bool_decide (is_Some userPreferences)) then
    getColdStartRecommendations impl db contentType limit
  else
    await content <- getActiveContent db contentType;
    await scoredContent <-
      Promise_all
        (fun i c => calculateScore now (random i) c userProfile userPreferences)
        content;
    Ok (map (with_score Undefined)
          (slice0 (sort impl by_score_desc scoredContent) limit)).

Definition getRecommendations (impl : SortChoice) (now : Z)
    (random : nat -> Q) (db : DB) (userId contentType : string) (limit : Z)
    : list Candidate :=
  try_catch
    (getRecommendations_body impl now random db userId contentType limit)
    (fun error => []).

(** ** The Preference Learner *)

(** The number literals that the learner adds, [1] and [0.5], each with
    the string that [+] appends for it to a string. *)
Inductive Amount : Type :=
  | One
  | Half.

Definition amount_value (d : Amount) : Q :=
  match d with
  | One => 1
  | Half => 1 # 2
  end.

Definition amount_text (d : Amount) : string :=
  match d with
  | One => "1"
  | Half => "0.5"
  end.

(** The functions that every object inherits from [Object.prototype]. *)
Definition prototype_functions : list string :=
  ["constructor"; "__defineGetter__"; "__defineSetter__"; "hasOwnProperty";
   "__lookupGetter__"; "__lookupSetter__"; "isPrototypeOf";
   "propertyIsEnumerable"; "toString"; "valueOf"; "toLocaleString"].

(** The member that a plain object inherits under [key], as the string
    that [+] converts it to: [constructor] is [Object], the other
    functions carry their own name, and [__proto__] is the prototype
    object. *)
Definition inherited (key : string) : option string :=
  if String.eqb key "__proto__" then Some "[object Object]"
  else if String.eqb key "constructor" then
    Some "function Object() { [native code] }"
  else if existsb (String.eqb key) prototype_functions then
    Some ("function " ++ key ++ "() { [native code] }")
  else None.

(** [m[key]]: the own value, else the inherited member, else
    [undefined]. *)
Definition member (m : gmap string WeightValue) (key : string)
    : option WeightValue :=
  match m !! key with
  | Some v => Some v
  | None => WStr <$> inherited key
  end.

(** [v || 0]: [undefined], [0] and [''] are falsy. *)
Definition or_zero (v : option WeightValue) : WeightValue :=
  match v with
  | Some (WNum q) => WNum q
  | Some (WStr s) => if String.eqb s "" then WNum 0 else WStr s
  | None => WNum 0
  end.

(** [v + delta]: the sum of two numbers, the concatenation for a
    string. *)
Definition plus (v : WeightValue) (delta : Amount) : WeightValue :=
  match v with
  | WNum q => WNum (q + amount_value delta)
  | WStr s => WStr (s ++ amount_text delta)
  end.

(** [m[key] = v] for a number or a string [v].  On an object without an
    own key [__proto__] the assignment to [__proto__] goes to the inherited
    setter, which ignores what is not an object. *)
Definition assign (m : gmap string WeightValue) (key : string)
    (v : WeightValue) : gmap string WeightValue :=
  if String.eqb key "__proto__" && negb (bool_decide (is_Some (m !! key)))
  then m
  else <[key := v]> m.

(** [m[key] = (m[key] || 0) + delta] *)
Definition bump (delta : Amount) (m : gmap string WeightValue) (key : string)
    : gmap string WeightValue :=
  assign m key (plus (or_zero (member m key)) delta).

(** [keys.forEach(key => { m[key] = (m[key] || 0) + delta })] *)
Definition bump_all (delta : Amount) (keys : list string)
    (m : gmap string WeightValue) : gmap string WeightValue :=
  fold_left (bump delta) keys m.

(** [preferences.interests || {}] *)
Definition orEmptyObj (o : option (gmap string WeightValue))
    : gmap string WeightValue :=
  default ∅ o.

(** The [$set] of the [save]/[like] branch. *)
Definition set_interests_skills
    (currentInterests currentSkills : gmap string WeightValue)
    (now : Z) (p : Preferences.t) : Preferences.t :=
  {| Preferences.interests := Some currentInterests;
     Preferences.skills := Some currentSkills;
     Preferences.location_data := Preferences.location_data p;
     Preferences.updated_at := Some now |}.

(** The [$set] of the [click_through] branch. *)
Definition set_interests (currentInterests : gmap string WeightValue)
    (now : Z) (p : Preferences.t) : Preferences.t :=
  {| Preferences.interests := Some currentInterests;
     Preferences.skills := Preferences.skills p;
     Preferences.location_data := Preferences.location_data p;
     Preferences.updated_at := Some now |}.

(** The body of the [try] block of [updatePreferencesFromEngagement]; the
    result is the state of the database afterwards. *)
Definition updatePreferences_body (now : Z) (db : DB)
    (userId engagementType : string) (itemData : ContentItem) : result DB :=
  await db <- getDB db;
  await found <- findOne_preferences db userId;
  match found with
  | None => Ok db
  | Some preferences =>
      await db <-
        (if String.eqb engagementType "save" ||
            String.eqb engagementType "like" then
           let tags := orEmpty (tags itemData) in
           let requirements := orEmpty (requirements itemData) in
           let currentInterests :=
             bump_all One tags
                      (orEmptyObj (Preferences.interests preferences)) in
           let currentSkills :=
             bump_all One requirements
                      (orEmptyObj (Preferences.skills preferences)) in
           updateOne_preferences db userId
             (set_interests_skills currentInterests currentSkills now)
         else Ok db);
      if String.eqb engagementType "click_through" then
        let tags := orEmpty (tags itemData) in
        let currentInterests :=
          bump_all Half tags
                   (orEmptyObj (Preferences.interests preferences)) in
        updateOne_preferences db userId (set_interests currentInterests now)
      else Ok db
  end.

Definition updatePreferencesFromEngagement (now : Z) (db : DB)
    (userId engagementType : string) (itemData : ContentItem) : DB :=
  try_catch (updatePreferences_body now db userId engagementType itemData)
            (fun error => db).

(** ** Derived notions used in the statements *)

(** The age in days as a rational. *)
Definition ageQ (now : Z) (it : ContentItem) : Q :=
  (inject_Z (now - created_at it) / inject_Z msPerDay)%Q.







(** The keys of a weight object. *)
Definition keys (m : gmap string WeightValue) : list string :=
  (map_to_list m).*1.

(** The interests and the skills of a user as the specification words
    them: the keys of the preferences when the user has them, those of the
    profile only when the preferences are absent. *)
Definition interests_spec (userProfile : option Profile.t)
    (userPreferences : option Preferences.t) : list string :=
  match userPreferences ≫= Preferences.interests with
  | Some m => keys m
  | None => orEmpty (userProfile ≫= Profile.interests)
  end.

Definition skills_spec (userProfile : option Profile.t)
    (userPreferences : option Preferences.t) : list string :=
  match userPreferences ≫= Preferences.skills with
  | Some m => keys m
  | None => orEmpty (userProfile ≫= Profile.skills)
  end.

(** [interestMatch] and [skillMatch] over those lists. *)
Definition interestMatch_spec (it : ContentItem)
    (userProfile : option Profile.t) (userPreferences : option Preferences.t)
    : num :=
  let U := interests_spec userProfile userPreferences in
  let T := orEmpty (tags it) in
  if (length U =? 0)%nat || (length T =? 0)%nat then Fin 0
  else num_mul (num_div (of_nat (length (matched T U))) (of_nat (length U)))
               (Fin 100).

Definition skillMatch_spec (it : ContentItem)
    (userProfile : option Profile.t) (userPreferences : option Preferences.t)
    : num :=
  let U := skills_spec userProfile userPreferences in
  let R := orEmpty (requirements it) in
  if (length U =? 0)%nat || (length R =? 0)%nat then Fin 0
  else num_mul (num_div (of_nat (length (matched R U))) (of_nat (length R)))
               (Fin 100).


(** The four content kinds, each with its collection, in the order in
    which [getActiveContent] visits them. *)
Definition kinds : list (string * string) :=
  [("opportunity", "opportunities"); ("event", "events");
   ("job", "jobs"); ("resource", "resources")].

Definition selected (contentType t : string) : bool :=
  String.eqb contentType "all" || String.eqb contentType t.

(** The active documents of the requested kind, each annotated with its
    kind; all four kinds for [all]. *)
Definition active_of (db : DB) (contentType : string) : list Candidate :=
  flat_map
    (fun k =>
       if selected contentType k.1 then
         map (typed k.1) (List.filter is_active (content_of db k.2))
       else [])
    kinds.

(** The documents of one collection that the request asks for: those with
    status [active], each marked with the kind [t], when [contentType] is
    [all] or [t]. *)
Definition active_documents (contentType t : string) (l : list ContentItem)
    : list Candidate :=
  if String.eqb contentType "all" || String.eqb contentType t then
    map (typed t) (List.filter (fun it => String.eqb (status it) "active") l)
  else [].

(** The active content of the requested type as the store holds it: the
    opportunities, the events, the jobs and the resources, in this
    order. *)
Definition active_content (db : DB) (contentType : string)
    : list Candidate :=
  (active_documents contentType "opportunity" (opportunities db) ++
   active_documents contentType "event" (events db) ++
   active_documents contentType "job" (jobs db) ++
   active_documents contentType "resource" (resources db))%list.


(** [{ ...item, score: likes + saves + views }] *)
Definition coldScored (c : Candidate) : Candidate :=
  with_score (Value (of_Z (rawPopularity (item c)))) c.

(** The comparator of the cold-start sort, on the unscored candidates. *)
Definition by_popularity_desc (a b : Candidate) : num :=
  by_score_desc (coldScored a) (coldScored b).

(** The active content of the requested kind in cold-start order. *)
Definition coldRanking (db : DB) (contentType : string) : list Candidate :=
  stable_sort by_popularity_desc (active_of db contentType).

(** The names of the members of [Object.prototype]. *)
Definition prototype_names : list string :=
  ["__proto__"; "constructor"; "__defineGetter__"; "__defineSetter__";
   "hasOwnProperty"; "__lookupGetter__"; "__lookupSetter__"; "isPrototypeOf";
   "propertyIsEnumerable"; "toString"; "valueOf"; "toLocaleString"].

(** The weight that a weight object holds for a key: the number stored
    under it, and 0 for a key that is neither stored nor the name of a
    member of [Object.prototype].  A key under which a string is stored,
    or under which the prototype's member would be read, has none. *)
Definition number_at (m : gmap string WeightValue) (key : string)
    : option Q :=
  match m !! key with
  | Some (WNum q) => Some q
  | Some (WStr _) => None
  | None =>
      if existsb (String.eqb key) prototype_names then None else Some 0%Q
  end.

(** The weight of a key in an optional weight object. *)
Definition weight (o : option (gmap string WeightValue)) (key : string)
    : option Q :=
  number_at (orEmptyObj o) key.

(** How often a key occurs in a list of tags or requirements. *)
Fixpoint occurrences (key : string) (l : list string) : nat :=
  match l with
  | [] => 0
  | x :: l' => (if String.eqb x key then 1 else 0) + occurrences key l'
  end.

Definition times (n : nat) (delta : Q) : Q :=
  (inject_Z (Z.of_nat n) * delta)%Q.

(** ** Sample items, users and stores *)

(** An engine that leaves the elements of an array it need not sort where
    they are. *)
Definition keep_order : SortChoice := fun _ => [].

Definition item_created_at (t : Z) : ContentItem :=
  {| _id := "item"; status := "active"; tags := None; requirements := None;
     location := None; created_at := t;
     likes_count := None; saves_count := None; views := None |}.






Definition tech_item : ContentItem :=
  {| _id := "job-1"; status := "active";
     tags := Some ["tech"; "technology"; "fintech"];
     requirements := None; location := None; created_at := 0;
     likes_count := None; saves_count := None; views := None |}.

Definition tech_profile : Profile.t :=
  {| Profile.interests := Some ["tech"]; Profile.skills := None;
     Profile.location_data := None |}.

Definition blank_preferences : Preferences.t :=
  {| Preferences.interests := None; Preferences.skills := None;
     Preferences.location_data := None; Preferences.updated_at := None |}.

(** A store with one active job and a user [u] who has a preferences
    document and no profile. *)
Definition learner_db : DB :=
  {| connected := true; failing := [];
     user_profiles := ∅;
     user_preferences := {[ "u" := blank_preferences ]};
     opportunities := []; events := []; jobs := [tech_item];
     resources := [] |}.

Definition art_item : ContentItem :=
  {| _id := "event-1"; status := "active";
     tags := Some ["art"]; requirements := Some ["painting"];
     location := None; created_at := 0;
     likes_count := None; saves_count := None; views := None |}.

(** An event tagged with the name of a member of [Object.prototype]. *)
Definition constructor_item : ContentItem :=
  {| _id := "event-2"; status := "active";
     tags := Some ["art"; "constructor"]; requirements := None;
     location := None; created_at := 0;
     likes_count := None; saves_count := None; views := None |}.

Definition art_profile : Profile.t :=
  {| Profile.interests := Some ["art"]; Profile.skills := Some ["painting"];
     Profile.location_data := None |}.

Definition tech_preferences : Preferences.t :=
  {| Preferences.interests := Some {[ "tech" := WNum 1 ]};
     Preferences.skills := Some {[ "python" := WNum 1 ]};
     Preferences.location_data := None; Preferences.updated_at := None |}.

Definition job_with (name : string) (likes saves seen : option Z)
    : ContentItem :=
  {| _id := name; status := "active"; tags := None; requirements := None;
     location := None; created_at := 0;
     likes_count := likes; saves_count := saves; views := seen |}.

(** A store with three active jobs and no user document at all. *)
Definition jobs_db : DB :=
  {| connected := true; failing := [];
     user_profiles := ∅; user_preferences := ∅;
     opportunities := []; events := [];
     jobs := [job_with "a" (Some 1) None (Some 3);
              job_with "b" (Some 5) (Some 2) (Some 10);
              job_with "c" None None None];
     resources := [] |}.


(** A store with one active job and a user [p] who has a profile. *)
Definition member_db : DB :=
  {| connected := true; failing := [];
     user_profiles := {[ "p" := tech_profile ]};
     user_preferences := ∅;
     opportunities := []; events := []; jobs := [tech_item];
     resources := [] |}.

(** A store with three active jobs, of which the tagged one stands first
    and is the best match for [p], the much seen one the second best. *)
Definition ranked_db : DB :=
  {| connected := true; failing := [];
     user_profiles := {[ "p" := tech_profile ]};
     user_preferences := ∅;
     opportunities := []; events := [];
     jobs := [job_with "plain" None None None;
              job_with "seen" None None (Some 500);
              tech_item];
     resources := [] |}.

(** A store on which [jobs] rejects, and one that was never connected. *)
Definition broken_db : DB :=
  {| connected := true; failing := ["jobs"];
     user_profiles := ∅; user_preferences := ∅;
     opportunities := []; events := [];
     jobs := [job_with "a" (Some 1) None (Some 3)]; resources := [] |}.

Definition offline_db : DB :=
  {| connected := false; failing := [];
     user_profiles := ∅; user_preferences := ∅;
     opportunities := []; events := []; jobs := []; resources := [] |}.

(** * The engagement routes of [routes/engagement.js]

    The handlers behind [POST /save], [DELETE /save/:item_id/:item_type],
    [POST /like], [DELETE /like/:item_id/:item_type] and [POST /click], after
    [authenticateToken] has put the user on the request.  A handler is a
    function from the store to the store and the response.  What a handler
    wrote before an operation rejected stays written: the state is threaded
    through [try]/[catch]. *)

(** A document of [saved_items] or of [likes]; a like has no [notes], and
    [at] is its [saved_at] or [liked_at]. *)
Module Entry.
Record t : Type := {
  user_id : string;
  item_id : string;
  item_type : string;
  notes : option string;
  at_time : Z
}.
End Entry.

(** A document of [click_throughs]. *)
Module Click.
Record t : Type := {
  user_id : string;
  item_id : string;
  item_type : string;
  external_url : string;
  clicked_at : Z;
  time_spent_on_page : Z;
  user_agent : string;
  referrer_page : string
}.
End Click.

(** The body of a [POST] request, as far as the handlers read it. *)
Module Body.
Record t : Type := {
  item_id : option string;
  item_type : option string;
  notes : option string;
  external_url : option string;
  time_spent : option Z
}.
End Body.

(** The store of the engagement routes: the collections of the engine, the
    three engagement collections, and every content collection that a
    route names and the engine does not ([opportunitys], for one). *)
Record Store : Type := {
  engine : DB;
  saved_items : list Entry.t;
  likes : list Entry.t;
  click_throughs : list Click.t;
  others : gmap string (list ContentItem)
}.

(** [res.status(status).json({ success, message | error })] *)
Record Response : Type := {
  status_code : nat;
  success : bool;
  message : string
}.

(** The two engagement marks, which the source handles by the same code
    over different collections and counters. *)
Inductive Mark : Type :=
  | Saved
  | Liked.

Definition entries_name (k : Mark) : string :=
  match k with
  | Saved => "saved_items"
  | Liked => "likes"
  end.

Definition entries (k : Mark) (st : Store) : list Entry.t :=
  match k with
  | Saved => saved_items st
  | Liked => likes st
  end.

Definition set_entries (k : Mark) (l : list Entry.t) (st : Store) : Store :=
  match k with
  | Saved =>
      {| engine := engine st; saved_items := l; likes := likes st;
         click_throughs := click_throughs st; others := others st |}
  | Liked =>
      {| engine := engine st; saved_items := saved_items st; likes := l;
         click_throughs := click_throughs st; others := others st |}
  end.

Definition set_engine (d : DB) (st : Store) : Store :=
  {| engine := d; saved_items := saved_items st; likes := likes st;
     click_throughs := click_throughs st; others := others st |}.

(** The content collections that the engine reads. *)
Definition is_engine_collection (name : string) : bool :=
  existsb (String.eqb name) ["opportunities"; "events"; "jobs"; "resources"].

(** The documents of the content collection [name]. *)
Definition docs (st : Store) (name : string) : list ContentItem :=
  if is_engine_collection name then content_of (engine st) name
  else default [] (others st !! name).

Definition with_content (db : DB) (name : string) (l : list ContentItem)
    : DB :=
  {| connected := connected db;
     failing := failing db;
     user_profiles := user_profiles db;
     user_preferences := user_preferences db;
     opportunities :=
       if String.eqb name "opportunities" then l else opportunities db;
     events := if String.eqb name "events" then l else events db;
     jobs := if String.eqb name "jobs" then l else jobs db;
     resources := if String.eqb name "resources" then l else resources db |}.

(** The documents of the content collection [name] rewritten by [f];
    a collection that does not exist is not created. *)
Definition update_docs (name : string)
    (f : list ContentItem -> list ContentItem) (st : Store) : Store :=
  if is_engine_collection name then
    set_engine
      (with_content (engine st) name (f (content_of (engine st) name))) st
  else
    {| engine := engine st; saved_items := saved_items st;
       likes := likes st; click_throughs := click_throughs st;
       others := alter f name (others st) |}.

(** [updateOne]: the first matching document is rewritten. *)
Fixpoint update_first {A} (p : A -> bool) (f : A -> A) (l : list A)
    : list A :=
  match l with
  | [] => []
  | x :: l' => if p x then f x :: l' else x :: update_first p f l'
  end.

(** [deleteOne]: the first matching document is removed. *)
Fixpoint delete_first {A} (p : A -> bool) (l : list A) : list A :=
  match l with
  | [] => []
  | x :: l' => if p x then l' else x :: delete_first p l'
  end.

(** [{ $inc: { saves_count: d } }] and [{ $inc: { likes_count: d } }]; a
    missing counter starts from 0. *)
Definition inc_counter (k : Mark) (d : Z) (it : ContentItem) : ContentItem :=
  match k with
  | Saved =>
      {| _id := _id it; status := status it; tags := tags it;
         requirements := requirements it; location := location it;
         created_at := created_at it; likes_count := likes_count it;
         saves_count := Some (or0 (saves_count it) + d);
         views := views it |}
  | Liked =>
      {| _id := _id it; status := status it; tags := tags it;
         requirements := requirements it; location := location it;
         created_at := created_at it;
         likes_count := Some (or0 (likes_count it) + d);
         saves_count := saves_count it;
         views := views it |}
  end.

(** Computations over the store that may reject. *)
Definition io (A : Type) : Type := Store -> Store * result A.

Definition io_ret {A} (a : A) : io A := fun st => (st, Ok a).

Definition io_bind {A B} (m : io A) (k : A -> io B) : io B :=
  fun st =>
    match m st with
    | (st', Ok a) => k a st'
    | (st', Throw e) => (st', Throw e)
    end.

Notation "'step' x <- m ; k" := (io_bind m (fun x => k))
  (at level 10, x name, m at level 100, k at level 200).

(** [try { body } catch (error) { return handler }] around a handler. *)
Definition io_catch {A} (body : io A) (handler : A) : Store -> Store * A :=
  fun st =>
    match body st with
    | (st', Ok a) => (st', a)
    | (st', Throw _) => (st', handler)
    end.

(** [getDB()] *)
Definition io_getDB : io unit :=
  fun st =>
    (st, if connected (engine st) then Ok tt else Throw NotConnected).

(** An operation on the collection [name], which rejects when the
    collection is failing. *)
Definition on_collection {A} (name : string) (op : Store -> Store * A)
    : io A :=
  fun st =>
    match collection (engine st) name with
    | Ok _ => let (st', a) := op st in (st', Ok a)
    | Throw e => (st, Throw e)
    end.

(** The filter [{ user_id, item_id, item_type }]. *)
Definition entry_matches (userId itemId itemType : string) (e : Entry.t)
    : bool :=
  String.eqb (Entry.user_id e) userId &&
  String.eqb (Entry.item_id e) itemId &&
  String.eqb (Entry.item_type e) itemType.

(** [db.collection(entries).findOne({ user_id, item_id, item_type })] *)
Definition entry_findOne (k : Mark) (userId itemId itemType : string)
    : io (option Entry.t) :=
  on_collection (entries_name k)
    (fun st => (st, find (entry_matches userId itemId itemType)
                         (entries k st))).

(** [db.collection(entries).insertOne(entry)] *)
Definition entry_insertOne (k : Mark) (e : Entry.t) : io unit :=
  on_collection (entries_name k)
    (fun st => (set_entries k (entries k st ++ [e])%list st, tt)).

(** [db.collection(entries).deleteOne({ ... })]; the result is
    [deletedCount]. *)
Definition entry_deleteOne (k : Mark) (userId itemId itemType : string)
    : io nat :=
  on_collection (entries_name k)
    (fun st =>
       let p := entry_matches userId itemId itemType in
       (set_entries k (delete_first p (entries k st)) st,
        if existsb p (entries k st) then 1%nat else 0%nat)).

(** [db.collection(name).updateOne({ _id }, { $inc: { counter: d } })] *)
Definition content_inc (k : Mark) (name itemId : string) (d : Z) : io unit :=
  on_collection name
    (fun st =>
       (update_docs name
          (update_first (fun it => String.eqb (_id it) itemId)
                        (inc_counter k d))
          st,
        tt)).

(** [db.collection(name).findOne({ _id })] *)
Definition content_findOne (name itemId : string)
    : io (option ContentItem) :=
  on_collection name
    (fun st => (st, find (fun it => String.eqb (_id it) itemId)
                         (docs st name))).

(** [await recommendationEngine.updatePreferencesFromEngagement(...)] *)
Definition learn (now : Z) (userId engagementType : string)
    (content : ContentItem) : io unit :=
  fun st =>
    (set_engine
       (updatePreferencesFromEngagement now (engine st) userId
          engagementType content)
       st,
     Ok tt).

Definition itemTypes : list string :=
  ["opportunity"; "event"; "job"; "resource"].

(** [body('item_id').notEmpty()] and [body('item_type').isIn([...])]; a
    missing field is read as the empty string.  ([notes], when present, is
    a string.) *)
Definition validated (b : Body.t) : bool :=
  truthy_str (Body.item_id b) &&
  existsb (String.eqb (orEmptyStr (Body.item_type b))) itemTypes.

Definition respond (code : nat) (ok : bool) (text : string) : Response :=
  {| status_code := code; success := ok; message := text |}.

Definition engagementType_of (k : Mark) : string :=
  match k with
  | Saved => "save"
  | Liked => "like"
  end.

Definition already (k : Mark) : string :=
  match k with
  | Saved => "Item already saved"
  | Liked => "Item already liked"
  end.

Definition done_text (k : Mark) : string :=
  match k with
  | Saved => "Item saved successfully"
  | Liked => "Item liked successfully"
  end.

Definition failed_text (k : Mark) : string :=
  match k with
  | Saved => "Failed to save item"
  | Liked => "Failed to like item"
  end.

(** The entry that [POST /save] and [POST /like] insert. *)
Definition new_entry (k : Mark) (now : Z) (userId itemId itemType : string)
    (b : Body.t) : Entry.t :=
  {| Entry.user_id := userId; Entry.item_id := itemId;
     Entry.item_type := itemType;
     Entry.notes :=
       match k with
       | Saved => Some (orEmptyStr (Body.notes b))
       | Liked => None
       end;
     Entry.at_time := now |}.

(** The [try] block of [POST /save] ([k = Saved]) and of [POST /like]
    ([k = Liked]). *)
Definition engage_body (k : Mark) (now : Z) (userId : string) (b : Body.t)
    : io Response :=
  if negb (validated b) then io_ret (respond 400 false "Validation failed")
  else
    let item_id := orEmptyStr (Body.item_id b) in
    let item_type := orEmptyStr (Body.item_type b) in
    step _ <- io_getDB;
    step existing <- entry_findOne k userId item_id item_type;
    match existing with
    | Some _ => io_ret (respond 400 false (already k))
    | None =>
        step _ <- entry_insertOne k (new_entry k now userId item_id item_type b);
        let collectionName := item_type ++ "s" in
        step _ <- content_inc k collectionName item_id 1;
        step content <- content_findOne collectionName item_id;
        step _ <-
          match content with
          | Some c => learn now userId (engagementType_of k) c
          | None => io_ret tt
          end;
        io_ret (respond 201 true (done_text k))
    end.

Definition engage (k : Mark) (now : Z) (userId : string) (b : Body.t)
    : Store -> Store * Response :=
  io_catch (engage_body k now userId b) (respond 500 false (failed_text k)).

Definition saveHandler : Z -> string -> Body.t -> Store -> Store * Response :=
  engage Saved.

Definition likeHandler : Z -> string -> Body.t -> Store -> Store * Response :=
  engage Liked.

(** The [try] block of [POST /click].  [isURL] is the validator of
    [express-validator]; [agent] and [referer] are the request headers. *)
Definition click_body (isURL : string -> bool) (now : Z)
    (userId agent referer : string) (b : Body.t) : io Response :=
  if negb (validated b &&
           isURL (orEmptyStr (Body.external_url b)) &&
           bool_decide (is_Some (Body.external_url b)) &&
           (0 <=? default 0 (Body.time_spent b))%Z)
  then io_ret (respond 400 false "Validation failed")
  else
    let item_id := orEmptyStr (Body.item_id b) in
    let item_type := orEmptyStr (Body.item_type b) in
    let clickThrough :=
      {| Click.user_id := userId; Click.item_id := item_id;
         Click.item_type := item_type;
         Click.external_url := orEmptyStr (Body.external_url b);
         Click.clicked_at := now;
         Click.time_spent_on_page := default 0 (Body.time_spent b);
         Click.user_agent := agent;
         Click.referrer_page := referer |} in
    step _ <- io_getDB;
    step _ <-
      on_collection "click_throughs"
        (fun st =>
           ({| engine := engine st; saved_items := saved_items st;
               likes := likes st;
               click_throughs := (click_throughs st ++ [clickThrough])%list;
               others := others st |}, tt));
    let collectionName := item_type ++ "s" in
    step content <- content_findOne collectionName item_id;
    step _ <-
      match content with
      | Some c => learn now userId "click_through" c
      | None => io_ret tt
      end;
    io_ret (respond 200 true "Click-through tracked successfully").

Definition clickHandler (isURL : string -> bool) (now : Z)
    (userId agent referer : string) (b : Body.t)
    : Store -> Store * Response :=
  io_catch (click_body isURL now userId agent referer b)
           (respond 500 false "Failed to track click-through").

Definition gone_text (k : Mark) : string :=
  match k with
  | Saved => "Saved item not found"
  | Liked => "Like not found"
  end.

Definition removed_text (k : Mark) : string :=
  match k with
  | Saved => "Item removed from saved items"
  | Liked => "Item unliked successfully"
  end.

Definition remove_failed_text (k : Mark) : string :=
  match k with
  | Saved => "Failed to remove saved item"
  | Liked => "Failed to unlike item"
  end.

(** The [try] block of [DELETE /save/:item_id/:item_type] and of
    [DELETE /like/:item_id/:item_type]. *)
Definition disengage_body (k : Mark) (userId item_id item_type : string)
    : io Response :=
  step _ <- io_getDB;
  step deletedCount <- entry_deleteOne k userId item_id item_type;
  if (deletedCount =? 0)%nat then io_ret (respond 404 false (gone_text k))
  else
    let collectionName := item_type ++ "s" in
    step _ <- content_inc k collectionName item_id (-1);
    io_ret (respond 200 true (removed_text k)).

Definition disengage (k : Mark) (userId item_id item_type : string)
    : Store -> Store * Response :=
  io_catch (disengage_body k userId item_id item_type)
           (respond 500 false (remove_failed_text k)).

Definition unsaveHandler : string -> string -> string ->
                           Store -> Store * Response :=
  disengage Saved.

Definition unlikeHandler : string -> string -> string ->
                           Store -> Store * Response :=
  disengage Liked.

(** * Notions used by the further properties *)


(** The score of a candidate as a rational, for a candidate that carries a
    finite score. *)
Definition score_q (c : Candidate) : Q :=
  match score c with
  | Value (Fin q) => q
  | _ => 0%Q
  end.

Definition has_finite_score (c : Candidate) : Prop :=
  exists x, score c = Value (Fin x).

(** The number that a sub-score holds, for one that is finite. *)
Definition finite_part (n : num) : Q :=
  match n with
  | Fin q => q
  | _ => 0%Q
  end.

(** The combined score that a breakdown adds up to: 40% interests, 25%
    skills, 5% location, 15% popularity, 10% recency and 5%
    exploration. *)
Definition combined (s : Scores) : Q :=
  (finite_part (interestMatch s) * (4 # 10)
   + finite_part (skillMatch s) * (25 # 100)
   + finite_part (locationMatch s) * (5 # 100)
   + finite_part (popularity s) * (15 # 100)
   + finite_part (recency s) * (1 # 10)
   + finite_part (explore s) * (5 # 100))%Q.

(** The combined score of the breakdown that an object carries. *)
Definition carried_score (c : Candidate) : Q :=
  match scoreBreakdown c with
  | Value s => combined s
  | Absent | Undefined => 0%Q
  end.

(** The store with its [user_preferences] collection replaced. *)
Definition with_preferences (db : DB) (m : gmap string Preferences.t) : DB :=
  {| connected := connected db;
     failing := failing db;
     user_profiles := user_profiles db;
     user_preferences := m;
     opportunities := opportunities db;
     events := events db;
     jobs := jobs db;
     resources := resources db |}.

(** What one event adds to the interest weight of a tag and to the skill
    weight of a requirement. *)
Definition interest_delta (engagementType : string) : Q :=
  if String.eqb engagementType "save" || String.eqb engagementType "like"
  then 1
  else if String.eqb engagementType "click_through" then 1 # 2 else 0.

Definition skill_delta (engagementType : string) : Q :=
  if String.eqb engagementType "save" || String.eqb engagementType "like"
  then 1 else 0.

(** The preference collection can be read and written. *)
Definition preferences_live (db : DB) : bool :=
  connected db &&
  negb (existsb (String.eqb "user_preferences") (failing db)).

(** The preferences document of a user after one call of the learner;
    [live] tells whether the preference collection could be read and
    written. *)
Definition learned (now : Z) (live : bool) (engagementType : string)
    (itemData : ContentItem) (p : Preferences.t) : Preferences.t :=
  if live then
    if String.eqb engagementType "save" || String.eqb engagementType "like"
    then
      set_interests_skills
        (bump_all One (orEmpty (tags itemData))
                  (orEmptyObj (Preferences.interests p)))
        (bump_all One (orEmpty (requirements itemData))
                  (orEmptyObj (Preferences.skills p)))
        now p
    else if String.eqb engagementType "click_through" then
      set_interests
        (bump_all Half (orEmpty (tags itemData))
                  (orEmptyObj (Preferences.interests p)))
        now p
    else p
  else p.

(** A store with two users that have preferences. *)
Definition two_users_db : DB :=
  {| connected := true; failing := [];
     user_profiles := ∅;
     user_preferences :=
       {[ "u" := blank_preferences; "v" := tech_preferences ]};
     opportunities := []; events := []; jobs := [tech_item];
     resources := [] |}.

Definition full_profile : Profile.t :=
  {| Profile.interests := Some ["art"]; Profile.skills := Some ["painting"];
     Profile.location_data :=
       Some {| country := Some "Canada"; province := None; city := None |} |}.

(** A store in which user [w] has a full profile and preferences. *)
Definition both_db : DB :=
  {| connected := true; failing := [];
     user_profiles := {[ "w" := full_profile ]};
     user_preferences := {[ "w" := blank_preferences ]};
     opportunities := []; events := [art_item]; jobs := [tech_item];
     resources := [] |}.

(** The store after a [POST /save] or [POST /like] that went through. *)
Definition engaged_store (k : Mark) (now : Z) (userId : string) (b : Body.t)
    (st : Store) : Store :=
  let item_id := orEmptyStr (Body.item_id b) in
  let item_type := orEmptyStr (Body.item_type b) in
  let name := item_type ++ "s" in
  let st1 :=
    set_entries k
      (entries k st ++ [new_entry k now userId item_id item_type b])%list st in
  let st2 :=
    update_docs name
      (update_first (fun it => String.eqb (_id it) item_id) (inc_counter k 1))
      st1 in
  match find (fun it => String.eqb (_id it) item_id) (docs st2 name) with
  | Some c =>
      set_engine
        (updatePreferencesFromEngagement now (engine st2) userId
           (engagementType_of k) c)
        st2
  | None => st2
  end.

(** A store with one job and no engagement yet. *)
Definition fresh_store : Store :=
  {| engine := learner_db; saved_items := []; likes := [];
     click_throughs := []; others := ∅ |}.

Definition save_job : Body.t :=
  {| Body.item_id := Some "job-1"; Body.item_type := Some "job";
     Body.notes := None; Body.external_url := None;
     Body.time_spent := None |}.

(** [d'] is [d] with one counter moved by [n] and nothing else changed:
    [saves_count] for a save, [likes_count] for a like, a missing counter
    counting as 0. *)
Definition counted (k : Mark) (n : Z) (d d' : ContentItem) : Prop :=
  _id d' = _id d /\ status d' = status d /\ tags d' = tags d /\
  requirements d' = requirements d /\ location d' = location d /\
  created_at d' = created_at d /\ views d' = views d /\
  match k with
  | Saved =>
      saves_count d' = Some (default 0 (saves_count d) + n) /\
      likes_count d' = likes_count d
  | Liked =>
      likes_count d' = Some (default 0 (likes_count d) + n) /\
      saves_count d' = saves_count d
  end.

(** Two documents that differ at most in how a zero counter is written:
    missing, or [0]. *)
Definition same_document (a b : ContentItem) : Prop :=
  _id a = _id b /\ status a = status b /\ tags a = tags b /\
  requirements a = requirements b /\ location a = location b /\
  created_at a = created_at b /\
  or0 (likes_count a) = or0 (likes_count b) /\
  or0 (saves_count a) = or0 (saves_count b) /\
  views a = views b.

Definition save_opportunity : Body.t :=
  {| Body.item_id := Some "opp-1"; Body.item_type := Some "opportunity";
     Body.notes := None; Body.external_url := None;
     Body.time_spent := None |}.

(** A store whose [opportunities] collection holds one active
    opportunity. *)
Definition opportunity_store : Store :=
  {| engine :=
       {| connected := true; failing := [];
          user_profiles := ∅;
          user_preferences := {[ "u" := blank_preferences ]};
          opportunities :=
            [{| _id := "opp-1"; status := "active"; tags := Some ["tech"];
                requirements := None; location := None; created_at := 0;
                likes_count := None; saves_count := None; views := None |}];
          events := []; jobs := []; resources := [] |};
     saved_items := []; likes := []; click_throughs := []; others := ∅ |}.

(** The store of [fresh_store] with the [jobs] collection rejecting. *)
Definition jobs_down_store : Store :=
  {| engine :=
       {| connected := true; failing := ["jobs"];
          user_profiles := ∅;
          user_preferences := {[ "u" := blank_preferences ]};
          opportunities := []; events := []; jobs := [tech_item];
          resources := [] |};
     saved_items := []; likes := []; click_throughs := []; others := ∅ |}.

(** The store with one more click-through. *)
Definition with_click (c : Click.t) (st : Store) : Store :=
  {| engine := engine st; saved_items := saved_items st; likes := likes st;
     click_throughs := (click_throughs st ++ [c])%list;
     others := others st |}.

Definition click_job : Body.t :=
  {| Body.item_id := Some "job-1"; Body.item_type := Some "job";
     Body.notes := None; Body.external_url := Some "https://example.org";
     Body.time_spent := Some 3 |}.

(** * Properties *)

(** ** Numbers *)

Lemma Qzero_true (q : Q) : Qzero q = true <-> (q == 0)%Q.
Proof. unfold Qzero. apply Qeq_bool_iff. Qed.

Lemma Qzero_false (q : Q) : Qzero q = false <-> ~ (q == 0)%Q.
Proof.
  rewrite <- Qzero_true. destruct (Qzero q); split; intros; congruence.
Qed.

Lemma Qle_bool_false (x y : Q) : Qle_bool x y = false <-> (y < x)%Q.
Proof.
  split; intros H.
  - apply Qnot_le_lt. intros Hle. apply Qle_bool_iff in Hle. congruence.
  - destruct (Qle_bool x y) eqn:E; [|reflexivity].
    apply Qle_bool_iff in E. exfalso. apply (Qlt_not_le _ _ H E).
Qed.

Lemma num_between_Fin (lo hi q : Q) :
  num_between lo hi (Fin q) <-> (lo <= q <= hi)%Q.
Proof. reflexivity. Qed.

(** ** Age of an item *)

Lemma ageInDays_Fin (now : Z) (it : ContentItem) :
  ageInDays now it = Fin (ageQ now it).
Proof. reflexivity. Qed.

(** ** Recency *)

(** C10: the recency sub-score is the step function of the age in days
    with thresholds 1, 7, 30 and 90, each threshold belonging to the higher
    bucket: an item aged exactly 1, 7, 30 or 90 days scores 100, 80, 60 or
    40. *)
Theorem C10_recency_step_function (now : Z) (it : ContentItem) :
  let age := ageQ now it in
  ((age <= 1)%Q -> calculateRecency now it = Fin 100) /\
  ((1 < age)%Q -> (age <= 7)%Q -> calculateRecency now it = Fin 80) /\
  ((7 < age)%Q -> (age <= 30)%Q -> calculateRecency now it = Fin 60) /\
  ((30 < age)%Q -> (age <= 90)%Q -> calculateRecency now it = Fin 40) /\
  ((90 < age)%Q -> calculateRecency now it = Fin 20) /\
  (now - created_at it = 1 * msPerDay -> calculateRecency now it = Fin 100) /\
  (now - created_at it = 7 * msPerDay -> calculateRecency now it = Fin 80) /\
  (now - created_at it = 30 * msPerDay -> calculateRecency now it = Fin 60) /\
  (now - created_at it = 90 * msPerDay -> calculateRecency now it = Fin 40).
Proof.
  intros age.
  assert (Hday : forall n : Z,
            now - created_at it = n * msPerDay -> (age == inject_Z n)%Q).
  { intros n Hn. subst age. unfold ageQ. rewrite Hn, inject_Z_mult.
    apply Qdiv_mult_l. discriminate. }
  unfold calculateRecency. rewrite ageInDays_Fin. fold age.
  cbn [num_leb].
  destruct (Qle_bool age 1) eqn:E1;
  destruct (Qle_bool age 7) eqn:E7;
  destruct (Qle_bool age 30) eqn:E30;
  destruct (Qle_bool age 90) eqn:E90;
  repeat match goal with
  | H : Qle_bool _ _ = true |- _ => apply Qle_bool_iff in H
  | H : Qle_bool _ _ = false |- _ => apply Qle_bool_false in H
  end;
  repeat split; intros;
  repeat match goal with
  | H : now - created_at it = _ |- _ => apply Hday in H; unfold inject_Z in H
  end;
  clear Hday; try reflexivity; exfalso; lra.
Qed.

Lemma C10_recency_step_function_witness :
  7 * msPerDay - created_at (item_created_at 0) = 7 * msPerDay /\
  calculateRecency (7 * msPerDay) (item_created_at 0) = Fin 80 /\
  (7 < ageQ (7 * msPerDay + 1) (item_created_at 0))%Q /\
  calculateRecency (7 * msPerDay + 1) (item_created_at 0) = Fin 60.
Proof.
  destruct (C10_recency_step_function (7 * msPerDay) (item_created_at 0))
    as (_ & _ & _ & _ & _ & _ & Hseven & _).
  destruct (C10_recency_step_function (7 * msPerDay + 1) (item_created_at 0))
    as (_ & _ & Hnext & _).
  split; [reflexivity|]. split; [exact (Hseven eq_refl)|].
  split; [reflexivity|]. apply Hnext; [reflexivity|discriminate].
Defined.

(** ** Decayed popularity *)

(** The divisor [1 + ageInDays * decayRate] vanishes only for an item dated
    exactly ten days after [now]. *)
Lemma decay_divisor_zero (now : Z) (it : ContentItem) :
  (1 + ageQ now it * decayRate == 0)%Q <->
  now - created_at it = - 10 * msPerDay.
Proof.
  unfold ageQ, decayRate. set (d := now - created_at it).
  assert (Hd : (inject_Z d / inject_Z msPerDay == inject_Z d * (1 # 86400000))%Q)
    by reflexivity.
  rewrite Hd. clear Hd. split; intros H.
  - assert (E : (inject_Z d == inject_Z (- 10 * msPerDay))%Q).
    { change (inject_Z (- 10 * msPerDay)) with (- 864000000 # 1)%Q.
      revert H. generalize (inject_Z d). clear. intros q H. lra. }
    exact (proj1 (inject_Z_injective _ _) E).
  - rewrite H. reflexivity.
Qed.

(** C9: the popularity sub-score is
    [min(((likes + saves + views) / (1 + ageDays * 0.1)) / 10, 100)], where
    [ageDays] is [(now - created_at)] over the milliseconds of a day and an
    absent counter counts as 0.  The formula is defined wherever its
    divisor is not zero, that is unless the item is dated exactly ten days
    after [now]. *)
Theorem C9_popularity_formula (now : Z) (it : ContentItem) :
  now - created_at it <> - 10 * msPerDay ->
  let counter (o : option Z) := match o with Some n => n | None => 0 end in
  let raw :=
    counter (likes_count it) + counter (saves_count it) + counter (views it) in
  let ageDays := (inject_Z (now - created_at it) / inject_Z msPerDay)%Q in
  calculateDecayedPopularity now it =
  Fin (Qmin ((inject_Z raw / (1 + ageDays * (1 # 10))) / 10) 100).
Proof.
  intros Hne counter raw ageDays.
  unfold calculateDecayedPopularity. rewrite ageInDays_Fin.
  fold ageDays. change (ageQ now it) with ageDays.
  cbn [num_mul num_add]. unfold of_Z.
  change (or0 (likes_count it) + or0 (saves_count it) + or0 (views it))
    with raw.
  assert (Hz : Qzero (1 + ageDays * decayRate) = false).
  { apply Qzero_false. intros E. apply Hne.
    apply (decay_divisor_zero now it). exact E. }
  cbn [num_div]. rewrite Hz. cbn [num_div].
  change (Qzero 10) with false. cbn [Math_min]. reflexivity.
Qed.

Lemma C9_popularity_formula_witness :
  0 - 0 <> - 10 * msPerDay /\
  calculateDecayedPopularity 0
    {| _id := "item"; status := "active"; tags := None; requirements := None;
       location := None; created_at := 0;
       likes_count := Some 700; saves_count := None; views := Some 300 |} =
  Fin (Qmin ((inject_Z (700 + 0 + 300) / (1 + (inject_Z (0 - 0) / inject_Z msPerDay) * (1 # 10))) / 10) 100).
Proof.
  split.
  - discriminate.
  - apply (C9_popularity_formula 0
      {| _id := "item"; status := "active"; tags := None; requirements := None;
         location := None; created_at := 0;
         likes_count := Some 700; saves_count := None; views := Some 300 |}).
    discriminate.
Defined.

(** ** Location match *)











(** ** Ranges of the sub-scores *)

Lemma ratio_in_unit (m n : nat) :
  (m <= n)%nat -> (0 < n)%nat ->
  num_between 0 100
    (num_mul (num_div (of_nat m) (of_nat n)) (Fin 100)).
Proof.
  intros Hmn Hn. unfold of_nat.
  assert (Hnq : (0 < inject_Z (Z.of_nat n))%Q).
  { change 0%Q with (inject_Z 0). rewrite <- Zlt_Qlt. lia. }
  assert (Hmq : (0 <= inject_Z (Z.of_nat m))%Q).
  { change 0%Q with (inject_Z 0). rewrite <- Zle_Qle. lia. }
  assert (Hle : (inject_Z (Z.of_nat m) <= inject_Z (Z.of_nat n))%Q).
  { rewrite <- Zle_Qle. lia. }
  cbn [num_div].
  assert (Hz : Qzero (inject_Z (Z.of_nat n)) = false).
  { apply Qzero_false. intros E. rewrite E in Hnq. discriminate Hnq. }
  rewrite Hz. cbn [num_mul]. apply num_between_Fin.
  assert (H0 : (0 <= inject_Z (Z.of_nat m) / inject_Z (Z.of_nat n))%Q).
  { apply Qle_shift_div_l; [exact Hnq|]. rewrite Qmult_0_l. exact Hmq. }
  assert (H1 : (inject_Z (Z.of_nat m) / inject_Z (Z.of_nat n) <= 1)%Q).
  { apply Qle_shift_div_r; [exact Hnq|]. rewrite Qmult_1_l. exact Hle. }
  revert H0 H1.
  generalize (inject_Z (Z.of_nat m) / inject_Z (Z.of_nat n))%Q.
  clear. intros r H0 H1. lra.
Qed.

Lemma matched_length (xs us : list string) :
  (length (matched xs us) <= length xs)%nat.
Proof. unfold matched. apply List.filter_length_le. Qed.

(** [skillMatch], when it is computed, lies in [[0,100]]: its divisor is
    the length of the list that is filtered. *)
Lemma calculateSkillMatch_range (it : ContentItem)
    (userProfile : option Profile.t) (userPreferences : option Preferences.t)
    (v : num) :
  calculateSkillMatch it userProfile userPreferences = Ok v ->
  num_between 0 100 v.
Proof.
  unfold calculateSkillMatch.
  destruct (length_is_zero _ || _) eqn:E.
  - intros [= <-]. apply num_between_Fin. lra.
  - apply orb_false_iff in E as [_ Hreq]. apply Nat.eqb_neq in Hreq.
    destruct (userSkillsOf userProfile userPreferences) as [us|m];
      [|discriminate].
    intros [= <-]. apply ratio_in_unit; [apply matched_length|lia].
Qed.

Lemma calculateLocationMatch_range (it : ContentItem)
    (userProfile : option Profile.t) (userPreferences : option Preferences.t) :
  num_between 0 100 (calculateLocationMatch it userProfile userPreferences).
Proof.
  unfold calculateLocationMatch.
  repeat match goal with |- context [if ?b then _ else _] => destruct b end;
    apply num_between_Fin; lra.
Qed.

Lemma calculateRecency_range (now : Z) (it : ContentItem) :
  num_between 0 100 (calculateRecency now it).
Proof.
  unfold calculateRecency.
  repeat match goal with |- context [if ?b then _ else _] => destruct b end;
    apply num_between_Fin; lra.
Qed.

Lemma calculateExploreFactor_range (random : Q) (it : ContentItem) :
  (0 <= random)%Q -> (random < 1)%Q ->
  num_between 0 100 (calculateExploreFactor random it) /\
  ~ num_eq (calculateExploreFactor random it) (Fin 100).
Proof.
  intros H0 H1. unfold calculateExploreFactor. cbn [num_mul num_eq].
  rewrite num_between_Fin. clear it. repeat split; lra.
Qed.

(** [popularity] lies in [[0,100]] for an item created in the past whose
    counters do not sum to a negative number. *)
Lemma calculateDecayedPopularity_range (now : Z) (it : ContentItem) :
  created_at it <= now -> 0 <= rawPopularity it ->
  num_between 0 100 (calculateDecayedPopularity now it).
Proof.
  intros Hpast Hraw.
  unfold calculateDecayedPopularity. rewrite ageInDays_Fin.
  fold (rawPopularity it). cbn [num_mul num_add]. unfold of_Z.
  assert (Hage : (0 <= ageQ now it)%Q).
  { unfold ageQ. apply Qle_shift_div_l; [reflexivity|].
    rewrite Qmult_0_l. change 0%Q with (inject_Z 0). rewrite <- Zle_Qle. lia. }
  assert (Hden : (0 < 1 + ageQ now it * decayRate)%Q).
  { unfold decayRate. revert Hage. generalize (ageQ now it). clear.
    intros a Ha. lra. }
  assert (Hz : Qzero (1 + ageQ now it * decayRate) = false).
  { apply Qzero_false. intros E. rewrite E in Hden. discriminate Hden. }
  cbn [num_div]. rewrite Hz. cbn [num_div]. change (Qzero 10) with false.
  cbn [Math_min]. apply num_between_Fin.
  assert (Hr : (0 <= inject_Z (rawPopularity it))%Q).
  { change 0%Q with (inject_Z 0). rewrite <- Zle_Qle. exact Hraw. }
  assert (Hq : (0 <= inject_Z (rawPopularity it)
                     / (1 + ageQ now it * decayRate))%Q).
  { apply Qle_shift_div_l; [exact Hden|]. rewrite Qmult_0_l. exact Hr. }
  revert Hq.
  generalize (inject_Z (rawPopularity it) / (1 + ageQ now it * decayRate))%Q.
  clear. intros r Hr. split.
  - assert (H10 : (r / 10 == r * (1 # 10))%Q) by (unfold Qdiv; reflexivity).
    apply Q.min_glb; [rewrite H10|]; lra.
  - apply Q.le_min_r.
Qed.

(** Without a preferences document the Scorer returns: lists of strings
    are all it reads.  With neither document the three personal sub-scores
    are 0. *)
Lemma calculateScore_without_preferences (now : Z) (random : Q)
    (c : Candidate) (userProfile : option Profile.t) :
  exists c' s,
    calculateScore now random c userProfile None = Ok c' /\
    scoreBreakdown c' = Value s /\
    (userProfile = None ->
     interestMatch s = Fin 0 /\ skillMatch s = Fin 0 /\
     locationMatch s = Fin 0).
Proof.
  unfold calculateScore, personalScores, anyUser.
  destruct userProfile as [p|].
  - rewrite bool_decide_eq_true_2 by eauto. cbn [orb].
    unfold calculateInterestMatch, calculateSkillMatch, userInterestsOf,
      userSkillsOf.
    cbn [mbind option_bind].
    destruct (Profile.interests p) as [us|], (Profile.skills p) as [ss|];
      cbn [mbind option_bind];
      repeat match goal with
      | |- context [if ?b then _ else _] => destruct b
      end;
      cbn [bind]; eexists; eexists;
      (split; [reflexivity|split; [reflexivity|discriminate]]).
  - cbn. eexists. eexists.
    split; [reflexivity|]. split; [reflexivity|]. intros _. repeat split.
Qed.

(** ** Interest match and the combined score *)

(** C1: the bound fails for [interestMatch], whose divisor is the number of
    user interests while the count above it is of item tags.  For the one
    interest [tech] and the tags [tech], [technology], [fintech] all three
    tags match: the sub-score is 300 and the combined score, which is at
    least 0.4 * 300, leaves [[0,100]] as well. *)
Theorem C1_interest_match_exceeds_100 :
  calculateInterestMatch tech_item (Some tech_profile) None = Ok (Fin 300) /\
  exists c s,
    calculateScore 0 0 (typed "job" tech_item) (Some tech_profile) None = Ok c /\
    scoreBreakdown c = Value s /\
    interestMatch s = Fin 300 /\
    ~ num_between 0 100 (interestMatch s) /\
    num_eq (score_num c) (Fin (265 # 2)) /\
    ~ num_between 0 100 (score_num c).
Proof.
  split; [reflexivity|].
  eexists. eexists. split; [vm_compute; reflexivity|].
  split; [reflexivity|]. split; [reflexivity|].
  split; [|split].
  - cbn. intros [_ H]. revert H. apply Qlt_not_le. reflexivity.
  - reflexivity.
  - cbn. intros [_ H]. revert H. apply Qlt_not_le. reflexivity.
Qed.

(** ** Failure of the Scorer on learned preferences *)

(** C2: the Scorer raises on the preferences that the learner writes.  After
    one [like] of the job, the preferences of [u] hold a weight object;
    scoring any item that has tags against it calls [some] on that object
    and raises a [TypeError], so the ranking of [u] is empty although an
    active job exists. *)
Theorem C2_scorer_raises_on_learned_preferences (impl : SortChoice) :
  let db := updatePreferencesFromEngagement 0 learner_db "u" "like" tech_item in
  exists prefs,
    user_profiles db !! "u" = None /\
    user_preferences db !! "u" = Some prefs /\
    Preferences.interests prefs =
      Some {[ "tech" := WNum 1; "technology" := WNum 1;
              "fintech" := WNum 1 ]} /\
    calculateScore 0 0 (typed "job" tech_item) None (Some prefs) =
      Throw not_a_function /\
    getActiveContent db "job" = Ok [typed "job" tech_item] /\
    getRecommendations impl 0 (fun _ => 0%Q) db "u" "job" 20 = [].
Proof.
  eexists. split; [reflexivity|].
  split; [vm_compute; reflexivity|].
  split; [vm_compute; reflexivity|].
  split; [vm_compute; reflexivity|].
  split; vm_compute; reflexivity.
Qed.

(** ** Which source of interests and skills is consulted *)

(** C3, as stated, fails: with a profile interested in [art] and
    preferences that weigh [tech],
    an item tagged [art] scores 100 on interests and on skills: the profile
    is what was consulted.  Consulting the preferences gives 0. *)
Lemma C3_preferences_not_preferred :
  calculateInterestMatch art_item (Some art_profile) (Some tech_preferences)
    = Ok (Fin 100) /\
  interestMatch_spec art_item (Some art_profile) (Some tech_preferences)
    = Fin 0 /\
  calculateSkillMatch art_item (Some art_profile) (Some tech_preferences)
    = Ok (Fin 100) /\
  skillMatch_spec art_item (Some art_profile) (Some tech_preferences)
    = Fin 0 /\
  ~ (forall it p q,
       calculateInterestMatch it (Some p) (Some q)
         = Ok (interestMatch_spec it (Some p) (Some q)) /\
       calculateSkillMatch it (Some p) (Some q)
         = Ok (skillMatch_spec it (Some p) (Some q))).
Proof.
  assert (Hi : calculateInterestMatch art_item (Some art_profile)
                 (Some tech_preferences) = Ok (Fin 100)) by reflexivity.
  assert (Hs : interestMatch_spec art_item (Some art_profile)
                 (Some tech_preferences) = Fin 0) by (vm_compute; reflexivity).
  split; [exact Hi|]. split; [exact Hs|].
  split; [reflexivity|]. split; [vm_compute; reflexivity|].
  intros H. destruct (H art_item art_profile tech_preferences) as [E _].
  rewrite Hi, Hs in E. discriminate E.
Qed.

(** C3 (amended): only one source is consulted, and it is the profile.  A
    profile that lists interests (skills) decides [interestMatch]
    ([skillMatch]) whatever the preferences document holds; the preferences
    are consulted only when the profile lists none. *)
Theorem C3_profile_is_preferred (it : ContentItem) (p : Profile.t)
    (q q' : option Preferences.t) :
  (is_Some (Profile.interests p) ->
     calculateInterestMatch it (Some p) q =
     calculateInterestMatch it (Some p) q') /\
  (is_Some (Profile.skills p) ->
     calculateSkillMatch it (Some p) q = calculateSkillMatch it (Some p) q') /\
  (Profile.interests p = None ->
     calculateInterestMatch it (Some p) q = calculateInterestMatch it None q) /\
  (Profile.skills p = None ->
     calculateSkillMatch it (Some p) q = calculateSkillMatch it None q).
Proof.
  unfold calculateInterestMatch, calculateSkillMatch, userInterestsOf,
    userSkillsOf.
  repeat split.
  - intros [l Hl]. cbn. rewrite Hl. reflexivity.
  - intros [l Hl]. cbn. rewrite Hl. reflexivity.
  - intros Hn. cbn. rewrite Hn. reflexivity.
  - intros Hn. cbn. rewrite Hn. reflexivity.
Qed.

Lemma C3_profile_is_preferred_witness :
  is_Some (Profile.interests art_profile) /\
  calculateInterestMatch art_item (Some art_profile) (Some tech_preferences) =
  calculateInterestMatch art_item (Some art_profile) None.
Proof.
  split.
  - exists ["art"]. reflexivity.
  - refine (proj1 (C3_profile_is_preferred art_item art_profile
                     (Some tech_preferences) None) _).
    exists ["art"]. reflexivity.
Defined.

(** ** Arrays: [sort] and [slice] *)

Section Sorting.
Context {A : Type} (comparefn : A -> A -> num).

Lemma sort_insert_perm (x : A) (l : list A) :
  Permutation (sort_insert comparefn x l) (x :: l).
Proof.
  induction l as [|y l IH]; cbn.
  - apply Permutation_refl.
  - destruct (num_positive (comparefn x y)).
    + eapply perm_trans; [apply perm_skip, IH|apply perm_swap].
    + apply Permutation_refl.
Qed.

Lemma stable_sort_perm (l : list A) : Permutation (stable_sort comparefn l) l.
Proof.
  induction l as [|x l IH]; cbn.
  - apply perm_nil.
  - eapply perm_trans; [apply sort_insert_perm|apply perm_skip, IH].
Qed.

Lemma stable_sort_In (x : A) (l : list A) :
  In x (stable_sort comparefn l) <-> In x l.
Proof.
  split; apply Permutation_in;
    [apply stable_sort_perm|apply Permutation_sym, stable_sort_perm].
Qed.

Lemma stable_sort_length (l : list A) :
  length (stable_sort comparefn l) = length l.
Proof. apply Permutation_length, stable_sort_perm. Qed.

(** A comparator that orders by an integer key, larger keys first. *)
Context (key : A -> Z).
Hypothesis comparefn_key :
  forall a b, num_positive (comparefn a b) = (key a <? key b)%Z.


End Sorting.

Lemma swap_at_perm {A} (i : nat) (l : list A) : Permutation (swap_at i l) l.
Proof.
  revert l. induction i as [|i IH]; intros l.
  - destruct l as [|x [|y l]]; cbn; try reflexivity. apply perm_swap.
  - destruct l as [|x l]; cbn; [reflexivity|]. apply perm_skip, IH.
Qed.

Lemma rearrange_perm {A} (swaps : list nat) (l : list A) :
  Permutation (rearrange swaps l) l.
Proof.
  unfold rearrange. revert l.
  induction swaps as [|i swaps IH]; intros l; cbn; [reflexivity|].
  rewrite IH. apply swap_at_perm.
Qed.

Lemma rearrange_app {A} (s1 s2 : list nat) (l : list A) :
  rearrange (s1 ++ s2) l = rearrange s2 (rearrange s1 l).
Proof. unfold rearrange. apply fold_left_app. Qed.

Lemma rearrange_skip {A} (swaps : list nat) (x : A) (l : list A) :
  rearrange (map S swaps) (x :: l) = x :: rearrange swaps l.
Proof.
  unfold rearrange. revert l.
  induction swaps as [|i swaps IH]; intros l; cbn [map fold_left];
    [reflexivity|].
  cbn [swap_at]. apply IH.
Qed.

(** Exchanges of neighbours lead to every order, so that the choice of the
    engine is any permutation. *)
Lemma rearrange_complete {A} (l l' : list A) :
  Permutation l l' -> exists swaps, rearrange swaps l = l'.
Proof.
  induction 1 as [|x l l' _ [sw IH]|x y l|l l' l'' _ [s1 IH1] _ [s2 IH2]].
  - exists []. reflexivity.
  - exists (map S sw). now rewrite rearrange_skip, IH.
  - exists [0%nat]. reflexivity.
  - exists (s1 ++ s2)%list. now rewrite rearrange_app, IH1, IH2.
Qed.

Section Sort.
Context {A : Type} (impl : SortChoice) (comparefn : A -> A -> num).

Lemma sort_consistent (l : list A) :
  consistent comparefn l = true ->
  sort impl comparefn l = stable_sort comparefn l.
Proof. unfold sort. now intros ->. Qed.

Lemma sort_perm (l : list A) : Permutation (sort impl comparefn l) l.
Proof.
  unfold sort. destruct (consistent comparefn l).
  - apply stable_sort_perm.
  - apply rearrange_perm.
Qed.

Lemma sort_In (x : A) (l : list A) :
  In x (sort impl comparefn l) <-> In x l.
Proof.
  split; apply Permutation_in; [|symmetry]; apply sort_perm.
Qed.

Lemma sort_length (l : list A) : length (sort impl comparefn l) = length l.
Proof. apply Permutation_length, sort_perm. Qed.

End Sort.

(** [(a, b) => b.score - a.score] is a consistent comparator for
    candidates that carry finite scores. *)
Lemma consistent_by_score (l : list Candidate) :
  Forall has_finite_score l -> consistent by_score_desc l = true.
Proof.
  intros Hl. rewrite List.Forall_forall in Hl.
  assert (Hcmp : forall a b, In a l -> In b l ->
            by_score_desc a b = Fin (score_q b + - score_q a)).
  { intros a b Ha Hb. destruct (Hl a Ha) as [x Hx], (Hl b Hb) as [y Hy].
    unfold by_score_desc, score_num, score_q. now rewrite Hx, Hy. }
  assert (Hlt : forall q, negb (Qle_bool 0 q) = true <-> (q < 0)%Q).
  { intros q. rewrite negb_true_iff. apply Qle_bool_false. }
  assert (Hgt : forall q, Qpos q = true <-> (0 < q)%Q).
  { intros q. unfold Qpos. rewrite negb_true_iff. apply Qle_bool_false. }
  unfold consistent.
  apply forallb_forall. intros a Ha.
  apply andb_true_iff. split.
  { rewrite (Hcmp a a Ha Ha). cbn. apply Qzero_true. ring. }
  apply forallb_forall. intros b Hb.
  rewrite (Hcmp a b Ha Hb), (Hcmp b a Hb Ha).
  cbn [is_NaN negb andb has_sign].
  apply andb_true_iff. split.
  { apply implb_true_iff. rewrite !Qzero_true. intros E. lra. }
  apply forallb_forall. intros c Hc.
  rewrite (Hcmp b c Hb Hc), (Hcmp a c Ha Hc). cbn [has_sign].
  rewrite !andb_true_iff, !implb_true_iff, !andb_true_iff.
  rewrite !Qzero_true, !Hlt, !Hgt.
  repeat split; intros [? ?]; lra.
Qed.


Lemma sort_insert_map {A B} (f : A -> B) (comparefn : B -> B -> num)
    (x : A) (l : list A) :
  sort_insert comparefn (f x) (map f l) =
  map f (sort_insert (fun a b => comparefn (f a) (f b)) x l).
Proof.
  induction l as [|y l IH]; cbn; [reflexivity|].
  destruct (num_positive (comparefn (f x) (f y))); cbn; [|reflexivity].
  now rewrite IH.
Qed.

Lemma stable_sort_map {A B} (f : A -> B) (comparefn : B -> B -> num)
    (l : list A) :
  stable_sort comparefn (map f l) =
  map f (stable_sort (fun a b => comparefn (f a) (f b)) l).
Proof.
  induction l as [|x l IH]; cbn; [reflexivity|].
  rewrite IH. apply sort_insert_map.
Qed.

Lemma slice0_map {A B} (f : A -> B) (l : list A) (stop : Z) :
  slice0 (map f l) stop = map f (slice0 l stop).
Proof.
  unfold slice0. rewrite length_map.
  destruct (stop <? 0)%Z; apply firstn_map.
Qed.

Lemma slice0_nonneg {A} (l : list A) (stop : Z) :
  (0 <= stop)%Z -> slice0 l stop = firstn (Z.to_nat stop) l.
Proof.
  intros H. unfold slice0.
  destruct (Z.ltb_spec stop 0); [lia|reflexivity].
Qed.

Lemma slice0_length {A} (l : list A) (stop : Z) :
  (0 <= stop)%Z -> (Z.of_nat (length (slice0 l stop)) <= stop)%Z.
Proof.
  intros H. rewrite slice0_nonneg by exact H.
  pose proof (firstn_le_length (Z.to_nat stop) l). lia.
Qed.

Lemma slice0_In {A} (x : A) (l : list A) (stop : Z) :
  In x (slice0 l stop) -> In x l.
Proof.
  unfold slice0. destruct (stop <? 0)%Z; intros H;
    match type of H with In _ (firstn ?n _) =>
      rewrite <- (firstn_skipn n l); apply in_or_app; left; exact H
    end.
Qed.

(** ** The result monad *)

Lemma bind_Ok {A B} (m : result A) (k : A -> result B) (b : B) :
  bind m k = Ok b -> exists a, m = Ok a /\ k a = Ok b.
Proof. destruct m as [a|e]; cbn; [eauto|discriminate]. Qed.

Lemma getDB_Ok (db db' : DB) :
  getDB db = Ok db' -> db' = db /\ connected db = true.
Proof.
  unfold getDB. destruct (connected db); [|discriminate].
  intros [= <-]. split; reflexivity.
Qed.

Ltac inv_bind H :=
  let a := fresh "a" in
  let Ha := fresh "Ha" in
  apply bind_Ok in H; destruct H as (a & Ha & H).

Lemma Promise_all_from_Forall2 {A B} (f : nat -> A -> result B) (i : nat)
    (xs : list A) (ys : list B) :
  Promise_all_from f i xs = Ok ys ->
  Forall2 (fun x y => exists j, f j x = Ok y) xs ys.
Proof.
  revert i ys. induction xs as [|x xs IH]; intros i ys H; cbn in H.
  - injection H as <-. constructor.
  - inv_bind H. inv_bind H. injection H as <-.
    constructor; [eauto|]. eapply IH. eassumption.
Qed.

Lemma Forall2_In_right {A B} (P : A -> B -> Prop) (xs : list A)
    (ys : list B) (y : B) :
  Forall2 P xs ys -> In y ys -> exists x, In x xs /\ P x y.
Proof.
  induction 1 as [|x y0 xs ys Hxy _ IH]; cbn; [contradiction|].
  intros [<-|Hin].
  - exists x. auto.
  - destruct (IH Hin) as (x' & Hx' & Hp). eauto.
Qed.

(** ** Active content *)

Lemma push_active_Ok (db : DB) (contentType t name : string)
    (acc out : list Candidate) :
  push_active db contentType t name acc = Ok out ->
  out =
  (acc ++ if selected contentType t then
            map (typed t) (List.filter is_active (content_of db name))
          else [])%list.
Proof.
  unfold push_active, find_active. fold (selected contentType t).
  destruct (selected contentType t).
  - destruct (collection db name) as [[]|e]; cbn; [|discriminate].
    now intros [= <-].
  - intros [= <-]. now rewrite app_nil_r.
Qed.

Lemma getActiveContent_Ok (db : DB) (contentType : string)
    (content : list Candidate) :
  getActiveContent db contentType = Ok content ->
  content = active_of db contentType.
Proof.
  unfold getActiveContent. intros H.
  inv_bind H. apply getDB_Ok in Ha as [-> _].
  do 4 (let a := fresh "c" in let Ha := fresh "Hc" in
        apply bind_Ok in H; destruct H as (a & Ha & H);
        apply push_active_Ok in Ha).
  injection H as <-. subst. unfold active_of, kinds. cbn [flat_map fst snd].
  rewrite app_nil_r. cbn [app]. now rewrite <- !app_assoc.
Qed.


Lemma active_of_In (db : DB) (contentType : string) (c : Candidate) :
  In c (active_of db contentType) ->
  is_active (item c) = true /\ score c = Absent /\ scoreBreakdown c = Absent /\
  (contentType = "all" \/ type c = contentType).
Proof.
  unfold active_of. rewrite in_flat_map. intros ((t & name) & _ & Hin).
  cbn [fst snd] in Hin. unfold selected in Hin.
  destruct (String.eqb contentType "all") eqn:Eall;
  destruct (String.eqb contentType t) eqn:Et; cbn in Hin;
    try contradiction;
    apply in_map_iff in Hin as (it & <- & Hit);
    apply filter_In in Hit as [_ Hact];
    (split; [exact Hact|split; [reflexivity|split; [reflexivity|]]]).
  - left. now apply String.eqb_eq.
  - left. now apply String.eqb_eq.
  - right. cbn. symmetry. now apply String.eqb_eq.
Qed.

(** ** Cold start *)


Lemma coldRanking_perm (db : DB) (contentType : string) :
  Permutation (coldRanking db contentType) (active_of db contentType).
Proof. apply stable_sort_perm. Qed.


Lemma consistent_coldScored (content : list Candidate) :
  consistent by_score_desc (map coldScored content) = true.
Proof.
  apply consistent_by_score, List.Forall_forall.
  intros c Hc. apply in_map_iff in Hc as (c0 & <- & _).
  eexists. reflexivity.
Qed.

Lemma getColdStartRecommendations_Ok (impl : SortChoice) (db : DB)
    (contentType : string) (limit : Z) (l : list Candidate) :
  getColdStartRecommendations impl db contentType limit = Ok l ->
  l = map (with_score Undefined) (slice0 (coldRanking db contentType) limit).
Proof.
  unfold getColdStartRecommendations. intros H.
  inv_bind H. inv_bind H. apply getActiveContent_Ok in Ha0. subst.
  injection H as <-.
  change (fun c => with_score (Value (of_Z (rawPopularity (item c)))) c)
    with coldScored.
  rewrite sort_consistent by apply consistent_coldScored.
  rewrite stable_sort_map, slice0_map, map_map. reflexivity.
Qed.


Lemma active_content_active_of (db : DB) (contentType : string) :
  active_content db contentType = active_of db contentType.
Proof.
  unfold active_content, active_documents, active_of, kinds, selected.
  cbn [flat_map fst snd content_of]. now rewrite app_nil_r.
Qed.



(** ** What the Ranker returns *)

Lemma calculateScore_Ok (now : Z) (random : Q) (c c' : Candidate)
    (userProfile : option Profile.t) (userPreferences : option Preferences.t) :
  calculateScore now random c userProfile userPreferences = Ok c' ->
  item c' = item c /\ type c' = type c /\
  exists s, scoreBreakdown c' = Value s /\ score c' = Value (weighted s).
Proof.
  unfold calculateScore. intros H. inv_bind H. injection H as <-.
  cbn. repeat split. eexists. split; reflexivity.
Qed.

(** The two ways in which the body of [getRecommendations] returns. *)
Lemma getRecommendations_body_Ok (impl : SortChoice) (now : Z)
    (random : nat -> Q) (db : DB) (userId contentType : string) (limit : Z)
    (l : list Candidate) :
  getRecommendations_body impl now random db userId contentType limit = Ok l ->
  exists userProfile userPreferences,
    connected db = true /\
    findOne_profile db userId = Ok userProfile /\
    findOne_preferences db userId = Ok userPreferences /\
    ((userProfile = None /\ userPreferences = None /\
      getColdStartRecommendations impl db contentType limit = Ok l) \/
     ((is_Some userProfile \/ is_Some userPreferences) /\
      getActiveContent db contentType = Ok (active_of db contentType) /\
      exists scoredContent,
        Promise_all
          (fun i c =>
             calculateScore now (random i) c userProfile userPreferences)
          (active_of db contentType) = Ok scoredContent /\
        l = map (with_score Undefined)
              (slice0 (sort impl by_score_desc scoredContent) limit))).
Proof.
  unfold getRecommendations_body. intros H.
  inv_bind H. apply getDB_Ok in Ha as [-> Hconn].
  apply bind_Ok in H as (userProfile & Hp & H).
  apply bind_Ok in H as (userPreferences & Hq & H).
  exists userProfile, userPreferences.
  split; [exact Hconn|]. split; [exact Hp|]. split; [exact Hq|].
  destruct userProfile as [p|], userPreferences as [q|]; cbn in H;
    try (right; split; [eauto|];
         apply bind_Ok in H as (content & Hc & H);
         pose proof (getActiveContent_Ok _ _ _ Hc) as ->;
         split; [exact Hc|];
         apply bind_Ok in H as (scoredContent & Hs & H);
         injection H as <-; eauto; fail).
  left. auto.
Qed.

(** With a non-negative [limit], at most [limit] objects are returned. *)
Lemma getRecommendations_length (impl : SortChoice) (now : Z)
    (random : nat -> Q) (db : DB) (userId contentType : string) (limit : Z) :
  (0 <= limit)%Z ->
  (Z.of_nat
     (length (getRecommendations impl now random db userId contentType limit))
   <= limit)%Z.
Proof.
  intros Hlimit. unfold getRecommendations.
  destruct (getRecommendations_body impl _ _ _ _ _ _) as [l|e] eqn:E; cbn;
    [|lia].
  apply getRecommendations_body_Ok in E
    as (p & q & _ & _ & _ & [(_ & _ & H)|(_ & _ & sc & _ & ->)]).
  - apply getColdStartRecommendations_Ok in H as ->.
    rewrite length_map. now apply slice0_length.
  - rewrite length_map. now apply slice0_length.
Qed.

(** The objects of the cold-start list carry no score: [score] holds
    [undefined] and there is no [scoreBreakdown]. *)
Lemma getColdStartRecommendations_fields (impl : SortChoice) (db : DB)
    (contentType : string) (limit : Z) (l : list Candidate) (c : Candidate) :
  getColdStartRecommendations impl db contentType limit = Ok l -> In c l ->
  score c = Undefined /\ scoreBreakdown c = Absent.
Proof.
  intros H Hin. apply getColdStartRecommendations_Ok in H as ->.
  apply in_map_iff in Hin as (c0 & <- & Hin).
  apply slice0_In in Hin. apply (Permutation_in _ (coldRanking_perm _ _)) in Hin.
  apply active_of_In in Hin as (_ & _ & Hb & _).
  split; [reflexivity|exact Hb].
Qed.

(** On the personalised path every returned object still carries the
    [scoreBreakdown] that [calculateScore] attached. *)
Lemma getRecommendations_keeps_breakdown (impl : SortChoice) (now : Z)
    (random : nat -> Q) (db : DB) (userId contentType : string) (limit : Z)
    (c : Candidate) :
  is_Some (user_profiles db !! userId) \/
  is_Some (user_preferences db !! userId) ->
  In c (getRecommendations impl now random db userId contentType limit) ->
  score c = Undefined /\ exists s, scoreBreakdown c = Value s.
Proof.
  intros Huser. unfold getRecommendations.
  destruct (getRecommendations_body impl _ _ _ _ _ _) as [l|e] eqn:E; cbn;
    [|contradiction].
  apply getRecommendations_body_Ok in E
    as (p & q & _ & Hp & Hq & [(-> & -> & _)|(_ & _ & sc & Hall & ->)]).
  - exfalso. unfold findOne_profile, findOne_preferences in Hp, Hq.
    inv_bind Hp. inv_bind Hq. injection Hp as Hp. injection Hq as Hq.
    rewrite Hp, Hq in Huser. destruct Huser as [[x [=]]|[x [=]]].
  - intros Hin. apply in_map_iff in Hin as (c0 & <- & Hin).
    split; [reflexivity|]. cbn.
    apply slice0_In, sort_In in Hin.
    apply Promise_all_from_Forall2 in Hall.
    apply (Forall2_In_right _ _ _ _ Hall) in Hin as (c1 & _ & j & Hj).
    apply calculateScore_Ok in Hj as (_ & _ & s & Hs & _). eauto.
Qed.

(** C4: the object returned to a user with a profile holds [undefined] under
    [score] but keeps its [scoreBreakdown], all six sub-scores included. *)
Theorem C4_score_breakdown_is_returned (impl : SortChoice) :
  exists c s,
    getRecommendations impl 0 (fun _ => 0%Q) member_db "p" "job" 20 = [c] /\
    item c = tech_item /\
    score c = Undefined /\
    scoreBreakdown c = Value s /\
    interestMatch s = Fin 300 /\
    recency s = Fin 100.
Proof.
  eexists. eexists. split; [vm_compute; reflexivity|].
  repeat split.
Qed.

(** ** The Preference Learner *)

Lemma prototype_names_inherited (key : string) :
  existsb (String.eqb key) prototype_names = false ->
  inherited key = None /\ String.eqb key "__proto__" = false.
Proof.
  unfold prototype_names, inherited, prototype_functions.
  cbn [existsb]. intros H.
  repeat (apply orb_false_iff in H; destruct H as [? H]).
  repeat match goal with
  | E : String.eqb key _ = false |- _ => rewrite E; clear E
  end.
  split; reflexivity.
Qed.

Lemma bump_other (delta : Amount) (m : gmap string WeightValue)
    (key k : string) :
  key <> k -> bump delta m key !! k = m !! k.
Proof.
  intros Hne. unfold bump, assign.
  destruct (_ && _); [reflexivity|]. now apply lookup_insert_ne.
Qed.

Lemma bump_number (delta : Amount) (m : gmap string WeightValue)
    (key k : string) (w : Q) :
  number_at m k = Some w ->
  number_at (bump delta m key) k =
  Some (if String.eqb key k then w + amount_value delta else w)%Q.
Proof.
  intros Hw. destruct (String.eqb_spec key k) as [->|Hne].
  - unfold number_at in Hw. unfold bump, assign, member.
    destruct (m !! k) as [[q|s]|] eqn:Hk; [| discriminate |].
    + injection Hw as <-. rewrite bool_decide_true by eauto.
      rewrite andb_false_r. cbn [or_zero plus].
      unfold number_at. now rewrite lookup_insert_eq.
    + destruct (existsb _ _) eqn:Hproto; [discriminate|].
      injection Hw as <-.
      destruct (prototype_names_inherited k Hproto) as [-> ->].
      cbn [fmap option_fmap option_map or_zero plus andb].
      unfold number_at. now rewrite lookup_insert_eq.
  - unfold number_at. rewrite bump_other by exact Hne. exact Hw.
Qed.

Lemma bump_all_number (delta : Amount) (l : list string)
    (m : gmap string WeightValue) (k : string) (w : Q) :
  number_at m k = Some w ->
  exists w',
    number_at (bump_all delta l m) k = Some w' /\
    (w' == w + times (occurrences k l) (amount_value delta))%Q.
Proof.
  unfold bump_all, times. revert m w.
  induction l as [|x l IH]; intros m w Hw; cbn [fold_left occurrences].
  - exists w. split; [exact Hw|]. cbn. ring.
  - destruct (IH _ _ (bump_number delta m x k w Hw)) as (w' & Hw' & E).
    exists w'. split; [exact Hw'|]. rewrite E.
    rewrite Nat2Z.inj_add, inject_Z_plus.
    destruct (String.eqb x k); cbn [Z.of_nat]; ring.
Qed.

Lemma bump_all_other (delta : Amount) (l : list string)
    (m : gmap string WeightValue) (k : string) :
  ~ In k l -> bump_all delta l m !! k = m !! k.
Proof.
  unfold bump_all. revert m. induction l as [|x l IH]; intros m Hk; cbn.
  - reflexivity.
  - rewrite IH by (intros H; apply Hk; right; exact H).
    apply bump_other. intros ->. apply Hk. left. reflexivity.
Qed.

(** Decide the comparisons of string literals in the goal. *)
Ltac eval_eqb :=
  repeat match goal with
  | |- context [String.eqb ?a ?b] =>
      let v := eval vm_compute in (String.eqb a b) in
      match v with
      | true => change (String.eqb a b) with true
      | false => change (String.eqb a b) with false
      end
  end.

(** The state after a [save] or [like] of a user who has preferences. *)
Lemma learn_save_like (now : Z) (db : DB) (userId ty : string)
    (p : Preferences.t) (itemData : ContentItem) :
  connected db = true ->
  collection db "user_preferences" = Ok tt ->
  user_preferences db !! userId = Some p ->
  ty = "save" \/ ty = "like" ->
  let db' := updatePreferencesFromEngagement now db userId ty itemData in
  connected db' = true /\ failing db' = failing db /\
  user_preferences db' !! userId =
    Some (set_interests_skills
            (bump_all One (orEmpty (tags itemData))
                      (orEmptyObj (Preferences.interests p)))
            (bump_all One (orEmpty (requirements itemData))
                      (orEmptyObj (Preferences.skills p)))
            now p).
Proof.
  intros Hc Hcoll Hp Hty db'. subst db'.
  unfold updatePreferencesFromEngagement, updatePreferences_body, getDB,
    findOne_preferences, updateOne_preferences.
  rewrite Hc. cbn [bind]. rewrite Hcoll. cbn [bind]. rewrite Hp.
  destruct Hty as [-> | ->]; eval_eqb; cbn [orb bind try_catch];
    cbn [connected failing user_preferences];
    (split; [exact Hc|split; [reflexivity|]]);
    rewrite lookup_alter_eq, Hp; reflexivity.
Qed.

(** The state after a [click_through] of a user who has preferences. *)
Lemma learn_click_through (now : Z) (db : DB) (userId : string)
    (p : Preferences.t) (itemData : ContentItem) :
  connected db = true ->
  collection db "user_preferences" = Ok tt ->
  user_preferences db !! userId = Some p ->
  user_preferences
    (updatePreferencesFromEngagement now db userId "click_through" itemData)
    !! userId =
  Some (set_interests
          (bump_all Half (orEmpty (tags itemData))
                    (orEmptyObj (Preferences.interests p)))
          now p).
Proof.
  intros Hc Hcoll Hp.
  unfold updatePreferencesFromEngagement, updatePreferences_body, getDB,
    findOne_preferences, updateOne_preferences.
  rewrite Hc. cbn [bind]. rewrite Hcoll. cbn [bind]. rewrite Hp.
  eval_eqb. cbn [orb bind]. rewrite Hcoll.
  cbn [bind try_catch user_preferences].
  rewrite lookup_alter_eq, Hp. reflexivity.
Qed.

(** C6: the increment fails for a tag that names a member of
    [Object.prototype].  [currentInterests[tag] || 0] then reads the
    inherited member where the specification counts from 0.  After one [like] of
    an item tagged [art] and [constructor] the weight of [art] is 1, and
    under [constructor] the text of the function [Object] followed by [1]
    is stored, which is no weight; a second [like] makes the weight of
    [art] 2 and appends another [1] to the text, and a [click_through]
    appends [0.5]. *)
Theorem C6_inherited_member_is_read :
  let once :=
    updatePreferencesFromEngagement 0 learner_db "u" "like" constructor_item in
  let twice :=
    updatePreferencesFromEngagement 0 once "u" "like" constructor_item in
  let clicked :=
    updatePreferencesFromEngagement 0 once "u" "click_through"
      constructor_item in
  exists p1 p2 p3,
    user_preferences once !! "u" = Some p1 /\
    user_preferences twice !! "u" = Some p2 /\
    user_preferences clicked !! "u" = Some p3 /\
    Preferences.interests p1 =
      Some {[ "art" := WNum 1;
              "constructor" :=
                WStr "function Object() { [native code] }1" ]} /\
    Preferences.interests p2 =
      Some {[ "art" := WNum 2;
              "constructor" :=
                WStr "function Object() { [native code] }11" ]} /\
    Preferences.interests p3 =
      Some {[ "art" := WNum (3 # 2);
              "constructor" :=
                WStr "function Object() { [native code] }10.5" ]} /\
    weight (Preferences.interests blank_preferences) "art" = Some 0%Q /\
    weight (Preferences.interests p1) "art" = Some 1%Q /\
    weight (Preferences.interests p1) "constructor" = None /\
    weight (Preferences.interests p2) "constructor" = None.
Proof.
  eexists. eexists. eexists.
  split; [vm_compute; reflexivity|].
  split; [vm_compute; reflexivity|].
  split; [vm_compute; reflexivity|].
  split; [vm_compute; reflexivity|].
  split; [vm_compute; reflexivity|].
  split; [vm_compute; reflexivity|].
  split; [reflexivity|].
  split; [vm_compute; reflexivity|].
  split; vm_compute; reflexivity.
Qed.

(** ** Failures of the store *)

Lemma collection_failing (db : DB) (name : string) :
  In name (failing db) -> collection db name = Throw (StoreError name).
Proof.
  intros Hin. unfold collection.
  assert (H : existsb (String.eqb name) (failing db) = true).
  { apply existsb_exists. exists name. split; [exact Hin|].
    apply String.eqb_refl. }
  now rewrite H.
Qed.

Lemma push_active_failing (db : DB) (contentType t name : string)
    (acc : list Candidate) :
  selected contentType t = true -> In name (failing db) ->
  push_active db contentType t name acc = Throw (StoreError name).
Proof.
  intros Hsel Hin. unfold push_active, find_active.
  fold (selected contentType t). rewrite Hsel.
  now rewrite (collection_failing db name Hin).
Qed.

(** A failing collection among those requested makes [getActiveContent]
    reject. *)
Lemma getActiveContent_failing (db : DB) (contentType t name : string) :
  In (t, name) kinds -> selected contentType t = true ->
  In name (failing db) ->
  exists e, getActiveContent db contentType = Throw e.
Proof.
  intros Hkind Hsel Hin. unfold getActiveContent, getDB.
  destruct (connected db); cbn [bind]; [|eauto].
  cbn in Hkind.
  destruct Hkind as [[= <- <-]|[[= <- <-]|[[= <- <-]|[[= <- <-]|[]]]]];
    repeat match goal with
    | |- exists e, bind (push_active db contentType ?t' ?n' ?acc) _ = Throw e =>
        first
          [ rewrite (push_active_failing db contentType t' n' acc Hsel Hin);
            cbn [bind]; eexists; reflexivity
          | destruct (push_active db contentType t' n' acc);
            cbn [bind]; [|eexists; reflexivity] ]
    end.
Qed.

Lemma getColdStartRecommendations_content (impl : SortChoice) (db : DB)
    (contentType : string) (limit : Z) (l : list Candidate) :
  getColdStartRecommendations impl db contentType limit = Ok l ->
  exists content, getActiveContent db contentType = Ok content.
Proof.
  unfold getColdStartRecommendations. intros H.
  inv_bind H. inv_bind H. eauto.
Qed.

(** C7, as stated, fails: [getColdStartRecommendations] has no handler of
    its own; called
    directly, as the trending routes do, it rejects with the error of the
    store.  The same failure inside [getRecommendations] gives []. *)
Lemma C7_cold_start_propagates :
  getColdStartRecommendations keep_order broken_db "job" 20 =
    Throw (StoreError "jobs") /\
  getColdStartRecommendations keep_order offline_db "all" 20 =
    Throw NotConnected /\
  getRecommendations keep_order 0 (fun _ => 0%Q) broken_db "new" "job" 20
    = [] /\
  ~ (forall impl db contentType limit,
       exists l, getColdStartRecommendations impl db contentType limit = Ok l).
Proof.
  split; [reflexivity|]. split; [reflexivity|]. split; [reflexivity|].
  intros H. destruct (H keep_order broken_db "job" 20) as (l & Hl).
  discriminate Hl.
Qed.

(** C7 (amended): [getRecommendations] and [updatePreferencesFromEngagement]
    hand no error to their caller.  Whatever rejects inside
    [getRecommendations] - no connection, a failing profile or preference
    collection, a failing content collection among those requested - the
    result is the empty list.  Whatever rejects inside
    [updatePreferencesFromEngagement], the call returns and the store is
    as it was; and for a user without a preferences document the call
    changes nothing. *)
Theorem C7_failures_are_contained (impl : SortChoice) (now : Z)
    (random : nat -> Q) (db : DB) (userId contentType engagementType : string)
    (limit : Z) (itemData : ContentItem) :
  let recommendations :=
    getRecommendations impl now random db userId contentType limit in
  let after :=
    updatePreferencesFromEngagement now db userId engagementType itemData in
  (forall e,
     getRecommendations_body impl now random db userId contentType limit
       = Throw e ->
     recommendations = []) /\
  (connected db = false -> recommendations = []) /\
  (In "user_profiles" (failing db) -> recommendations = []) /\
  (In "user_preferences" (failing db) -> recommendations = []) /\
  (forall t name,
     In (t, name) kinds -> selected contentType t = true ->
     In name (failing db) -> recommendations = []) /\
  (forall e,
     updatePreferences_body now db userId engagementType itemData = Throw e ->
     after = db) /\
  (connected db = false -> after = db) /\
  (In "user_preferences" (failing db) -> after = db) /\
  (user_preferences db !! userId = None -> after = db).
Proof.
  intros recommendations after. subst recommendations after.
  unfold getRecommendations, updatePreferencesFromEngagement.
  split; [intros e ->; reflexivity|].
  assert (Hrec : forall P : Prop,
            (forall l, getRecommendations_body impl now random db userId
                         contentType limit = Ok l -> P -> False) ->
            P ->
            try_catch (getRecommendations_body impl now random db userId
                         contentType limit) (fun _ => []) = []).
  { intros P HP p.
    destruct (getRecommendations_body impl _ _ _ _ _ _) as [l|e] eqn:E;
      [|reflexivity].
    exfalso. exact (HP l eq_refl p). }
  split; [|split; [|split; [|split]]].
  - apply Hrec. intros l E Hoff.
    apply getRecommendations_body_Ok in E as (_ & _ & Hon & _). congruence.
  - apply Hrec. intros l E Hfail.
    apply getRecommendations_body_Ok in E as (p & _ & _ & Hp & _).
    unfold findOne_profile in Hp.
    rewrite (collection_failing _ _ Hfail) in Hp. discriminate Hp.
  - apply Hrec. intros l E Hfail.
    apply getRecommendations_body_Ok in E as (_ & q & _ & _ & Hq & _).
    unfold findOne_preferences in Hq.
    rewrite (collection_failing _ _ Hfail) in Hq. discriminate Hq.
  - intros t name Hkind Hsel. apply Hrec. intros l E Hfail.
    destruct (getActiveContent_failing db contentType t name Hkind Hsel Hfail)
      as (e & He).
    apply getRecommendations_body_Ok in E
      as (_ & _ & _ & _ & _ & [(_ & _ & Hcold)|(_ & Hcontent & _)]).
    + apply getColdStartRecommendations_content in Hcold as (c & Hc).
      congruence.
    + congruence.
  - split; [intros e ->; reflexivity|].
    unfold updatePreferences_body, getDB, findOne_preferences.
    split; [intros ->; reflexivity|]. split.
    + intros Hfail. destruct (connected db); [|reflexivity]. cbn [bind].
      rewrite (collection_failing _ _ Hfail). reflexivity.
    + intros Hnone. destruct (connected db); [|reflexivity]. cbn [bind].
      destruct (collection db "user_preferences") as [[]|e]; [|reflexivity].
      cbn [bind]. rewrite Hnone. reflexivity.
Qed.

Lemma C7_failures_are_contained_witness :
  getRecommendations keep_order 0 (fun _ => 0%Q) broken_db "new" "job" 20
    = [] /\
  updatePreferencesFromEngagement 0 offline_db "u" "like" tech_item
    = offline_db.
Proof.
  split.
  - destruct (C7_failures_are_contained keep_order 0 (fun _ => 0%Q) broken_db
                "new" "job" "like" 20 tech_item)
      as (_ & _ & _ & _ & Hcontent & _).
    apply (Hcontent "job" "jobs").
    + right. right. left. reflexivity.
    + reflexivity.
    + left. reflexivity.
  - destruct (C7_failures_are_contained keep_order 0 (fun _ => 0%Q) offline_db
                "u" "job" "like" 20 tech_item)
      as (_ & _ & _ & _ & _ & _ & Hoff & _).
    apply Hoff. reflexivity.
Defined.

(** * Further properties of the engine *)

(** ** Sub-scores *)

(** X1: whenever [calculateSkillMatch] returns, its value lies in
    [[0,100]]: the matched requirements are counted against the
    requirements themselves. *)
Theorem X1_skill_match_in_range (it : ContentItem)
    (userProfile : option Profile.t) (userPreferences : option Preferences.t)
    (v : num) :
  calculateSkillMatch it userProfile userPreferences = Ok v ->
  num_between 0 100 v.
Proof.
  unfold calculateSkillMatch.
  destruct (length_is_zero _ || _) eqn:E.
  - intros [= <-]. apply num_between_Fin. lra.
  - apply orb_false_iff in E as [_ Hreq]. apply Nat.eqb_neq in Hreq.
    destruct (userSkillsOf userProfile userPreferences) as [us|m];
      [|discriminate].
    intros [= <-]. apply ratio_in_unit; [apply matched_length|lia].
Qed.

Lemma X1_skill_match_in_range_witness :
  calculateSkillMatch art_item (Some art_profile) None = Ok (Fin 100) /\
  num_between 0 100 (Fin 100).
Proof.
  split; [reflexivity|].
  apply (X1_skill_match_in_range art_item (Some art_profile) None (Fin 100)).
  reflexivity.
Defined.

(** X2: for a profile that lists interests, [calculateInterestMatch]
    returns a number [x] with [0 <= x] and
    [x * #interests <= 100 * #tags]; so it stays within 100 whenever the
    item has no more tags than the user has interests. *)
Theorem X2_interest_match_bounds (it : ContentItem) (p : Profile.t)
    (userPreferences : option Preferences.t) (us : list string) :
  Profile.interests p = Some us ->
  exists x,
    calculateInterestMatch it (Some p) userPreferences = Ok (Fin x) /\
    (0 <= x)%Q /\
    (x * inject_Z (Z.of_nat (length us))
     <= 100 * inject_Z (Z.of_nat (length (orEmpty (tags it)))))%Q /\
    ((length (orEmpty (tags it)) <= length us)%nat -> (x <= 100)%Q).
Proof.
  intros Hus. unfold calculateInterestMatch, userInterestsOf.
  cbn [mbind option_bind]. rewrite Hus.
  set (T := orEmpty (tags it)).
  assert (HT : (0 <= inject_Z (Z.of_nat (length T)))%Q).
  { change 0%Q with (inject_Z 0). rewrite <- Zle_Qle. lia. }
  assert (HU : (0 <= inject_Z (Z.of_nat (length us)))%Q).
  { change 0%Q with (inject_Z 0). rewrite <- Zle_Qle. lia. }
  destruct (length_is_zero (FromArray us) || (length T =? 0)%nat) eqn:E.
  - exists 0%Q. split; [reflexivity|]. split; [lra|]. split; [|intros; lra].
    rewrite Qmult_0_l. revert HT. generalize (inject_Z (Z.of_nat (length T))).
    clear. intros t Ht. lra.
  - apply orb_false_iff in E as [Hus0 _]. cbn in Hus0.
    apply Nat.eqb_neq in Hus0.
    assert (Hpos : (0 < inject_Z (Z.of_nat (length us)))%Q).
    { change 0%Q with (inject_Z 0). rewrite <- Zlt_Qlt. lia. }
    assert (Hz : Qzero (inject_Z (Z.of_nat (length us))) = false).
    { apply Qzero_false. intros E. rewrite E in Hpos. discriminate Hpos. }
    unfold of_nat. cbn [num_div]. rewrite Hz. cbn [num_mul].
    eexists. split; [reflexivity|].
    set (m := inject_Z (Z.of_nat (length (matched T us)))).
    set (n := inject_Z (Z.of_nat (length us))) in *.
    set (t := inject_Z (Z.of_nat (length T))) in *.
    assert (Hm0 : (0 <= m)%Q).
    { subst m. change 0%Q with (inject_Z 0). rewrite <- Zle_Qle. lia. }
    assert (Hmt : (m <= t)%Q).
    { subst m t. rewrite <- Zle_Qle. pose proof (matched_length T us). lia. }
    assert (Hr0 : (0 <= m / n)%Q).
    { apply Qle_shift_div_l; [exact Hpos|]. rewrite Qmult_0_l. exact Hm0. }
    assert (Hrn : (m / n * n == m)%Q).
    { rewrite Qmult_comm. apply Qmult_div_r.
      intros E. rewrite E in Hpos. discriminate Hpos. }
    split; [|split].
    + revert Hr0. generalize (m / n)%Q. clear. intros r Hr. lra.
    + assert (Hre : (m / n * 100 * n == 100 * (m / n * n))%Q) by ring.
      rewrite Hre, Hrn. revert Hmt. generalize m t. clear. intros m t H. lra.
    + intros Hle.
      assert (Htn : (t <= n)%Q) by (subst t n; rewrite <- Zle_Qle; lia).
      assert (Hr1 : (m / n <= 1)%Q).
      { apply Qle_shift_div_r; [exact Hpos|]. rewrite Qmult_1_l.
        revert Hmt Htn. generalize m t n. clear. intros m t n H1 H2. lra. }
      revert Hr1. generalize (m / n)%Q. clear. intros r Hr. lra.
Qed.

Lemma X2_interest_match_bounds_witness :
  exists x,
    calculateInterestMatch tech_item (Some tech_profile) None = Ok (Fin x) /\
    (0 <= x)%Q /\
    (x * inject_Z 1 <= 100 * inject_Z 3)%Q.
Proof.
  destruct (X2_interest_match_bounds tech_item tech_profile None ["tech"]
              eq_refl) as (x & Hx & H0 & Hb & _).
  exists x. split; [exact Hx|]. split; [exact H0|exact Hb].
Defined.

Lemma existsb_map {A B} (f : B -> bool) (g : A -> B) (l : list A) :
  existsb f (map g l) = existsb (fun x => f (g x)) l.
Proof. induction l as [|x l IH]; cbn; [reflexivity|]. now rewrite IH. Qed.

(** The number of matches depends on the lower-cased strings only. *)
Lemma matched_length_lower (xs us : list string) :
  length (matched xs us) =
  length (List.filter
            (fun x => existsb (fun u => includes u x || includes x u)
                              (map toLowerCase us))
            (map toLowerCase xs)).
Proof.
  unfold matched. induction xs as [|x xs IH]; cbn [map List.filter];
    [reflexivity|].
  rewrite existsb_map. unfold overlaps at 1.
  destruct (existsb _ us); cbn [length]; now rewrite IH.
Qed.

(** X3: matching ignores case.  Two items whose tags (requirements) agree
    up to case, scored for two profiles whose interests (skills) agree up
    to case, get the same [interestMatch] ([skillMatch]). *)
Theorem X3_matching_ignores_case (it it' : ContentItem) (p p' : Profile.t)
    (q : option Preferences.t) :
  map toLowerCase (orEmpty (tags it)) = map toLowerCase (orEmpty (tags it')) ->
  map toLowerCase (orEmpty (requirements it)) =
    map toLowerCase (orEmpty (requirements it')) ->
  (forall us us',
     Profile.interests p = Some us -> Profile.interests p' = Some us' ->
     map toLowerCase us = map toLowerCase us' ->
     calculateInterestMatch it (Some p) q =
     calculateInterestMatch it' (Some p') q) /\
  (forall ss ss',
     Profile.skills p = Some ss -> Profile.skills p' = Some ss' ->
     map toLowerCase ss = map toLowerCase ss' ->
     calculateSkillMatch it (Some p) q = calculateSkillMatch it' (Some p') q).
Proof.
  intros Htags Hreqs.
  assert (Hlen : forall a b : list string,
            map toLowerCase a = map toLowerCase b -> length a = length b).
  { intros a b H. rewrite <- (length_map toLowerCase a), H.
    apply length_map. }
  split.
  - intros us us' Hp Hp' Hus.
    unfold calculateInterestMatch, userInterestsOf.
    cbn [mbind option_bind]. rewrite Hp, Hp'. cbn [length_is_zero].
    rewrite !matched_length_lower, Htags, Hus.
    now rewrite (Hlen _ _ Htags), (Hlen _ _ Hus).
  - intros ss ss' Hp Hp' Hss.
    unfold calculateSkillMatch, userSkillsOf.
    cbn [mbind option_bind]. rewrite Hp, Hp'. cbn [length_is_zero].
    rewrite !matched_length_lower, Hreqs, Hss.
    now rewrite (Hlen _ _ Hreqs), (Hlen _ _ Hss).
Qed.

Lemma X3_matching_ignores_case_witness :
  calculateInterestMatch art_item (Some art_profile) None =
  calculateInterestMatch
    {| _id := "event-2"; status := "active";
       tags := Some ["ART"]; requirements := Some ["Painting"];
       location := None; created_at := 0;
       likes_count := None; saves_count := None; views := None |}
    (Some {| Profile.interests := Some ["Art"];
             Profile.skills := Some ["PAINTING"];
             Profile.location_data := None |})
    None.
Proof.
  refine (proj1 (X3_matching_ignores_case art_item _ art_profile _ None _ _)
            ["art"] ["Art"] _ _ _); reflexivity.
Defined.

(** X4: [recency] never favours the older of two items: if [a] was created
    no later than [b], the recency of [a] is at most that of [b]. *)
Theorem X4_recency_antitone_in_age (now : Z) (a b : ContentItem) :
  created_at a <= created_at b ->
  exists x y,
    calculateRecency now a = Fin x /\ calculateRecency now b = Fin y /\
    (x <= y)%Q.
Proof.
  intros Hab.
  assert (Hage : (ageQ now b <= ageQ now a)%Q).
  { unfold ageQ. apply Qmult_le_compat_r; [|discriminate].
    rewrite <- Zle_Qle. lia. }
  unfold calculateRecency. rewrite !ageInDays_Fin. cbn [num_leb].
  revert Hage. generalize (ageQ now a) (ageQ now b). clear. intros x y Hxy.
  destruct (Qle_bool x 1) eqn:X1; destruct (Qle_bool x 7) eqn:X7;
  destruct (Qle_bool x 30) eqn:X30; destruct (Qle_bool x 90) eqn:X90;
  destruct (Qle_bool y 1) eqn:Y1; destruct (Qle_bool y 7) eqn:Y7;
  destruct (Qle_bool y 30) eqn:Y30; destruct (Qle_bool y 90) eqn:Y90;
  repeat match goal with
  | H : Qle_bool _ _ = true |- _ => apply Qle_bool_iff in H
  | H : Qle_bool _ _ = false |- _ => apply Qle_bool_false in H
  end;
  eexists; eexists; (split; [reflexivity|split; [reflexivity|]]);
  first [discriminate | exfalso; lra].
Qed.

Lemma X4_recency_antitone_in_age_witness :
  exists x y,
    calculateRecency (10 * msPerDay) (item_created_at 0) = Fin x /\
    calculateRecency (10 * msPerDay) (item_created_at (9 * msPerDay)) = Fin y /\
    (x <= y)%Q.
Proof.
  apply (X4_recency_antitone_in_age (10 * msPerDay) (item_created_at 0)
           (item_created_at (9 * msPerDay))).
  discriminate.
Defined.

(** The popularity of an item created in the past, as a rational; the
    divisor is at least 1. *)
Lemma decayed_popularity_past (now : Z) (it : ContentItem) :
  created_at it <= now ->
  let d := (1 + ageQ now it * decayRate)%Q in
  (1 <= d)%Q /\
  calculateDecayedPopularity now it =
  Fin (Qmin (inject_Z (rawPopularity it) / d / 10) 100).
Proof.
  intros Hpast d.
  assert (Hage : (0 <= ageQ now it)%Q).
  { unfold ageQ. apply Qle_shift_div_l; [reflexivity|].
    rewrite Qmult_0_l. change 0%Q with (inject_Z 0). rewrite <- Zle_Qle. lia. }
  assert (Hd : (1 <= d)%Q).
  { subst d. unfold decayRate. revert Hage. generalize (ageQ now it). clear.
    intros a Ha. lra. }
  split; [exact Hd|].
  unfold calculateDecayedPopularity. rewrite ageInDays_Fin.
  fold (rawPopularity it). cbn [num_mul num_add]. unfold of_Z. fold d.
  assert (Hz : Qzero d = false).
  { apply Qzero_false. intros E. rewrite E in Hd. apply Hd. reflexivity. }
  cbn [num_div]. rewrite Hz. cbn [num_div]. change (Qzero 10) with false.
  reflexivity.
Qed.

(** X5: for an item created in the past whose counters do not sum to a
    negative number, [popularity] lies in [[0,100]]. *)
Theorem X5_popularity_in_range (now : Z) (it : ContentItem) :
  created_at it <= now -> 0 <= rawPopularity it ->
  num_between 0 100 (calculateDecayedPopularity now it).
Proof.
  intros Hpast Hraw.
  destruct (decayed_popularity_past now it Hpast) as [Hd ->].
  apply num_between_Fin.
  assert (Hr : (0 <= inject_Z (rawPopularity it))%Q).
  { change 0%Q with (inject_Z 0). rewrite <- Zle_Qle. exact Hraw. }
  assert (Hq : (0 <= inject_Z (rawPopularity it)
                     / (1 + ageQ now it * decayRate))%Q).
  { apply Qle_shift_div_l; [|rewrite Qmult_0_l; exact Hr].
    eapply Qlt_le_trans; [|exact Hd]. reflexivity. }
  revert Hq.
  generalize (inject_Z (rawPopularity it) / (1 + ageQ now it * decayRate))%Q.
  clear. intros r Hr. split.
  - assert (H10 : (r / 10 == r * (1 # 10))%Q) by (unfold Qdiv; reflexivity).
    apply Q.min_glb; [rewrite H10|]; lra.
  - apply Q.le_min_r.
Qed.

Lemma X5_popularity_in_range_witness :
  num_between 0 100
    (calculateDecayedPopularity msPerDay
       (job_with "b" (Some 5) (Some 2) (Some 10))).
Proof.
  apply (X5_popularity_in_range msPerDay
           (job_with "b" (Some 5) (Some 2) (Some 10))); discriminate.
Defined.

(** X6: [popularity] grows with engagement and decays with age.  Of two
    items created in the past, the one that is no older and has no fewer
    likes, saves and views in total has at least the popularity of the
    other. *)
Theorem X6_popularity_monotone (now : Z) (a b : ContentItem) :
  created_at a <= created_at b -> created_at b <= now ->
  0 <= rawPopularity a -> rawPopularity a <= rawPopularity b ->
  exists x y,
    calculateDecayedPopularity now a = Fin x /\
    calculateDecayedPopularity now b = Fin y /\
    (x <= y)%Q.
Proof.
  intros Hab Hb Ha0 Hraw.
  assert (Hpa : created_at a <= now) by lia.
  destruct (decayed_popularity_past now a Hpa) as [Hda ->].
  destruct (decayed_popularity_past now b Hb) as [Hdb ->].
  eexists. eexists. split; [reflexivity|]. split; [reflexivity|].
  assert (Hage : (ageQ now b <= ageQ now a)%Q).
  { unfold ageQ. apply Qmult_le_compat_r; [|discriminate].
    rewrite <- Zle_Qle. lia. }
  assert (Hra : (0 <= inject_Z (rawPopularity a))%Q).
  { change 0%Q with (inject_Z 0). rewrite <- Zle_Qle. exact Ha0. }
  assert (Hrab : (inject_Z (rawPopularity a) <= inject_Z (rawPopularity b))%Q).
  { rewrite <- Zle_Qle. exact Hraw. }
  revert Hda Hdb Hage Hra Hrab. unfold decayRate.
  generalize (inject_Z (rawPopularity a)) (inject_Z (rawPopularity b))
             (ageQ now a) (ageQ now b).
  clear. intros ra rb ga gb Hda Hdb Hage Hra Hrab.
  set (da := (1 + ga * (1 # 10))%Q) in *.
  set (db := (1 + gb * (1 # 10))%Q) in *.
  assert (Hdd : (db <= da)%Q) by (subst da db; lra).
  assert (Hpa : (0 < da)%Q) by (eapply Qlt_le_trans; [|exact Hda]; reflexivity).
  assert (Hpb : (0 < db)%Q) by (eapply Qlt_le_trans; [|exact Hdb]; reflexivity).
  assert (Hq : (ra / da <= rb / db)%Q).
  { apply Qle_shift_div_r; [exact Hpa|].
    assert (E : (rb / db * da == rb * da / db)%Q).
    { field. intros E. rewrite E in Hpb. discriminate Hpb. }
    rewrite E. apply Qle_shift_div_l; [exact Hpb|].
    apply Qle_trans with (rb * db)%Q.
    - apply Qmult_le_compat_r; [exact Hrab|apply Qlt_le_weak; exact Hpb].
    - rewrite !(Qmult_comm rb). apply Qmult_le_compat_r; [exact Hdd|].
      eapply Qle_trans; [exact Hra|exact Hrab]. }
  apply Q.min_le_compat_r.
  apply Qmult_le_compat_r; [exact Hq|discriminate].
Qed.

Lemma X6_popularity_monotone_witness :
  exists x y,
    calculateDecayedPopularity msPerDay
      (job_with "a" (Some 1) None (Some 3)) = Fin x /\
    calculateDecayedPopularity msPerDay
      (job_with "b" (Some 5) (Some 2) (Some 10)) = Fin y /\
    (x <= y)%Q.
Proof.
  apply (X6_popularity_monotone msPerDay
           (job_with "a" (Some 1) None (Some 3))
           (job_with "b" (Some 5) (Some 2) (Some 10))); discriminate.
Defined.

(** X7: for a draw of [Math.random()] in [[0,1)], [explore] lies in
    [[0,100)]. *)
Theorem X7_explore_in_range (random : Q) (it : ContentItem) :
  (0 <= random)%Q -> (random < 1)%Q ->
  exists x,
    calculateExploreFactor random it = Fin x /\ (0 <= x)%Q /\ (x < 100)%Q.
Proof.
  intros H0 H1. unfold calculateExploreFactor. cbn [num_mul].
  eexists. split; [reflexivity|]. clear it. split; lra.
Qed.

Lemma X7_explore_in_range_witness :
  exists x,
    calculateExploreFactor (1 # 2) tech_item = Fin x /\
    (0 <= x)%Q /\ (x < 100)%Q.
Proof.
  apply (X7_explore_in_range (1 # 2) tech_item); [discriminate|reflexivity].
Defined.

(** X8: the six weights are non-negative and sum to 1: when every
    sub-score lies in [[0,100]] so does the combined score, and six
    sub-scores of 100 combine to 100. *)
Theorem X8_weights_are_convex (s : Scores) :
  (num_between 0 100 (interestMatch s) ->
   num_between 0 100 (skillMatch s) ->
   num_between 0 100 (locationMatch s) ->
   num_between 0 100 (popularity s) ->
   num_between 0 100 (recency s) ->
   num_between 0 100 (explore s) ->
   num_between 0 100 (weighted s)) /\
  num_eq
    (weighted {| interestMatch := Fin 100; skillMatch := Fin 100;
                 locationMatch := Fin 100; popularity := Fin 100;
                 recency := Fin 100; explore := Fin 100 |})
    (Fin 100).
Proof.
  split; [|reflexivity].
  unfold weighted.
  destruct s as [[i| | |] [k| | |] [l| | |] [p| | |] [r| | |] [e| | |]];
    cbn [interestMatch skillMatch locationMatch popularity recency explore
         num_between]; try tauto.
  cbn [num_mul num_add num_between]. intros. lra.
Qed.

Lemma X8_weights_are_convex_witness :
  num_between 0 100
    (weighted {| interestMatch := Fin 100; skillMatch := Fin 50;
                 locationMatch := Fin 20; popularity := Fin 0;
                 recency := Fin 80; explore := Fin 10 |}).
Proof.
  apply (X8_weights_are_convex
           {| interestMatch := Fin 100; skillMatch := Fin 50;
              locationMatch := Fin 20; popularity := Fin 0;
              recency := Fin 80; explore := Fin 10 |});
    cbn; split; discriminate.
Defined.

(** ** The lists that the Ranker returns *)

(** Where a candidate of the active content comes from. *)
Lemma active_of_origin (db : DB) (contentType : string) (c : Candidate) :
  In c (active_of db contentType) ->
  exists name,
    In (type c, name) kinds /\ selected contentType (type c) = true /\
    In (item c) (content_of db name) /\ is_active (item c) = true.
Proof.
  unfold active_of. rewrite in_flat_map.
  intros ((t & name) & Hkind & Hin). cbn [fst snd] in Hin.
  destruct (selected contentType t) eqn:Hsel; [|contradiction].
  apply in_map_iff in Hin as (it & <- & Hit).
  apply filter_In in Hit as [Hstore Hact].
  exists name. cbn. auto.
Qed.

Lemma slice0_le_length {A} (l : list A) (stop : Z) :
  (length (slice0 l stop) <= length l)%nat.
Proof.
  unfold slice0. destruct (stop <? 0)%Z; rewrite length_firstn; lia.
Qed.

(** Every object that [getRecommendations] returns is a candidate of the
    active content with its [score] blanked and, on the personalised path,
    a [scoreBreakdown] added. *)
Lemma getRecommendations_origin (impl : SortChoice) (now : Z)
    (random : nat -> Q) (db : DB) (userId contentType : string) (limit : Z)
    (c : Candidate) :
  In c (getRecommendations impl now random db userId contentType limit) ->
  exists c0,
    In c0 (active_of db contentType) /\ item c = item c0 /\ type c = type c0.
Proof.
  unfold getRecommendations.
  destruct (getRecommendations_body impl _ _ _ _ _ _) as [l|e] eqn:E; cbn;
    [|contradiction].
  apply getRecommendations_body_Ok in E
    as (p & q & _ & _ & _ & [(_ & _ & H)|(_ & _ & sc & Hall & ->)]).
  - apply getColdStartRecommendations_Ok in H as ->.
    intros Hin. apply in_map_iff in Hin as (c0 & <- & Hin).
    apply slice0_In in Hin.
    apply (Permutation_in _ (coldRanking_perm _ _)) in Hin.
    exists c0. auto.
  - intros Hin. apply in_map_iff in Hin as (c1 & <- & Hin).
    apply slice0_In, sort_In in Hin.
    apply Promise_all_from_Forall2 in Hall.
    apply (Forall2_In_right _ _ _ _ Hall) in Hin as (c0 & Hc0 & j & Hj).
    apply calculateScore_Ok in Hj as (Hi & Ht & _).
    exists c0. cbn. auto.
Qed.

Lemma getRecommendations_le_active (impl : SortChoice) (now : Z)
    (random : nat -> Q) (db : DB) (userId contentType : string) (limit : Z) :
  (length (getRecommendations impl now random db userId contentType limit)
   <= length (active_of db contentType))%nat.
Proof.
  unfold getRecommendations.
  destruct (getRecommendations_body impl _ _ _ _ _ _) as [l|e] eqn:E;
    cbn [try_catch length]; [|lia].
  apply getRecommendations_body_Ok in E
    as (p & q & _ & _ & _ & [(_ & _ & H)|(_ & _ & sc & Hall & ->)]).
  - apply getColdStartRecommendations_Ok in H as ->.
    rewrite length_map. etransitivity; [apply slice0_le_length|].
    unfold coldRanking. now rewrite stable_sort_length.
  - rewrite length_map. etransitivity; [apply slice0_le_length|].
    rewrite sort_length.
    apply Promise_all_from_Forall2, Forall2_length in Hall.
    rewrite Hall. reflexivity.
Qed.

(** X9: [getRecommendations] never returns more objects than there are
    active documents of the requested type, and for a [limit] that is not
    negative it returns at most [limit]. *)
Theorem X9_recommendations_length (impl : SortChoice) (now : Z)
    (random : nat -> Q) (db : DB) (userId contentType : string) (limit : Z) :
  let l := getRecommendations impl now random db userId contentType limit in
  (length l <= length (active_of db contentType))%nat /\
  ((0 <= limit)%Z -> (Z.of_nat (length l) <= limit)%Z).
Proof.
  intros l. subst l. split.
  - apply getRecommendations_le_active.
  - apply getRecommendations_length.
Qed.

Lemma X9_recommendations_length_witness :
  (Z.of_nat
     (length (getRecommendations keep_order 0 (fun _ => 0%Q) jobs_db "new"
                "job" 2))
   <= 2)%Z.
Proof.
  apply (X9_recommendations_length keep_order 0 (fun _ => 0%Q) jobs_db "new"
           "job" 2).
  discriminate.
Defined.

(** X10: [getRecommendations] only returns what the store holds as active
    content of the requested type: the document of every returned object
    is an [active] document of the collection of its [type], and that type
    is the requested one unless [all] was requested. *)
Theorem X10_recommendations_are_active_content (impl : SortChoice) (now : Z)
    (random : nat -> Q) (db : DB) (userId contentType : string) (limit : Z)
    (c : Candidate) :
  In c (getRecommendations impl now random db userId contentType limit) ->
  status (item c) = "active" /\
  (contentType = "all" \/ type c = contentType) /\
  exists name, In (type c, name) kinds /\ In (item c) (content_of db name).
Proof.
  intros Hin. apply getRecommendations_origin in Hin as (c0 & Hc0 & -> & ->).
  apply active_of_origin in Hc0 as (name & Hkind & Hsel & Hstore & Hact).
  split; [now apply String.eqb_eq|]. split; [|eauto].
  unfold selected in Hsel. apply orb_true_iff in Hsel as [H|H];
    apply String.eqb_eq in H; auto.
Qed.

Lemma X10_recommendations_are_active_content_witness :
  status (job_with "b" (Some 5) (Some 2) (Some 10)) = "active" /\
  In (job_with "b" (Some 5) (Some 2) (Some 10)) (content_of jobs_db "jobs").
Proof.
  destruct (X10_recommendations_are_active_content keep_order 0
              (fun _ => 0%Q) jobs_db
              "new" "job" 2
              (with_score Undefined
                 (typed "job" (job_with "b" (Some 5) (Some 2) (Some 10)))))
    as (Hact & _ & name & Hkind & Hstore).
  - left. reflexivity.
  - split; [exact Hact|].
    cbn in Hkind.
    destruct Hkind as [[= <-]|[[= <-]|[[= <-]|[[= <-]|[]]]]].
    exact Hstore.
Defined.

(** X11: a content type other than [all], [opportunity], [event], [job] and
    [resource] selects no collection: [getRecommendations] returns the
    empty list, and on a connected store [getColdStartRecommendations]
    returns it too, whatever collection is failing. *)
Theorem X11_unknown_content_type (impl : SortChoice) (now : Z)
    (random : nat -> Q) (db : DB) (userId contentType : string) (limit : Z) :
  ~ In contentType ["all"; "opportunity"; "event"; "job"; "resource"] ->
  getRecommendations impl now random db userId contentType limit = [] /\
  (connected db = true ->
   getColdStartRecommendations impl db contentType limit = Ok []).
Proof.
  intros Hunknown.
  assert (Hsel : forall t name, In (t, name) kinds ->
                                selected contentType t = false).
  { intros t name Hkind. unfold selected.
    apply orb_false_iff. split; apply String.eqb_neq; intros ->;
      apply Hunknown; cbn in *.
    - auto.
    - destruct Hkind as [[= <- _]|[[= <- _]|[[= <- _]|[[= <- _]|[]]]]]; auto 6. }
  assert (Hnone : active_of db contentType = []).
  { unfold active_of, kinds. cbn [flat_map fst snd].
    rewrite (Hsel "opportunity" "opportunities"), (Hsel "event" "events"),
      (Hsel "job" "jobs"), (Hsel "resource" "resources")
      by (cbn; auto 6). reflexivity. }
  split.
  - pose proof (getRecommendations_le_active impl now random db userId
                  contentType
                  limit) as Hlen.
    rewrite Hnone in Hlen.
    destruct (getRecommendations impl _ _ _ _ _ _);
      [reflexivity|cbn in Hlen; lia].
  - intros Hc. unfold getColdStartRecommendations, getActiveContent, getDB,
      push_active.
    rewrite Hc. cbn [bind]. fold (selected contentType "opportunity").
    fold (selected contentType "event"). fold (selected contentType "job").
    fold (selected contentType "resource").
    rewrite (Hsel "opportunity" "opportunities"), (Hsel "event" "events"),
      (Hsel "job" "jobs"), (Hsel "resource" "resources")
      by (cbn; auto 6).
    cbn [bind map stable_sort]. unfold slice0.
    destruct (limit <? 0)%Z; now rewrite firstn_nil.
Qed.

Lemma X11_unknown_content_type_witness :
  getRecommendations keep_order 0 (fun _ => 0%Q) member_db "p" "jobs" 20 = [].
Proof.
  refine (proj1 (X11_unknown_content_type keep_order 0 (fun _ => 0%Q)
                   member_db "p"
                   "jobs" 20 _)).
  cbn. intros [H|[H|[H|[H|[H|[]]]]]]; discriminate H.
Defined.




Section Stability.
Context {A : Type} (comparefn : A -> A -> num) (key : A -> Z).
Hypothesis comparefn_key :
  forall a b, num_positive (comparefn a b) = (key a <? key b)%Z.


End Stability.



Lemma by_score_desc_finite (a b : Candidate) :
  has_finite_score a -> has_finite_score b ->
  num_positive (by_score_desc a b) = negb (Qle_bool (score_q b) (score_q a)).
Proof.
  intros [x Hx] [y Hy]. unfold by_score_desc, score_num, score_q.
  rewrite Hx, Hy. cbn. unfold Qpos. f_equal. clear.
  destruct (Qle_bool y x) eqn:E.
  - apply Qle_bool_iff in E. apply Qle_bool_iff. lra.
  - apply Qle_bool_false in E. apply Qle_bool_false. lra.
Qed.

Lemma sort_insert_by_score (x : Candidate) (l : list Candidate) :
  has_finite_score x -> Forall has_finite_score l ->
  StronglySorted (fun a b => (score_q b <= score_q a)%Q) l ->
  StronglySorted (fun a b => (score_q b <= score_q a)%Q)
                 (sort_insert by_score_desc x l).
Proof.
  intros Hx Hl Hs. induction Hs as [|y l Hs IH Hy]; cbn.
  - constructor; constructor.
  - apply Forall_cons_iff in Hl as [Hfy Hfl].
    rewrite (by_score_desc_finite x y Hx Hfy).
    destruct (Qle_bool (score_q y) (score_q x)) eqn:E; cbn [negb].
    + apply Qle_bool_iff in E.
      constructor; [constructor; assumption|].
      constructor; [exact E|].
      eapply List.Forall_impl; [|exact Hy].
      intros z Hz. cbn in Hz. eapply Qle_trans; eassumption.
    + apply Qle_bool_false in E.
      constructor; [exact (IH Hfl)|].
      eapply Permutation_Forall;
        [apply Permutation_sym, sort_insert_perm|].
      constructor; [apply Qlt_le_weak; exact E|exact Hy].
Qed.

Lemma stable_sort_by_score (l : list Candidate) :
  Forall has_finite_score l ->
  StronglySorted (fun a b => (score_q b <= score_q a)%Q)
                 (stable_sort by_score_desc l).
Proof.
  induction 1 as [|x l Hx Hl IH]; cbn; [constructor|].
  apply sort_insert_by_score; [exact Hx| |exact IH].
  eapply Permutation_Forall; [apply Permutation_sym, stable_sort_perm|exact Hl].
Qed.

Lemma match_ratio_finite (m n : nat) :
  n <> 0%nat ->
  exists x, num_mul (num_div (of_nat m) (of_nat n)) (Fin 100) = Fin x.
Proof.
  intros Hn. unfold of_nat. cbn [num_div].
  assert (Hz : Qzero (inject_Z (Z.of_nat n)) = false).
  { apply Qzero_false. intros E.
    assert (H : inject_Z (Z.of_nat n) == inject_Z 0) by exact E.
    pose proof (proj1 (inject_Z_injective _ _) H). lia. }
  rewrite Hz. cbn. eauto.
Qed.

Lemma calculateInterestMatch_finite (it : ContentItem)
    (p : option Profile.t) (q : option Preferences.t) (v : num) :
  calculateInterestMatch it p q = Ok v -> exists x, v = Fin x.
Proof.
  unfold calculateInterestMatch.
  destruct (length_is_zero _ || _) eqn:E; [intros [= <-]; eauto|].
  apply orb_false_iff in E as [Hu _].
  destruct (userInterestsOf p q) as [us|m]; [|discriminate].
  intros [= <-]. cbn in Hu. apply Nat.eqb_neq in Hu.
  destruct (match_ratio_finite (length (matched (orEmpty (tags it)) us))
              (length us) Hu) as (x & Hx).
  exists x. exact Hx.
Qed.

Lemma calculateSkillMatch_finite (it : ContentItem)
    (p : option Profile.t) (q : option Preferences.t) (v : num) :
  calculateSkillMatch it p q = Ok v -> exists x, v = Fin x.
Proof.
  unfold calculateSkillMatch.
  destruct (length_is_zero _ || _) eqn:E; [intros [= <-]; eauto|].
  apply orb_false_iff in E as [_ Hr]. apply Nat.eqb_neq in Hr.
  destruct (userSkillsOf p q) as [us|m]; [|discriminate].
  intros [= <-].
  destruct (match_ratio_finite
              (length (matched (orEmpty (requirements it)) us))
              (length (orEmpty (requirements it))) Hr) as (x & Hx).
  exists x. exact Hx.
Qed.

Lemma calculateLocationMatch_finite (it : ContentItem)
    (p : option Profile.t) (q : option Preferences.t) :
  exists x, calculateLocationMatch it p q = Fin x.
Proof.
  unfold calculateLocationMatch.
  repeat match goal with |- context [if ?b then _ else _] => destruct b end;
    eauto.
Qed.

Lemma calculateRecency_finite (now : Z) (it : ContentItem) :
  exists x, calculateRecency now it = Fin x.
Proof.
  unfold calculateRecency.
  repeat match goal with |- context [if ?b then _ else _] => destruct b end;
    eauto.
Qed.

(** The combined score of an item created in the past is finite. *)
Lemma calculateScore_finite (now : Z) (random : Q) (c c' : Candidate)
    (p : option Profile.t) (q : option Preferences.t) :
  created_at (item c) <= now ->
  calculateScore now random c p q = Ok c' -> has_finite_score c'.
Proof.
  intros Hpast. unfold calculateScore, personalScores. intros H.
  apply bind_Ok in H as (((i & s) & l) & Hp & H). injection H as <-.
  assert (Hfin : exists xi xs xl, i = Fin xi /\ s = Fin xs /\ l = Fin xl).
  { destruct (anyUser p q).
    - apply bind_Ok in Hp as (i0 & Hi & Hp).
      apply bind_Ok in Hp as (s0 & Hs & Hp). injection Hp as <- <- <-.
      apply calculateInterestMatch_finite in Hi as (xi & ->).
      apply calculateSkillMatch_finite in Hs as (xs & ->).
      destruct (calculateLocationMatch_finite (item c) p q) as (xl & ->).
      eauto 7.
    - injection Hp as <- <- <-. eauto 7. }
  destruct Hfin as (xi & xs & xl & -> & -> & ->).
  destruct (decayed_popularity_past now (item c) Hpast) as [_ Hpop].
  destruct (calculateRecency_finite now (item c)) as (xr & Hr).
  unfold has_finite_score. cbn [score fst snd]. unfold weighted.
  cbn [interestMatch skillMatch locationMatch popularity recency explore].
  rewrite Hpop, Hr. unfold calculateExploreFactor. cbn. eauto.
Qed.

(** The combined score of an item created in the past is the weighted sum
    of the breakdown attached to it. *)
Lemma calculateScore_carried (now : Z) (random : Q) (c c' : Candidate)
    (p : option Profile.t) (q : option Preferences.t) :
  created_at (item c) <= now ->
  calculateScore now random c p q = Ok c' ->
  score c' = Value (Fin (carried_score c')).
Proof.
  intros Hpast. unfold calculateScore, personalScores. intros H.
  apply bind_Ok in H as (((i & s) & l) & Hp & H). injection H as <-.
  assert (Hfin : exists xi xs xl, i = Fin xi /\ s = Fin xs /\ l = Fin xl).
  { destruct (anyUser p q).
    - apply bind_Ok in Hp as (i0 & Hi & Hp).
      apply bind_Ok in Hp as (s0 & Hs & Hp). injection Hp as <- <- <-.
      apply calculateInterestMatch_finite in Hi as (xi & ->).
      apply calculateSkillMatch_finite in Hs as (xs & ->).
      destruct (calculateLocationMatch_finite (item c) p q) as (xl & ->).
      eauto 7.
    - injection Hp as <- <- <-. eauto 7. }
  destruct Hfin as (xi & xs & xl & -> & -> & ->).
  destruct (decayed_popularity_past now (item c) Hpast) as [_ Hpop].
  destruct (calculateRecency_finite now (item c)) as (xr & Hr).
  unfold carried_score, combined, weighted.
  cbn [score scoreBreakdown fst snd
       interestMatch skillMatch locationMatch popularity recency explore].
  rewrite Hpop, Hr. unfold calculateExploreFactor. reflexivity.
Qed.

Lemma StronglySorted_impl_in {A} (R R' : A -> A -> Prop) (l : list A) :
  (forall a b, In a l -> In b l -> R a b -> R' a b) ->
  StronglySorted R l -> StronglySorted R' l.
Proof.
  intros HR Hs. induction Hs as [|x l Hs IH Hx]; constructor.
  - apply IH. intros a b Ha Hb. apply HR; now right.
  - rewrite List.Forall_forall in *. intros y Hy.
    apply HR; [now left|now right|]. now apply Hx.
Qed.

Lemma StronglySorted_firstn {A} (R : A -> A -> Prop) (n : nat) (l : list A) :
  StronglySorted R l -> StronglySorted R (firstn n l).
Proof.
  intros Hs. revert n.
  induction Hs as [|x l Hs IH Hx]; intros [|n]; cbn; try constructor.
  - apply IH.
  - rewrite List.Forall_forall in *. intros y Hy. apply Hx.
    rewrite <- (firstn_skipn n l). apply in_or_app. now left.
Qed.

Lemma StronglySorted_slice0 {A} (R : A -> A -> Prop) (l : list A) (stop : Z) :
  StronglySorted R l -> StronglySorted R (slice0 l stop).
Proof.
  intros Hs. unfold slice0. destruct (_ <? _)%Z; now apply StronglySorted_firstn.
Qed.

Lemma StronglySorted_map {A B} (R : B -> B -> Prop) (f : A -> B)
    (l : list A) :
  StronglySorted (fun a b => R (f a) (f b)) l -> StronglySorted R (map f l).
Proof.
  induction 1 as [|x l Hs IH Hx]; cbn; constructor; [exact IH|].
  now apply Forall_map.
Qed.

(** X14: on the personalised path [getRecommendations] ranks by the score
    of the Scorer.  When every active document was created in the past,
    the list returned is the cut, to [limit], of a list that holds exactly
    the candidates that [calculateScore] returned for the active documents,
    no one before another of higher score; and the objects returned stand
    in descending order of the weighted sum of the breakdown each still
    carries. *)
Theorem X14_ranking_is_sorted_by_score (impl : SortChoice) (now : Z)
    (random : nat -> Q) (db : DB) (userId contentType : string) (limit : Z)
    (p : option Profile.t) (q : option Preferences.t) (l : list Candidate) :
  (forall c, In c (active_content db contentType) ->
             created_at (item c) <= now) ->
  findOne_profile db userId = Ok p ->
  findOne_preferences db userId = Ok q ->
  is_Some p \/ is_Some q ->
  getRecommendations_body impl now random db userId contentType limit = Ok l ->
  exists scoredContent scored,
    Promise_all (fun i c => calculateScore now (random i) c p q)
                (active_content db contentType) = Ok scoredContent /\
    Permutation scored scoredContent /\
    Forall has_finite_score scored /\
    StronglySorted (fun a b => (score_q b <= score_q a)%Q) scored /\
    l = map (with_score Undefined) (slice0 scored limit) /\
    StronglySorted (fun a b => (carried_score b <= carried_score a)%Q) l.
Proof.
  rewrite active_content_active_of. intros Hpast Hp Hq Huser H.
  apply getRecommendations_body_Ok in H
    as (p' & q' & _ & Hp' & Hq' & H).
  rewrite Hp in Hp'. rewrite Hq in Hq'.
  injection Hp' as Ep. injection Hq' as Eq. subst p' q'.
  destruct H as [(Ep & Eq & _)|(_ & _ & sc & Hall & ->)].
  { subst p q. destruct Huser as [[x [=]]|[x [=]]]. }
  pose proof Hall as Hscored.
  apply Promise_all_from_Forall2 in Hall.
  assert (Hsc : Forall (fun c => score c = Value (Fin (carried_score c))) sc).
  { clear Hscored. revert Hpast Hall. generalize (active_of db contentType).
    intros content Hpast Hall.
    induction Hall as [|c c' content sc (j & Hj) _ IH]; constructor.
    - eapply calculateScore_carried; [|exact Hj]. apply Hpast. now left.
    - apply IH. intros d Hd. apply Hpast. now right. }
  assert (Hfin : Forall has_finite_score sc).
  { eapply List.Forall_impl; [|exact Hsc]. intros c Hc. eexists. exact Hc. }
  rewrite sort_consistent by now apply consistent_by_score.
  assert (Hsorted : StronglySorted (fun a b => (score_q b <= score_q a)%Q)
                      (stable_sort by_score_desc sc))
    by now apply stable_sort_by_score.
  exists sc, (stable_sort by_score_desc sc).
  split; [exact Hscored|]. split; [apply stable_sort_perm|].
  split.
  { eapply Permutation_Forall;
      [apply Permutation_sym, stable_sort_perm|exact Hfin]. }
  split; [exact Hsorted|]. split; [reflexivity|].
  apply StronglySorted_map, StronglySorted_slice0.
  revert Hsorted. apply StronglySorted_impl_in.
  intros a b Ha Hb. rewrite List.Forall_forall in Hsc.
  apply stable_sort_In in Ha, Hb.
  unfold score_q. rewrite (Hsc a Ha), (Hsc b Hb). auto.
Qed.

Lemma X14_ranking_is_sorted_by_score_witness :
  exists scoredContent scored,
    Promise_all
      (fun i c => calculateScore 0 0 c (Some tech_profile) None)
      (active_content ranked_db "job") = Ok scoredContent /\
    Permutation scored scoredContent /\
    Forall has_finite_score scored /\
    StronglySorted (fun a b => (score_q b <= score_q a)%Q) scored /\
    map (fun c => _id (item c))
        (getRecommendations keep_order 0 (fun _ => 0%Q) ranked_db "p" "job" 2)
    = map (fun c => _id (item c)) (slice0 scored 2) /\
    map (fun c => _id (item c))
        (getRecommendations keep_order 0 (fun _ => 0%Q) ranked_db "p" "job" 2)
    = ["job-1"; "seen"].
Proof.
  assert (H : exists l,
            getRecommendations_body keep_order 0 (fun _ => 0%Q) ranked_db "p"
              "job" 2 = Ok l).
  { eexists. vm_compute. reflexivity. }
  destruct H as (l & Hl).
  destruct (X14_ranking_is_sorted_by_score keep_order 0 (fun _ => 0%Q)
              ranked_db "p" "job" 2 (Some tech_profile) None l)
    as (sc & scored & Hsc & Hperm & Hfin & Hsorted & -> & _).
  - intros c [<-|[<-|[<-|[]]]]; discriminate.
  - reflexivity.
  - reflexivity.
  - left. eauto.
  - exact Hl.
  - exists sc, scored.
    split; [exact Hsc|]. split; [exact Hperm|]. split; [exact Hfin|].
    split; [exact Hsorted|].
    unfold getRecommendations. rewrite Hl. cbn [try_catch].
    split; [now rewrite map_map|].
    revert Hl. vm_compute. now intros [= <-].
Defined.

(** ** The Preference Learner and the store *)

Lemma with_preferences_same (db : DB) :
  with_preferences db (user_preferences db) = db.
Proof. destruct db. reflexivity. Qed.

Lemma collection_live (db : DB) :
  connected db = true ->
  (collection db "user_preferences" = Ok tt <-> preferences_live db = true).
Proof.
  intros Hc. unfold collection, preferences_live. rewrite Hc. cbn [andb].
  destruct (existsb _ _); cbn; split; congruence.
Qed.

(** The learner rewrites at most the preferences document of its user. *)
Lemma updatePreferences_shape (now : Z) (db : DB)
    (userId engagementType : string) (itemData : ContentItem) :
  exists m,
    updatePreferencesFromEngagement now db userId engagementType itemData =
      with_preferences db m /\
    (forall u, u <> userId -> m !! u = user_preferences db !! u) /\
    (forall u, is_Some (m !! u) <-> is_Some (user_preferences db !! u)).
Proof.
  assert (Hsame : exists m,
            db = with_preferences db m /\
            (forall u, u <> userId -> m !! u = user_preferences db !! u) /\
            (forall u, is_Some (m !! u) <-> is_Some (user_preferences db !! u))).
  { exists (user_preferences db).
    split; [symmetry; apply with_preferences_same|]. split; [auto|tauto]. }
  assert (Halter : forall f, exists m,
            with_preferences db (alter f userId (user_preferences db)) =
              with_preferences db m /\
            (forall u, u <> userId -> m !! u = user_preferences db !! u) /\
            (forall u, is_Some (m !! u) <-> is_Some (user_preferences db !! u))).
  { intros f. eexists. split; [reflexivity|]. split.
    - intros u Hu. now apply lookup_alter_ne.
    - intros u. rewrite lookup_alter_is_Some. tauto. }
  unfold updatePreferencesFromEngagement, updatePreferences_body, getDB,
    findOne_preferences, updateOne_preferences.
  destruct (connected db); cbn [bind try_catch]; [|exact Hsame].
  destruct (collection db "user_preferences") as [[]|e] eqn:Hcoll;
    cbn [bind try_catch]; [|exact Hsame].
  destruct (user_preferences db !! userId) as [p|]; [|exact Hsame].
  destruct (String.eqb engagementType "save" ||
            String.eqb engagementType "like");
    destruct (String.eqb engagementType "click_through");
    cbn [bind try_catch]; rewrite ?Hcoll;
    cbn [bind try_catch connected failing user_profiles user_preferences
         opportunities events jobs resources];
    try exact Hsame; try apply Halter.
  (* both branches taken: the second write starts from the first *)
  fold (with_preferences db
          (alter (set_interests_skills
                    (bump_all One (orEmpty (tags itemData))
                       (orEmptyObj (Preferences.interests p)))
                    (bump_all One (orEmpty (requirements itemData))
                       (orEmptyObj (Preferences.skills p))) now)
                 userId (user_preferences db))).
  unfold collection. cbn [failing with_preferences].
  destruct (existsb _ _); cbn [bind try_catch]; [exact Hsame|].
  eexists. split; [reflexivity|]. split.
  - intros u Hu. cbn [user_preferences with_preferences].
    now rewrite !lookup_alter_ne.
  - intros u. cbn [user_preferences with_preferences].
    rewrite !lookup_alter_is_Some. tauto.
Qed.

Lemma bump_all_is_Some (delta : Amount) (l : list string)
    (m : gmap string WeightValue) (k : string) :
  is_Some (m !! k) -> is_Some (bump_all delta l m !! k).
Proof.
  unfold bump_all. revert m. induction l as [|x l IH]; intros m Hk; cbn;
    [exact Hk|].
  apply IH. unfold bump, assign.
  destruct (_ && _); [exact Hk|].
  rewrite lookup_insert_is_Some. destruct (decide (x = k)); auto.
Qed.

Lemma times_zero (n : nat) : (times n 0 == 0)%Q.
Proof. unfold times. ring. Qed.

Lemma learn_document (now : Z) (db : DB) (userId engagementType : string)
    (itemData : ContentItem) (p : Preferences.t) :
  user_preferences db !! userId = Some p ->
  user_preferences
    (updatePreferencesFromEngagement now db userId engagementType itemData)
    !! userId =
  Some (learned now (preferences_live db) engagementType itemData p).
Proof.
  intros Hp. unfold learned, preferences_live.
  destruct (connected db) eqn:Hc; cbn [andb].
  2:{ unfold updatePreferencesFromEngagement, updatePreferences_body, getDB.
      rewrite Hc. exact Hp. }
  destruct (existsb (String.eqb "user_preferences") (failing db)) eqn:Hf;
    cbn [negb].
  { unfold updatePreferencesFromEngagement, updatePreferences_body, getDB,
      findOne_preferences, collection.
    rewrite Hc. cbn [bind]. rewrite Hf. exact Hp. }
  assert (Hcoll : collection db "user_preferences" = Ok tt).
  { unfold collection. now rewrite Hf. }
  destruct (String.eqb_spec engagementType "save") as [->|Hsave].
  { cbn [orb].
    exact (proj2 (proj2 (learn_save_like now db userId "save" p itemData
                           Hc Hcoll Hp (or_introl eq_refl)))). }
  destruct (String.eqb_spec engagementType "like") as [->|Hlike].
  { cbn [orb].
    exact (proj2 (proj2 (learn_save_like now db userId "like" p itemData
                           Hc Hcoll Hp (or_intror eq_refl)))). }
  cbn [orb].
  destruct (String.eqb_spec engagementType "click_through") as [->|Hclick].
  { exact (learn_click_through now db userId p itemData Hc Hcoll Hp). }
  unfold updatePreferencesFromEngagement, updatePreferences_body, getDB,
    findOne_preferences.
  rewrite Hc. cbn [bind]. rewrite Hcoll. cbn [bind]. rewrite Hp.
  rewrite (proj2 (String.eqb_neq _ _) Hsave), (proj2 (String.eqb_neq _ _) Hlike),
    (proj2 (String.eqb_neq _ _) Hclick).
  cbn [orb bind try_catch]. exact Hp.
Qed.

Lemma amount_of_delta (engagementType : string) :
  (String.eqb engagementType "save" || String.eqb engagementType "like"
   = true ->
   interest_delta engagementType = amount_value One /\
   skill_delta engagementType = amount_value One) /\
  (String.eqb engagementType "save" || String.eqb engagementType "like"
   = false ->
   String.eqb engagementType "click_through" = true ->
   interest_delta engagementType = amount_value Half).
Proof.
  unfold interest_delta, skill_delta.
  split; [intros ->; split; reflexivity|].
  intros -> ->. reflexivity.
Qed.

Lemma learned_weights (now : Z) (live : bool) (engagementType : string)
    (itemData : ContentItem) (p : Preferences.t) :
  let p' := learned now live engagementType itemData p in
  (forall k w,
     weight (Preferences.interests p) k = Some w ->
     exists w',
       weight (Preferences.interests p') k = Some w' /\
       (w' == w + (if live
                   then times (occurrences k (orEmpty (tags itemData)))
                              (interest_delta engagementType)
                   else 0))%Q) /\
  (forall k w,
     weight (Preferences.skills p) k = Some w ->
     exists w',
       weight (Preferences.skills p') k = Some w' /\
       (w' == w + (if live
                   then times (occurrences k (orEmpty (requirements itemData)))
                              (skill_delta engagementType)
                   else 0))%Q).
Proof.
  assert (Hsame : forall o k w (z : Q),
            (z == 0)%Q -> weight o k = Some w ->
            exists w', weight o k = Some w' /\ (w' == w + z)%Q).
  { intros o k w z Hz Hw. exists w. split; [exact Hw|]. rewrite Hz. ring. }
  unfold learned.
  destruct live; [|split; intros k w; apply Hsame; reflexivity].
  destruct (amount_of_delta engagementType) as [Hboth Hclick].
  destruct (String.eqb engagementType "save" ||
            String.eqb engagementType "like") eqn:Hty.
  - destruct (Hboth eq_refl) as [-> ->].
    split; intros k w Hw; unfold weight in *;
      cbn [Preferences.interests Preferences.skills set_interests_skills
           orEmptyObj default];
      now apply bump_all_number.
  - destruct (String.eqb engagementType "click_through") eqn:Hct.
    + rewrite (Hclick eq_refl eq_refl).
      split; intros k w Hw.
      * unfold weight in *.
        cbn [Preferences.interests set_interests orEmptyObj default].
        now apply bump_all_number.
      * cbn [Preferences.skills set_interests]. apply Hsame; [|exact Hw].
        unfold skill_delta. rewrite Hty. apply times_zero.
    + split; intros k w; apply Hsame.
      * unfold interest_delta. rewrite Hty, Hct. apply times_zero.
      * unfold skill_delta. rewrite Hty. apply times_zero.
Qed.

Lemma learned_keeps (now : Z) (live : bool) (engagementType : string)
    (itemData : ContentItem) (p : Preferences.t) :
  let p' := learned now live engagementType itemData p in
  Preferences.location_data p' = Preferences.location_data p /\
  (forall k, is_Some (orEmptyObj (Preferences.interests p) !! k) ->
             is_Some (orEmptyObj (Preferences.interests p') !! k)) /\
  (forall k, is_Some (orEmptyObj (Preferences.skills p) !! k) ->
             is_Some (orEmptyObj (Preferences.skills p') !! k)).
Proof.
  unfold learned.
  destruct live; [|auto].
  destruct (String.eqb engagementType "save" ||
            String.eqb engagementType "like");
    [|destruct (String.eqb engagementType "click_through")];
    cbn [Preferences.interests Preferences.skills Preferences.location_data
         set_interests_skills set_interests orEmptyObj default];
    repeat split; auto; intros k; apply bump_all_is_Some.
Qed.

Lemma learner_keeps_liveness (now : Z) (db : DB)
    (userId engagementType : string) (itemData : ContentItem) :
  preferences_live
    (updatePreferencesFromEngagement now db userId engagementType itemData) =
  preferences_live db.
Proof.
  destruct (updatePreferences_shape now db userId engagementType itemData)
    as (m & -> & _).
  reflexivity.
Qed.

(** X15: [updatePreferencesFromEngagement] writes to one document only.
    The profiles, the four content collections and the state of the
    connection are as before, the preferences of every other user are as
    before, and no preferences document is created or removed. *)
Theorem X15_learner_touches_one_document (now : Z) (db : DB)
    (userId engagementType : string) (itemData : ContentItem) :
  let after :=
    updatePreferencesFromEngagement now db userId engagementType itemData in
  connected after = connected db /\
  failing after = failing db /\
  user_profiles after = user_profiles db /\
  opportunities after = opportunities db /\
  events after = events db /\
  jobs after = jobs db /\
  resources after = resources db /\
  (forall u, u <> userId ->
             user_preferences after !! u = user_preferences db !! u) /\
  (forall u, is_Some (user_preferences after !! u) <->
             is_Some (user_preferences db !! u)).
Proof.
  intros after. subst after.
  destruct (updatePreferences_shape now db userId engagementType itemData)
    as (m & -> & Hother & Hdom).
  cbn [with_preferences connected failing user_profiles user_preferences
       opportunities events jobs resources].
  repeat split; auto; apply Hdom.
Qed.

Lemma X15_learner_touches_one_document_witness :
  user_preferences
    (updatePreferencesFromEngagement 0 two_users_db "u" "like" tech_item)
    !! "v" = Some tech_preferences.
Proof.
  destruct (X15_learner_touches_one_document 0 two_users_db "u" "like"
              tech_item) as (_ & _ & _ & _ & _ & _ & _ & Hother & _).
  rewrite (Hother "v"); [reflexivity|discriminate].
Defined.

(** X16: an engagement type other than [save], [like] and [click_through]
    teaches nothing: the store is returned as it was. *)
Theorem X16_other_engagement_types_change_nothing (now : Z) (db : DB)
    (userId engagementType : string) (itemData : ContentItem) :
  ~ In engagementType ["save"; "like"; "click_through"] ->
  updatePreferencesFromEngagement now db userId engagementType itemData = db.
Proof.
  intros Hty.
  assert (Hs : String.eqb engagementType "save" = false)
    by (apply String.eqb_neq; intros ->; apply Hty; cbn; auto).
  assert (Hl : String.eqb engagementType "like" = false)
    by (apply String.eqb_neq; intros ->; apply Hty; cbn; auto).
  assert (Hk : String.eqb engagementType "click_through" = false)
    by (apply String.eqb_neq; intros ->; apply Hty; cbn; auto).
  unfold updatePreferencesFromEngagement, updatePreferences_body, getDB,
    findOne_preferences.
  destruct (connected db); [|reflexivity]. cbn [bind].
  destruct (collection db "user_preferences") as [[]|e]; [|reflexivity].
  cbn [bind]. destruct (user_preferences db !! userId); [|reflexivity].
  rewrite Hs, Hl, Hk. reflexivity.
Qed.

Lemma X16_other_engagement_types_change_nothing_witness :
  updatePreferencesFromEngagement 0 learner_db "u" "view" tech_item
  = learner_db.
Proof.
  apply (X16_other_engagement_types_change_nothing 0 learner_db "u" "view"
           tech_item).
  cbn. intros [H|[H|[H|[]]]]; discriminate H.
Defined.

Lemma times_nonneg (n : nat) (d : Q) : (0 <= d)%Q -> (0 <= times n d)%Q.
Proof.
  intros Hd. unfold times. apply Qmult_le_0_compat; [|exact Hd].
  change 0%Q with (inject_Z 0). rewrite <- Zle_Qle. lia.
Qed.

Lemma deltas_nonneg (engagementType : string) :
  (0 <= interest_delta engagementType)%Q /\
  (0 <= skill_delta engagementType)%Q.
Proof.
  unfold interest_delta, skill_delta.
  destruct (_ || _); [split; discriminate|].
  destruct (String.eqb _ _); split; discriminate.
Qed.

(** X17: learning never forgets.  Whatever the event and the state of the
    store, the preferences document of the user is still there afterwards,
    with the same [location_data] and every key of [interests] and
    [skills] it had; and a key that held a weight (a stored number, or 0
    for an unseen key that is no member of [Object.prototype]) holds one
    afterwards that is not lower. *)
Theorem X17_weights_never_decrease (now : Z) (db : DB)
    (userId engagementType : string) (itemData : ContentItem)
    (p : Preferences.t) :
  user_preferences db !! userId = Some p ->
  exists p',
    user_preferences
      (updatePreferencesFromEngagement now db userId engagementType itemData)
      !! userId = Some p' /\
    Preferences.location_data p' = Preferences.location_data p /\
    (forall k,
       (is_Some (orEmptyObj (Preferences.interests p) !! k) ->
        is_Some (orEmptyObj (Preferences.interests p') !! k)) /\
       (is_Some (orEmptyObj (Preferences.skills p) !! k) ->
        is_Some (orEmptyObj (Preferences.skills p') !! k))) /\
    (forall k w,
       (weight (Preferences.interests p) k = Some w ->
        exists w', weight (Preferences.interests p') k = Some w' /\
                   (w <= w')%Q) /\
       (weight (Preferences.skills p) k = Some w ->
        exists w', weight (Preferences.skills p') k = Some w' /\
                   (w <= w')%Q)).
Proof.
  intros Hp. eexists. split; [apply learn_document; exact Hp|].
  destruct (learned_keeps now (preferences_live db) engagementType itemData p)
    as (Hloc & Hki & Hks).
  destruct (learned_weights now (preferences_live db) engagementType itemData p)
    as (Hwi & Hws).
  destruct (deltas_nonneg engagementType) as [Hdi Hds].
  split; [exact Hloc|]. split; [split; auto|].
  intros k w.
  pose proof (times_nonneg (occurrences k (orEmpty (tags itemData))) _ Hdi)
    as Hi.
  pose proof (times_nonneg (occurrences k (orEmpty (requirements itemData)))
                _ Hds) as Hs.
  split; intros Hw.
  - destruct (Hwi k w Hw) as (w' & Hw' & E). exists w'.
    split; [exact Hw'|]. rewrite E. revert Hi.
    generalize (times (occurrences k (orEmpty (tags itemData)))
                      (interest_delta engagementType)).
    destruct (preferences_live db); clear; intros a Ha; lra.
  - destruct (Hws k w Hw) as (w' & Hw' & E). exists w'.
    split; [exact Hw'|]. rewrite E. revert Hs.
    generalize (times (occurrences k (orEmpty (requirements itemData)))
                      (skill_delta engagementType)).
    destruct (preferences_live db); clear; intros a Ha; lra.
Qed.

Lemma X17_weights_never_decrease_witness :
  exists p' w',
    user_preferences
      (updatePreferencesFromEngagement 0 two_users_db "v" "click_through"
         tech_item) !! "v" = Some p' /\
    weight (Preferences.interests p') "tech" = Some w' /\ (1 <= w')%Q.
Proof.
  destruct (X17_weights_never_decrease 0 two_users_db "v" "click_through"
              tech_item tech_preferences eq_refl)
    as (p' & Hp' & _ & _ & Hw).
  destruct (proj1 (Hw "tech" 1%Q) eq_refl) as (w' & Hw' & Hle).
  exists p', w'. split; [exact Hp'|]. split; [exact Hw'|exact Hle].
Defined.

(** X18: events commute on weights.  Two engagement events of one user,
    applied in either order, leave the same weight under every key that
    held a weight before (a stored number, or 0 for an unseen key that is
    no member of [Object.prototype]).  Under [constructor] they do not: a
    [like] followed by a [click_through] stores the text of [Object]
    followed by [10.5], the other order stores it followed by [0.51]. *)
Theorem X18_events_commute (now1 now2 : Z) (db : DB)
    (userId ty1 ty2 : string) (item1 item2 : ContentItem)
    (p : Preferences.t) :
  user_preferences db !! userId = Some p ->
  let first d := updatePreferencesFromEngagement now1 d userId ty1 item1 in
  let second d := updatePreferencesFromEngagement now2 d userId ty2 item2 in
  (exists pa pb,
     user_preferences (second (first db)) !! userId = Some pa /\
     user_preferences (first (second db)) !! userId = Some pb /\
     forall k w,
       (weight (Preferences.interests p) k = Some w ->
        exists wa wb,
          weight (Preferences.interests pa) k = Some wa /\
          weight (Preferences.interests pb) k = Some wb /\ (wa == wb)%Q) /\
       (weight (Preferences.skills p) k = Some w ->
        exists wa wb,
          weight (Preferences.skills pa) k = Some wa /\
          weight (Preferences.skills pb) k = Some wb /\ (wa == wb)%Q)) /\
  (let like d :=
     updatePreferencesFromEngagement 0 d "u" "like" constructor_item in
   let click d :=
     updatePreferencesFromEngagement 0 d "u" "click_through"
       constructor_item in
   exists pa pb,
     user_preferences (click (like learner_db)) !! "u" = Some pa /\
     user_preferences (like (click learner_db)) !! "u" = Some pb /\
     orEmptyObj (Preferences.interests pa) !! "constructor" =
       Some (WStr "function Object() { [native code] }10.5") /\
     orEmptyObj (Preferences.interests pb) !! "constructor" =
       Some (WStr "function Object() { [native code] }0.51")).
Proof.
  intros Hp first second.
  split.
  2:{ eexists. eexists. split; [vm_compute; reflexivity|].
      split; [vm_compute; reflexivity|]. split; vm_compute; reflexivity. }
  pose proof (learn_document now1 db userId ty1 item1 p Hp) as H1.
  pose proof (learn_document now2 db userId ty2 item2 p Hp) as H2.
  pose proof (learn_document now2 (first db) userId ty2 item2 _ H1) as H12.
  pose proof (learn_document now1 (second db) userId ty1 item1 _ H2) as H21.
  unfold first in H12 at 2. unfold second in H21 at 2.
  rewrite learner_keeps_liveness in H12, H21.
  eexists. eexists. split; [exact H12|]. split; [exact H21|].
  set (live := preferences_live db).
  intros k w.
  destruct (learned_weights now1 live ty1 item1 p) as (Bi & Bs).
  destruct (learned_weights now2 live ty2 item2 p) as (Di & Ds).
  destruct (learned_weights now2 live ty2 item2 (learned now1 live ty1 item1 p))
    as (Ai & As).
  destruct (learned_weights now1 live ty1 item1 (learned now2 live ty2 item2 p))
    as (Ci & Cs).
  split; intros Hw.
  - destruct (Bi k w Hw) as (w1 & Hw1 & E1).
    destruct (Di k w Hw) as (w2 & Hw2 & E2).
    destruct (Ai k w1 Hw1) as (wa & Hwa & Ea).
    destruct (Ci k w2 Hw2) as (wb & Hwb & Eb).
    exists wa, wb. split; [exact Hwa|]. split; [exact Hwb|].
    rewrite Ea, Eb, E1, E2. ring.
  - destruct (Bs k w Hw) as (w1 & Hw1 & E1).
    destruct (Ds k w Hw) as (w2 & Hw2 & E2).
    destruct (As k w1 Hw1) as (wa & Hwa & Ea).
    destruct (Cs k w2 Hw2) as (wb & Hwb & Eb).
    exists wa, wb. split; [exact Hwa|]. split; [exact Hwb|].
    rewrite Ea, Eb, E1, E2. ring.
Qed.

Lemma X18_events_commute_witness :
  exists pa pb wa wb,
    user_preferences
      (updatePreferencesFromEngagement 2
         (updatePreferencesFromEngagement 1 two_users_db "v" "like" tech_item)
         "v" "click_through" art_item) !! "v" = Some pa /\
    user_preferences
      (updatePreferencesFromEngagement 1
         (updatePreferencesFromEngagement 2 two_users_db "v" "click_through"
            art_item)
         "v" "like" tech_item) !! "v" = Some pb /\
    weight (Preferences.interests pa) "tech" = Some wa /\
    weight (Preferences.interests pb) "tech" = Some wb /\ (wa == wb)%Q.
Proof.
  destruct (X18_events_commute 1 2 two_users_db "v" "like" "click_through"
              tech_item art_item tech_preferences eq_refl)
    as ((pa & pb & Ha & Hb & Hk) & _).
  destruct (proj1 (Hk "tech" 1%Q) eq_refl) as (wa & wb & Hwa & Hwb & E).
  exists pa, pb, wa, wb. auto.
Defined.

(** X28: on keys that hold a weight the learner is additive.  For a user
    whose preferences can be read and written, a [save] or a [like] adds 1
    per occurrence among the tags to the interest weight of a key, and 1
    per occurrence among the requirements to its skill weight; a
    [click_through] adds 0.5 per occurrence among the tags and leaves the
    [skills] object as it is.  A key holds a weight when a number is
    stored under it, or when it is unseen and no member of
    [Object.prototype]; a tag of that kind not seen before that occurs once
    has weight 1 after one [like] and 2 after two. *)
Theorem X28_learning_is_additive_on_weights (now : Z) (db : DB)
    (userId : string) (p : Preferences.t) (itemData : ContentItem) :
  connected db = true ->
  collection db "user_preferences" = Ok tt ->
  user_preferences db !! userId = Some p ->
  let learn d ty := updatePreferencesFromEngagement now d userId ty itemData in
  let itemTags := orEmpty (tags itemData) in
  let itemReqs := orEmpty (requirements itemData) in
  (forall ty, ty = "save" \/ ty = "like" ->
     exists p',
       user_preferences (learn db ty) !! userId = Some p' /\
       (forall k w,
          weight (Preferences.interests p) k = Some w ->
          exists w',
            weight (Preferences.interests p') k = Some w' /\
            (w' == w + inject_Z (Z.of_nat (occurrences k itemTags)))%Q) /\
       (forall k w,
          weight (Preferences.skills p) k = Some w ->
          exists w',
            weight (Preferences.skills p') k = Some w' /\
            (w' == w + inject_Z (Z.of_nat (occurrences k itemReqs)))%Q)) /\
  (exists p',
     user_preferences (learn db "click_through") !! userId = Some p' /\
     (forall k w,
        weight (Preferences.interests p) k = Some w ->
        exists w',
          weight (Preferences.interests p') k = Some w' /\
          (w' == w + inject_Z (Z.of_nat (occurrences k itemTags)) * (1 # 2))%Q)
     /\
     Preferences.skills p' = Preferences.skills p) /\
  (forall tag,
     occurrences tag itemTags = 1%nat ->
     weight (Preferences.interests p) tag = Some 0%Q ->
     exists p1 p2 w1 w2,
       user_preferences (learn db "like") !! userId = Some p1 /\
       weight (Preferences.interests p1) tag = Some w1 /\ (w1 == 1)%Q /\
       user_preferences (learn (learn db "like") "like") !! userId = Some p2 /\
       weight (Preferences.interests p2) tag = Some w2 /\ (w2 == 2)%Q).
Proof.
  intros Hc Hcoll Hp learn itemTags itemReqs. subst itemTags itemReqs.
  assert (Hlive : forall d, connected d = true ->
            collection d "user_preferences" = Ok tt ->
            preferences_live d = true).
  { intros d Hd Hdc. now apply collection_live. }
  assert (Hlike : forall d q ty,
            connected d = true -> collection d "user_preferences" = Ok tt ->
            user_preferences d !! userId = Some q -> ty = "save" \/ ty = "like" ->
            exists q',
              connected (learn d ty) = true /\
              collection (learn d ty) "user_preferences" = Ok tt /\
              user_preferences (learn d ty) !! userId = Some q' /\
              (forall k w,
                 weight (Preferences.interests q) k = Some w ->
                 exists w',
                   weight (Preferences.interests q') k = Some w' /\
                   (w' == w + inject_Z (Z.of_nat
                                 (occurrences k (orEmpty (tags itemData)))))%Q)
              /\
              (forall k w,
                 weight (Preferences.skills q) k = Some w ->
                 exists w',
                   weight (Preferences.skills q') k = Some w' /\
                   (w' == w + inject_Z (Z.of_nat
                      (occurrences k (orEmpty (requirements itemData)))))%Q)).
  { intros d q ty Hd Hdc Hq Hty.
    destruct (learn_save_like now d userId ty q itemData Hd Hdc Hq Hty)
      as (Hc' & Hf' & _).
    pose proof (learn_document now d userId ty itemData q Hq) as Hdoc.
    rewrite (Hlive d Hd Hdc) in Hdoc.
    exists (learned now true ty itemData q).
    split; [exact Hc'|]. split.
    { unfold collection in *. unfold learn. rewrite Hf'. exact Hdc. }
    split; [exact Hdoc|].
    destruct (learned_weights now true ty itemData q) as (Hi & Hs).
    assert (Hd1 : interest_delta ty = 1%Q /\ skill_delta ty = 1%Q)
      by (destruct Hty as [-> | ->]; split; reflexivity).
    destruct Hd1 as [Ei Es]. rewrite Ei in Hi. rewrite Es in Hs.
    split; intros k w Hw.
    - destruct (Hi k w Hw) as (w' & Hw' & E). exists w'.
      split; [exact Hw'|]. rewrite E. unfold times. ring.
    - destruct (Hs k w Hw) as (w' & Hw' & E). exists w'.
      split; [exact Hw'|]. rewrite E. unfold times. ring. }
  split; [|split].
  - intros ty Hty.
    destruct (Hlike db p ty Hc Hcoll Hp Hty) as (p' & _ & _ & Hp' & Hi & Hs).
    exists p'. auto.
  - pose proof (learn_document now db userId "click_through" itemData p Hp)
      as Hdoc.
    rewrite (Hlive db Hc Hcoll) in Hdoc.
    exists (learned now true "click_through" itemData p).
    split; [exact Hdoc|].
    destruct (learned_weights now true "click_through" itemData p)
      as (Hi & _).
    split; [|reflexivity].
    intros k w Hw. destruct (Hi k w Hw) as (w' & Hw' & E). exists w'.
    split; [exact Hw'|]. rewrite E. reflexivity.
  - intros tag Hocc Hnew.
    destruct (Hlike db p "like" Hc Hcoll Hp (or_intror eq_refl))
      as (p1 & Hc1 & Hcoll1 & Hp1 & Hi1 & _).
    destruct (Hlike (learn db "like") p1 "like" Hc1 Hcoll1 Hp1
                (or_intror eq_refl))
      as (p2 & _ & _ & Hp2 & Hi2 & _).
    destruct (Hi1 tag 0%Q Hnew) as (w1 & Hw1 & E1).
    destruct (Hi2 tag w1 Hw1) as (w2 & Hw2 & E2).
    rewrite Hocc in E1, E2.
    exists p1, p2, w1, w2.
    split; [exact Hp1|]. split; [exact Hw1|]. split; [rewrite E1; reflexivity|].
    split; [exact Hp2|]. split; [exact Hw2|]. rewrite E2, E1. reflexivity.
Qed.

Lemma X28_learning_is_additive_on_weights_witness :
  exists p1 p2 w1 w2,
    user_preferences
      (updatePreferencesFromEngagement 0 learner_db "u" "like" tech_item)
      !! "u" = Some p1 /\
    weight (Preferences.interests p1) "fintech" = Some w1 /\ (w1 == 1)%Q /\
    user_preferences
      (updatePreferencesFromEngagement 0
         (updatePreferencesFromEngagement 0 learner_db "u" "like" tech_item)
         "u" "like" tech_item)
      !! "u" = Some p2 /\
    weight (Preferences.interests p2) "fintech" = Some w2 /\ (w2 == 2)%Q.
Proof.
  destruct (X28_learning_is_additive_on_weights 0 learner_db "u"
              blank_preferences tech_item eq_refl eq_refl eq_refl)
    as (_ & _ & Htwice).
  exact (Htwice "fintech" eq_refl eq_refl).
Defined.

(** ** Learning and ranking together *)

(** The Scorer does not look at the preferences of a user whose profile
    lists interests, skills and a location. *)
Lemma calculateScore_profile_only (now : Z) (random : Q) (c : Candidate)
    (p : Profile.t) (q q' : option Preferences.t) :
  is_Some (Profile.interests p) -> is_Some (Profile.skills p) ->
  is_Some (Profile.location_data p) ->
  calculateScore now random c (Some p) q =
  calculateScore now random c (Some p) q'.
Proof.
  intros [us Hus] [ss Hss] [loc Hloc].
  unfold calculateScore, personalScores, anyUser.
  rewrite !bool_decide_eq_true_2 by eauto. cbn [orb].
  unfold calculateInterestMatch, calculateSkillMatch, calculateLocationMatch,
    userInterestsOf, userSkillsOf, userLocationOf.
  cbn [mbind option_bind]. rewrite Hus, Hss, Hloc. reflexivity.
Qed.

Lemma Promise_all_from_ext {A B} (f g : nat -> A -> result B) (i : nat)
    (xs : list A) :
  (forall j x, f j x = g j x) ->
  Promise_all_from f i xs = Promise_all_from g i xs.
Proof.
  intros Hfg. revert i. induction xs as [|x xs IH]; intros i; cbn;
    [reflexivity|].
  rewrite Hfg. destruct (g i x); cbn; [|reflexivity]. now rewrite IH.
Qed.

Lemma getActiveContent_with_preferences (db : DB)
    (m : gmap string Preferences.t) (contentType : string) :
  getActiveContent (with_preferences db m) contentType =
  getActiveContent db contentType.
Proof.
  unfold getActiveContent, getDB. cbn [connected with_preferences].
  destruct (connected db); reflexivity.
Qed.

Lemma getRecommendations_with_preferences (impl : SortChoice) (now : Z)
    (random : nat -> Q) (db : DB) (m : gmap string Preferences.t)
    (userId contentType : string) (limit : Z) (p : Profile.t) :
  user_profiles db !! userId = Some p ->
  is_Some (Profile.interests p) -> is_Some (Profile.skills p) ->
  is_Some (Profile.location_data p) ->
  getRecommendations impl now random (with_preferences db m) userId contentType
    limit =
  getRecommendations impl now random db userId contentType limit.
Proof.
  intros Hp Hi Hs Hl.
  unfold getRecommendations, getRecommendations_body, getDB.
  cbn [connected with_preferences].
  destruct (connected db); [|reflexivity]. cbn [bind].
  unfold findOne_profile, findOne_preferences, collection.
  cbn [failing user_profiles user_preferences with_preferences]. rewrite Hp.
  destruct (existsb (String.eqb "user_profiles") (failing db));
    [reflexivity|]. cbn [bind].
  destruct (existsb (String.eqb "user_preferences") (failing db));
    [reflexivity|]. cbn [bind].
  rewrite !bool_decide_eq_true_2 by eauto. cbn [negb andb].
  rewrite getActiveContent_with_preferences.
  destruct (getActiveContent db contentType) as [content|e]; [|reflexivity].
  cbn [bind]. unfold Promise_all.
  rewrite (Promise_all_from_ext
             (fun i c => calculateScore now (random i) c (Some p) (m !! userId))
             (fun i c => calculateScore now (random i) c (Some p)
                           (user_preferences db !! userId)));
    [reflexivity|].
  intros j c. now apply calculateScore_profile_only.
Qed.

(** X19: what is learnt does not reach the ranking of a user whose profile
    lists interests, skills and a location: after any engagement event of
    any user, [getRecommendations] returns for that user what it returned
    before. *)
Theorem X19_learning_leaves_profile_rankings (impl : SortChoice)
    (now now' : Z) (random : nat -> Q) (db : DB)
    (userId eventUser engagementType contentType : string)
    (itemData : ContentItem) (limit : Z) (p : Profile.t) :
  user_profiles db !! userId = Some p ->
  is_Some (Profile.interests p) -> is_Some (Profile.skills p) ->
  is_Some (Profile.location_data p) ->
  getRecommendations impl now random
    (updatePreferencesFromEngagement now' db eventUser engagementType itemData)
    userId contentType limit =
  getRecommendations impl now random db userId contentType limit.
Proof.
  intros Hp Hi Hs Hl.
  destruct (updatePreferences_shape now' db eventUser engagementType itemData)
    as (m & -> & _).
  now apply (getRecommendations_with_preferences impl _ _ _ _ _ _ _ p).
Qed.

Lemma X19_learning_leaves_profile_rankings_witness :
  getRecommendations keep_order 0 (fun _ => 0%Q)
    (updatePreferencesFromEngagement 0 both_db "w" "like" tech_item)
    "w" "all" 20 =
  getRecommendations keep_order 0 (fun _ => 0%Q) both_db "w" "all" 20.
Proof.
  apply (X19_learning_leaves_profile_rankings keep_order 0 0 (fun _ => 0%Q)
           both_db
           "w" "w" "like" "all" tech_item 20 full_profile).
  - reflexivity.
  - eexists; reflexivity.
  - eexists; reflexivity.
  - eexists; reflexivity.
Defined.

Lemma Forall2_In_left {A B} (P : A -> B -> Prop) (xs : list A)
    (ys : list B) (x : A) :
  Forall2 P xs ys -> In x xs -> exists y, In y ys /\ P x y.
Proof.
  induction 1 as [|x0 y xs ys Hxy _ IH]; cbn; [contradiction|].
  intros [<-|Hin].
  - exists y. auto.
  - destruct (IH Hin) as (y' & Hy' & Hp). eauto.
Qed.

(** X20: a user without a profile whose preferences hold an [interests]
    weight object gets no recommendation as soon as one active document of
    the requested type has a tag: scoring that document raises, and
    [getRecommendations] returns the empty list.  (An object whose key
    [length] weighs 0 is read as an empty list and does not raise.) *)
Theorem X20_learned_interests_empty_the_ranking (impl : SortChoice) (now : Z)
    (random : nat -> Q) (db : DB) (userId contentType : string) (limit : Z)
    (q : Preferences.t) (m : gmap string WeightValue) (c : Candidate) :
  user_profiles db !! userId = None ->
  user_preferences db !! userId = Some q ->
  Preferences.interests q = Some m ->
  length_is_zero (FromObject m) = false ->
  In c (active_of db contentType) ->
  orEmpty (tags (item c)) <> [] ->
  getRecommendations impl now random db userId contentType limit = [].
Proof.
  intros Hprofile Hprefs Hm Hlen Hc Htags.
  unfold getRecommendations.
  destruct (getRecommendations_body impl _ _ _ _ _ _) as [l|e] eqn:E;
    [|reflexivity].
  exfalso.
  apply getRecommendations_body_Ok in E
    as (p0 & q0 & _ & Hp0 & Hq0 & [(_ & -> & _)|(_ & _ & sc & Hall & _)]).
  - unfold findOne_preferences in Hq0. inv_bind Hq0. congruence.
  - unfold findOne_profile in Hp0. inv_bind Hp0.
    unfold findOne_preferences in Hq0. inv_bind Hq0.
    rewrite Hprofile in Hp0. rewrite Hprefs in Hq0.
    injection Hp0 as <-. injection Hq0 as <-.
    apply Promise_all_from_Forall2 in Hall.
    destruct (Forall2_In_left _ _ _ c Hall Hc) as (c' & _ & j & Hj).
    unfold calculateScore, personalScores, anyUser in Hj.
    rewrite (bool_decide_eq_true_2 (is_Some (Some q))) in Hj by eauto.
    rewrite orb_true_r in Hj.
    unfold calculateInterestMatch, userInterestsOf in Hj.
    cbn [mbind option_bind] in Hj. rewrite Hm in Hj. rewrite Hlen in Hj.
    destruct (orEmpty (tags (item c))) as [|t ts]; [congruence|].
    cbn in Hj. discriminate Hj.
Qed.

Lemma X20_learned_interests_empty_the_ranking_witness :
  getRecommendations keep_order 0 (fun _ => 0%Q) two_users_db "v" "job" 20 = [].
Proof.
  apply (X20_learned_interests_empty_the_ranking keep_order 0 (fun _ => 0%Q)
           two_users_db "v" "job" 20 tech_preferences {[ "tech" := WNum 1 ]}
           (typed "job" tech_item)).
  - reflexivity.
  - reflexivity.
  - reflexivity.
  - reflexivity.
  - left. reflexivity.
  - discriminate.
Defined.

(** * Properties of the engagement routes *)

Lemma engine_set_entries (k : Mark) (l : list Entry.t) (st : Store) :
  engine (set_entries k l st) = engine st.
Proof. destruct k; reflexivity. Qed.

Lemma entries_set_entries (k : Mark) (l : list Entry.t) (st : Store) :
  entries k (set_entries k l st) = l.
Proof. destruct k; reflexivity. Qed.

Lemma set_entries_same (k : Mark) (st : Store) :
  set_entries k (entries k st) st = st.
Proof. destruct k, st; reflexivity. Qed.

Lemma failing_update_docs (name : string)
    (f : list ContentItem -> list ContentItem) (st : Store) :
  failing (engine (update_docs name f st)) = failing (engine st) /\
  connected (engine (update_docs name f st)) = connected (engine st).
Proof.
  unfold update_docs. destruct (is_engine_collection name); split; reflexivity.
Qed.

Lemma collection_update_docs (name name' : string)
    (f : list ContentItem -> list ContentItem) (st : Store) :
  collection (engine (update_docs name f st)) name' =
  collection (engine st) name'.
Proof.
  unfold collection. now rewrite (proj1 (failing_update_docs name f st)).
Qed.

(** Run a handler as far as the facts in the context decide its tests. *)
Ltac run_io :=
  unfold engage, disengage, io_catch, engage_body, disengage_body, io_bind,
    io_getDB, entry_findOne, entry_insertOne, entry_deleteOne, content_inc,
    content_findOne, on_collection, io_ret;
  repeat
    (first
       [ progress cbn [negb fst snd Nat.eqb]
       | rewrite engine_set_entries
       | rewrite collection_update_docs
       | match goal with
         | H : ?a = _ |- context [?a] => rewrite H
         end ]);
  try reflexivity.

(** The ways in which [POST /save] and [POST /like] end. *)
Lemma engage_cases (k : Mark) (now : Z) (userId : string) (b : Body.t)
    (st : Store) :
  let item_id := orEmptyStr (Body.item_id b) in
  let item_type := orEmptyStr (Body.item_type b) in
  let entry := new_entry k now userId item_id item_type b in
  let r := engage k now userId b st in
  (validated b = false /\
   r = (st, respond 400 false "Validation failed")) \/
  (validated b = true /\
   (connected (engine st) = false \/
    exists e, collection (engine st) (entries_name k) = Throw e) /\
   r = (st, respond 500 false (failed_text k))) \/
  (validated b = true /\ connected (engine st) = true /\
   collection (engine st) (entries_name k) = Ok tt /\
   is_Some (find (entry_matches userId item_id item_type) (entries k st)) /\
   r = (st, respond 400 false (already k))) \/
  (validated b = true /\ connected (engine st) = true /\
   collection (engine st) (entries_name k) = Ok tt /\
   find (entry_matches userId item_id item_type) (entries k st) = None /\
   (exists e, collection (engine st) (item_type ++ "s") = Throw e) /\
   r = (set_entries k (entries k st ++ [entry])%list st,
        respond 500 false (failed_text k))) \/
  (validated b = true /\ connected (engine st) = true /\
   collection (engine st) (entries_name k) = Ok tt /\
   find (entry_matches userId item_id item_type) (entries k st) = None /\
   collection (engine st) (item_type ++ "s") = Ok tt /\
   r = (engaged_store k now userId b st,
        respond 201 true (done_text k))).
Proof.
  intros item_id item_type entry r. subst r entry item_type item_id.
  destruct (validated b) eqn:Hv; [right|left; split; [reflexivity|run_io]].
  destruct (connected (engine st)) eqn:Hc;
    [|left; split; [reflexivity|split; [auto|run_io]]].
  destruct (collection (engine st) (entries_name k)) as [[]|e] eqn:Hcoll;
    [right|left; split; [reflexivity|split; [eauto|run_io]]].
  destruct (find (entry_matches userId (orEmptyStr (Body.item_id b))
                   (orEmptyStr (Body.item_type b))) (entries k st))
    as [x|] eqn:Hfind.
  { left. do 3 (split; [reflexivity|]). split; [eauto|run_io]. }
  right.
  destruct (collection (engine st) (orEmptyStr (Body.item_type b) ++ "s"))
    as [[]|e] eqn:Hcont.
  2:{ left. do 4 (split; [reflexivity|]). split; [eauto|run_io]. }
  right. do 5 (split; [reflexivity|]).
  unfold engaged_store. run_io.
  destruct (find _ (docs _ _)) as [c|]; reflexivity.
Qed.

Lemma delete_first_none {A} (p : A -> bool) (l : list A) :
  existsb p l = false -> delete_first p l = l.
Proof.
  induction l as [|x l IH]; cbn; [reflexivity|].
  destruct (p x); cbn; [discriminate|]. intros H. now rewrite IH.
Qed.

(** The ways in which [DELETE /save/...] and [DELETE /like/...] end. *)
Lemma disengage_cases (k : Mark) (userId item_id item_type : string)
    (st : Store) :
  let p := entry_matches userId item_id item_type in
  let r := disengage k userId item_id item_type st in
  ((connected (engine st) = false \/
    exists e, collection (engine st) (entries_name k) = Throw e) /\
   r = (st, respond 500 false (remove_failed_text k))) \/
  (connected (engine st) = true /\
   collection (engine st) (entries_name k) = Ok tt /\
   existsb p (entries k st) = false /\
   r = (st, respond 404 false (gone_text k))) \/
  (connected (engine st) = true /\
   collection (engine st) (entries_name k) = Ok tt /\
   existsb p (entries k st) = true /\
   (exists e, collection (engine st) (item_type ++ "s") = Throw e) /\
   r = (set_entries k (delete_first p (entries k st)) st,
        respond 500 false (remove_failed_text k))) \/
  (connected (engine st) = true /\
   collection (engine st) (entries_name k) = Ok tt /\
   existsb p (entries k st) = true /\
   collection (engine st) (item_type ++ "s") = Ok tt /\
   r = (update_docs (item_type ++ "s")
          (update_first (fun it => String.eqb (_id it) item_id)
                        (inc_counter k (-1)))
          (set_entries k (delete_first p (entries k st)) st),
        respond 200 true (removed_text k))).
Proof.
  intros p r. subst r p.
  destruct (connected (engine st)) eqn:Hc;
    [|left; split; [auto|run_io]].
  destruct (collection (engine st) (entries_name k)) as [[]|e] eqn:Hcoll;
    [right|left; split; [eauto|run_io]].
  destruct (existsb (entry_matches userId item_id item_type) (entries k st))
    eqn:Hex.
  2:{ left. do 3 (split; [reflexivity|]). run_io.
      rewrite delete_first_none by exact Hex. now rewrite set_entries_same. }
  right.
  destruct (collection (engine st) (item_type ++ "s")) as [[]|e] eqn:Hcont.
  2:{ left. do 3 (split; [reflexivity|]). split; [eauto|run_io]. }
  right. do 4 (split; [reflexivity|]). run_io.
Qed.

Lemma content_of_with_preferences (db : DB) (m : gmap string Preferences.t)
    (name : string) :
  content_of (with_preferences db m) name = content_of db name.
Proof. reflexivity. Qed.

(** The learner leaves every content collection as it was. *)
Lemma content_of_learner (now : Z) (db : DB) (userId ty : string)
    (itemData : ContentItem) (name : string) :
  content_of (updatePreferencesFromEngagement now db userId ty itemData) name
  = content_of db name.
Proof.
  destruct (updatePreferences_shape now db userId ty itemData) as (m & -> & _).
  reflexivity.
Qed.

Lemma content_of_with_content (db : DB) (name name' : string)
    (l : list ContentItem) :
  is_engine_collection name = true ->
  content_of (with_content db name l) name' =
  if String.eqb name' name then l else content_of db name'.
Proof.
  intros Hname. unfold is_engine_collection in Hname. cbn in Hname.
  unfold content_of, with_content.
  cbn [opportunities events jobs resources].
  repeat match type of Hname with
  | (String.eqb ?a ?b || _) = true =>
      destruct (String.eqb_spec a b) as [->|_]; cbn [orb] in Hname
  end;
  try discriminate;
  eval_eqb;
  repeat match goal with
  | |- context [String.eqb name' ?s] =>
      destruct (String.eqb_spec name' s) as [->|?]; eval_eqb
  end; try reflexivity; try congruence.
Qed.

Lemma is_engine_collection_content (db : DB) (name : string) :
  is_engine_collection name = false -> content_of db name = [].
Proof.
  unfold is_engine_collection, content_of. cbn.
  repeat match goal with
  | |- context [String.eqb name ?s] =>
      destruct (String.eqb name s); cbn
  end; try discriminate; reflexivity.
Qed.

(** Reading a content collection after [updateOne] on [name]. *)
Lemma docs_update_docs (name name' : string) (p : ContentItem -> bool)
    (f : ContentItem -> ContentItem) (st : Store) :
  docs (update_docs name (update_first p f) st) name' =
  if String.eqb name' name then update_first p f (docs st name)
  else docs st name'.
Proof.
  unfold docs, update_docs.
  destruct (is_engine_collection name) eqn:Hname.
  - cbn [engine set_engine others].
    rewrite content_of_with_content by exact Hname.
    destruct (String.eqb_spec name' name) as [->|Hne].
    + now rewrite Hname.
    + reflexivity.
  - cbn [engine others].
    destruct (String.eqb_spec name' name) as [->|Hne].
    + rewrite Hname, lookup_alter_eq.
      destruct (others st !! name); reflexivity.
    + rewrite lookup_alter_ne by congruence. reflexivity.
Qed.

Lemma docs_set_entries (k : Mark) (l : list Entry.t) (st : Store)
    (name : string) :
  docs (set_entries k l st) name = docs st name.
Proof. destruct k; reflexivity. Qed.

Lemma docs_learn (now : Z) (userId ty : string) (c : ContentItem)
    (st : Store) (name : string) :
  docs (set_engine (updatePreferencesFromEngagement now (engine st) userId
                      ty c) st) name
  = docs st name.
Proof.
  unfold docs. cbn [engine set_engine others].
  now rewrite content_of_learner.
Qed.

Lemma entries_update_docs (k : Mark) (name : string)
    (f : list ContentItem -> list ContentItem) (st : Store) :
  entries k (update_docs name f st) = entries k st /\
  click_throughs (update_docs name f st) = click_throughs st /\
  user_profiles (engine (update_docs name f st)) = user_profiles (engine st) /\
  user_preferences (engine (update_docs name f st)) =
    user_preferences (engine st).
Proof.
  unfold update_docs. destruct (is_engine_collection name), k;
    repeat split; reflexivity.
Qed.

Lemma entries_other_mark (k k' : Mark) (l : list Entry.t) (st : Store) :
  k' <> k -> entries k' (set_entries k l st) = entries k' st.
Proof. destruct k, k'; intros H; try reflexivity; contradiction. Qed.

(** What a [POST /save] or [POST /like] that went through has written. *)
Lemma engaged_store_facts (k : Mark) (now : Z) (userId : string)
    (b : Body.t) (st : Store) :
  let item_id := orEmptyStr (Body.item_id b) in
  let item_type := orEmptyStr (Body.item_type b) in
  let st1 := engaged_store k now userId b st in
  entries k st1 =
    (entries k st ++ [new_entry k now userId item_id item_type b])%list /\
  (forall k', k' <> k -> entries k' st1 = entries k' st) /\
  click_throughs st1 = click_throughs st /\
  connected (engine st1) = connected (engine st) /\
  failing (engine st1) = failing (engine st) /\
  user_profiles (engine st1) = user_profiles (engine st) /\
  (forall name,
     docs st1 name =
     if String.eqb name (item_type ++ "s") then
       update_first (fun it => String.eqb (_id it) item_id) (inc_counter k 1)
                    (docs st name)
     else docs st name).
Proof.
  intros item_id item_type st1. subst st1. unfold engaged_store.
  fold item_id item_type.
  set (entry := new_entry k now userId item_id item_type b).
  set (name := item_type ++ "s").
  set (st' := set_entries k (entries k st ++ [entry])%list st).
  set (f := update_first (fun it => String.eqb (_id it) item_id)
                         (inc_counter k 1)).
  set (st2 := update_docs name f st').
  assert (H2 : entries k st2 = (entries k st ++ [entry])%list /\
               (forall k', k' <> k -> entries k' st2 = entries k' st) /\
               click_throughs st2 = click_throughs st /\
               connected (engine st2) = connected (engine st) /\
               failing (engine st2) = failing (engine st) /\
               user_profiles (engine st2) = user_profiles (engine st) /\
               (forall n, docs st2 n =
                          if String.eqb n name then f (docs st n)
                          else docs st n)).
  { subst st2.
    destruct (entries_update_docs k name f st') as (He & Hcl & Hpr & _).
    destruct (failing_update_docs name f st') as (Hf & Hc).
    rewrite He, Hcl, Hpr, Hf, Hc. subst st'.
    rewrite entries_set_entries, !engine_set_entries.
    split; [reflexivity|]. split.
    { intros k' Hk'.
      rewrite (proj1 (entries_update_docs k' name f _)).
      now apply entries_other_mark. }
    split; [destruct k; reflexivity|].
    do 3 (split; [reflexivity|]).
    intros n. subst f. rewrite docs_update_docs.
    destruct (String.eqb_spec n name) as [->|_];
      now rewrite docs_set_entries. }
  destruct (find _ (docs st2 name)) as [c|]; [|exact H2].
  destruct H2 as (He & Ho & Hcl & Hc & Hf & Hpr & Hd).
  destruct (updatePreferences_shape now (engine st2) userId
              (engagementType_of k) c) as (m & Hm & _).
  split; [destruct k; exact He|].
  split; [intros k' Hk'; rewrite <- (Ho k' Hk'); destruct k'; reflexivity|].
  split; [exact Hcl|].
  cbn [engine set_engine]. rewrite Hm.
  cbn [with_preferences connected failing user_profiles].
  do 3 (split; [assumption|]).
  intros n. rewrite <- Hm, docs_learn. apply Hd.
Qed.

Lemma find_app_last {A} (p : A -> bool) (l : list A) (x : A) :
  p x = true -> is_Some (find p (l ++ [x])%list).
Proof.
  intros Hx. induction l as [|y l IH]; cbn.
  - rewrite Hx. eauto.
  - destruct (p y); eauto.
Qed.

Lemma new_entry_matches (k : Mark) (now : Z) (userId itemId itemType : string)
    (b : Body.t) :
  entry_matches userId itemId itemType
    (new_entry k now userId itemId itemType b) = true.
Proof.
  unfold entry_matches, new_entry. cbn. now rewrite !String.eqb_refl.
Qed.

(** X21: an item is saved, and liked, at most once.  After a [POST /save]
    (or [POST /like]) answered 201, the same request by the same user is
    answered 400 and leaves the store as it is. *)
Theorem X21_second_save_or_like_is_rejected (k : Mark) (now now' : Z)
    (userId : string) (b : Body.t) (st : Store) :
  status_code (engage k now userId b st).2 = 201%nat ->
  let st1 := (engage k now userId b st).1 in
  engage k now' userId b st1 = (st1, respond 400 false (already k)).
Proof.
  intros H201 st1. subst st1.
  destruct (engage_cases k now userId b st)
    as [(_ & E)|[(_ & _ & E)|[(_ & _ & _ & _ & E)|[(_ & _ & _ & _ & _ & E)
                                                   |(Hv & Hc & Hcoll & _ & _ & E)]]]];
    rewrite E in H201 |- *; cbn in H201; try discriminate H201.
  cbn [fst].
  destruct (engaged_store_facts k now userId b st)
    as (He & _ & _ & Hc1 & Hf1 & _).
  assert (Hcoll1 : collection (engine (engaged_store k now userId b st))
                     (entries_name k) = Ok tt).
  { unfold collection in *. now rewrite Hf1. }
  assert (Hfind : is_Some
            (find (entry_matches userId (orEmptyStr (Body.item_id b))
                     (orEmptyStr (Body.item_type b)))
                  (entries k (engaged_store k now userId b st)))).
  { rewrite He. apply find_app_last, new_entry_matches. }
  rewrite Hc in Hc1.
  destruct (engage_cases k now' userId b (engaged_store k now userId b st))
    as [(Hv' & _)|[(_ & [Hx|(e & Hx)] & _)|[(_ & _ & _ & _ & E')
        |[(_ & _ & _ & Hn & _)|(_ & _ & _ & Hn & _)]]]];
    try congruence.
  - rewrite Hn in Hfind. destruct Hfind as [? [=]].
  - rewrite Hn in Hfind. destruct Hfind as [? [=]].
Qed.

Lemma X21_second_save_or_like_is_rejected_witness :
  status_code (saveHandler 5 "u" save_job fresh_store).2 = 201%nat /\
  saveHandler 6 "u" save_job (saveHandler 5 "u" save_job fresh_store).1 =
    ((saveHandler 5 "u" save_job fresh_store).1,
     respond 400 false "Item already saved").
Proof.
  split; [reflexivity|].
  apply (X21_second_save_or_like_is_rejected Saved 5 6 "u" save_job
           fresh_store).
  reflexivity.
Defined.

Lemma update_first_none {A} (p : A -> bool) (f : A -> A) (l : list A) :
  Forall (fun x => p x = false) l -> update_first p f l = l.
Proof.
  induction 1 as [|x l Hx _ IH]; cbn; [reflexivity|].
  now rewrite Hx, IH.
Qed.

Lemma update_first_split {A} (p : A -> bool) (f : A -> A)
    (before after : list A) (d : A) :
  Forall (fun x => p x = false) before -> p d = true ->
  update_first p f (before ++ d :: after) = (before ++ f d :: after)%list.
Proof.
  intros Hb Hd. induction Hb as [|x before Hx _ IH]; cbn.
  - now rewrite Hd.
  - now rewrite Hx, IH.
Qed.

Lemma counted_inc_counter (k : Mark) (n : Z) (d : ContentItem) :
  counted k n d (inc_counter k n d).
Proof. destruct k; cbn; repeat split. Qed.

(** X22: what a [POST /save] or [POST /like] answered 201 has written.
    One entry was appended to [saved_items] (or [likes]): that of the
    user, the item and the time of the request.  In the collection named
    [item_type + s] the first document with the item's id has its
    [saves_count] (or [likes_count]) raised by 1, from 0 if it had none,
    and is otherwise as it was; without such a document the collection is
    unchanged.  The other engagement collection, the click-throughs, the
    profiles and every other content collection are as before. *)
Theorem X22_effect_of_a_save_or_like (k : Mark) (now : Z) (userId : string)
    (b : Body.t) (st : Store) :
  status_code (engage k now userId b st).2 = 201%nat ->
  let item_id := default "" (Body.item_id b) in
  let item_type := default "" (Body.item_type b) in
  let name := item_type ++ "s" in
  let st1 := (engage k now userId b st).1 in
  In item_type ["opportunity"; "event"; "job"; "resource"] /\
  (exists e,
     entries k st1 = (entries k st ++ [e])%list /\
     Entry.user_id e = userId /\ Entry.item_id e = item_id /\
     Entry.item_type e = item_type /\ Entry.at_time e = now /\
     Entry.notes e =
       match k with
       | Saved => Some (default "" (Body.notes b))
       | Liked => None
       end) /\
  (forall k', k' <> k -> entries k' st1 = entries k' st) /\
  click_throughs st1 = click_throughs st /\
  user_profiles (engine st1) = user_profiles (engine st) /\
  (forall other, other <> name -> docs st1 other = docs st other) /\
  (Forall (fun d => _id d <> item_id) (docs st name) ->
   docs st1 name = docs st name) /\
  (forall before d after,
     docs st name = (before ++ d :: after)%list ->
     Forall (fun x => _id x <> item_id) before -> _id d = item_id ->
     exists d',
       docs st1 name = (before ++ d' :: after)%list /\ counted k 1 d d').
Proof.
  intros H201 item_id item_type name st1. subst st1.
  destruct (engage_cases k now userId b st)
    as [(_ & E)|[(_ & _ & E)|[(_ & _ & _ & _ & E)|[(_ & _ & _ & _ & _ & E)
                                                   |(Hv & _ & _ & _ & _ & E)]]]];
    rewrite E in H201 |- *; cbn in H201; try discriminate H201.
  cbn [fst].
  pose proof (engaged_store_facts k now userId b st) as F.
  cbv zeta in F.
  change (orEmptyStr (Body.item_id b)) with item_id in F.
  change (orEmptyStr (Body.item_type b)) with item_type in F.
  change (item_type ++ "s") with name in F.
  destruct F as (He & Ho & Hcl & _ & _ & Hpr & Hd).
  assert (Hnot : forall l, Forall (fun x : ContentItem => _id x <> item_id) l ->
            Forall (fun x => String.eqb (_id x) item_id = false) l).
  { intros l. apply List.Forall_impl. intros x. apply String.eqb_neq. }
  split.
  { unfold validated in Hv. apply andb_true_iff in Hv as [_ Hv].
    apply existsb_exists in Hv as (t & Ht & Heq).
    apply String.eqb_eq in Heq. subst item_type.
    unfold orEmptyStr in Heq. now rewrite Heq. }
  split.
  { eexists. split; [exact He|]. destruct k; repeat split. }
  split; [exact Ho|]. split; [exact Hcl|]. split; [exact Hpr|].
  split; [|split].
  - intros other Hother. rewrite Hd.
    now rewrite (proj2 (String.eqb_neq _ _) Hother).
  - intros Hnone. rewrite Hd, String.eqb_refl.
    now apply update_first_none, Hnot.
  - intros before d after Hdocs Hbefore Hid.
    exists (inc_counter k 1 d). split; [|apply counted_inc_counter].
    rewrite Hd, String.eqb_refl, Hdocs.
    apply update_first_split; [now apply Hnot|].
    now apply String.eqb_eq.
Qed.

Lemma X22_effect_of_a_save_or_like_witness :
  exists d',
    docs (saveHandler 5 "u" save_job fresh_store).1 "jobs" = [d'] /\
    counted Saved 1 tech_item d' /\
    saves_count d' = Some 1 /\
    likes (saveHandler 5 "u" save_job fresh_store).1 = [].
Proof.
  destruct (X22_effect_of_a_save_or_like Saved 5 "u" save_job fresh_store
              eq_refl) as (_ & _ & Ho & _ & _ & _ & _ & Hd).
  destruct (Hd [] tech_item [] eq_refl (List.Forall_nil _) eq_refl)
    as (d' & Hdocs & Hcount).
  exists d'. split; [exact Hdocs|]. split; [exact Hcount|].
  split.
  { destruct Hcount as (_ & _ & _ & _ & _ & _ & _ & Hsaves & _).
    exact Hsaves. }
  apply (Ho Liked). discriminate.
Defined.

Lemma same_document_refl (a : ContentItem) : same_document a a.
Proof. repeat split. Qed.

Lemma same_document_inc (k : Mark) (a : ContentItem) :
  same_document a (inc_counter k (-1) (inc_counter k 1 a)).
Proof.
  destruct k; repeat split; cbn; unfold or0; cbn; lia.
Qed.

Lemma update_first_twice {A} (p : A -> bool) (f g : A -> A) (l : list A) :
  (forall x, p (f x) = p x) ->
  update_first p g (update_first p f l) =
  update_first p (fun x => g (f x)) l.
Proof.
  intros Hp. induction l as [|x l IH]; cbn; [reflexivity|].
  destruct (p x) eqn:E; cbn.
  - now rewrite Hp, E.
  - now rewrite E, IH.
Qed.

Lemma update_first_related {A} (R : A -> A -> Prop) (p : A -> bool)
    (f : A -> A) (l : list A) :
  (forall x, R x x) -> (forall x, R x (f x)) ->
  Forall2 R l (update_first p f l).
Proof.
  intros Hrefl Hf. induction l as [|x l IH]; cbn; [constructor|].
  destruct (p x); constructor; auto.
  clear IH. induction l; constructor; auto.
Qed.

Lemma find_none_existsb {A} (p : A -> bool) (l : list A) :
  find p l = None <-> existsb p l = false.
Proof.
  induction l as [|x l IH]; cbn; [tauto|].
  destruct (p x); cbn; [split; discriminate|exact IH].
Qed.

Lemma delete_first_app_last {A} (p : A -> bool) (l : list A) (x : A) :
  existsb p l = false -> p x = true -> delete_first p (l ++ [x])%list = l.
Proof.
  intros Hl Hx. induction l as [|y l IH]; cbn in *.
  - now rewrite Hx.
  - destruct (p y); cbn in Hl; [discriminate|]. now rewrite IH.
Qed.

(** X23: removing what was just saved (or liked) undoes the entry and the
    counter, not the learning.  After a [POST /save] answered 201, the
    [DELETE /save] of the same item by the same user is answered 200; the
    saved items are then as before the save, every content document is as
    before up to a zero counter now written out, and the preferences stay
    as the save left them. *)
Theorem X23_save_then_unsave (k : Mark) (now : Z) (userId : string)
    (b : Body.t) (st : Store) :
  status_code (engage k now userId b st).2 = 201%nat ->
  let item_id := orEmptyStr (Body.item_id b) in
  let item_type := orEmptyStr (Body.item_type b) in
  let st1 := (engage k now userId b st).1 in
  let r := disengage k userId item_id item_type st1 in
  r.2 = respond 200 true (removed_text k) /\
  entries k r.1 = entries k st /\
  (forall name, Forall2 same_document (docs st name) (docs r.1 name)) /\
  user_preferences (engine r.1) = user_preferences (engine st1).
Proof.
  intros H201 item_id item_type st1 r. subst r st1.
  destruct (engage_cases k now userId b st)
    as [(_ & E)|[(_ & _ & E)|[(_ & _ & _ & _ & E)|[(_ & _ & _ & _ & _ & E)
                                            |(_ & Hc & Hcoll & Hfind & Hcont & E)]]]];
    rewrite E in H201 |- *; cbn in H201; try discriminate H201.
  cbn [fst]. fold item_id item_type in Hfind, Hcont.
  set (st1 := engaged_store k now userId b st).
  destruct (engaged_store_facts k now userId b st)
    as (He & _ & _ & Hc1 & Hf1 & _ & Hd).
  fold st1 item_id item_type in He, Hc1, Hf1, Hd.
  set (p := entry_matches userId item_id item_type).
  set (entry := new_entry k now userId item_id item_type b) in *.
  assert (Hentry : p entry = true) by apply new_entry_matches.
  assert (Hnone : existsb p (entries k st) = false)
    by (apply find_none_existsb; exact Hfind).
  assert (Hex : existsb p (entries k st1) = true).
  { rewrite He, existsb_app. cbn. rewrite Hentry. now rewrite orb_true_r. }
  destruct (disengage_cases k userId item_id item_type st1)
    as [([Hx|(e & Hx)] & _)|[(_ & _ & Hx & _)|[(_ & _ & _ & (e & Hx) & _)
        |(_ & _ & _ & _ & E2)]]].
  - congruence.
  - unfold collection in *. rewrite Hf1 in Hx. congruence.
  - fold p in Hx. congruence.
  - unfold collection in *. rewrite Hf1 in Hx. congruence.
  - rewrite E2. cbn [fst snd]. fold p.
    split; [reflexivity|]. split; [|split].
    + rewrite (proj1 (entries_update_docs k _ _ _)), entries_set_entries, He.
      now apply delete_first_app_last.
    + intros name. rewrite docs_update_docs, !docs_set_entries, !Hd.
      rewrite String.eqb_refl.
      destruct (String.eqb_spec name (item_type ++ "s")) as [->|_].
      * rewrite update_first_twice by (intros x; destruct k; reflexivity).
        apply update_first_related;
          [apply same_document_refl|apply same_document_inc].
      * clear. induction (docs st name); constructor;
          [apply same_document_refl|assumption].
    + rewrite (proj2 (proj2 (proj2 (entries_update_docs k _ _ _)))).
      now rewrite engine_set_entries.
Qed.

Lemma X23_save_then_unsave_witness :
  (unsaveHandler "u" "job-1" "job"
     (saveHandler 5 "u" save_job fresh_store).1).2
  = respond 200 true "Item removed from saved items" /\
  saved_items
    (unsaveHandler "u" "job-1" "job"
       (saveHandler 5 "u" save_job fresh_store).1).1 = [].
Proof.
  destruct (X23_save_then_unsave Saved 5 "u" save_job fresh_store eq_refl)
    as (Hr & He & _).
  split; [exact Hr|exact He].
Defined.

Lemma find_update_first {A} (p : A -> bool) (f : A -> A) (l : list A) :
  (forall x, p (f x) = p x) ->
  find p (update_first p f l) = f <$> find p l.
Proof.
  intros Hp. induction l as [|x l IH]; cbn; [reflexivity|].
  destruct (p x) eqn:E; cbn.
  - now rewrite Hp, E.
  - now rewrite E, IH.
Qed.

(** X24: the routes address the collection [item_type + s], which for an
    opportunity is [opportunitys], not the [opportunities] that the engine
    ranks.  Saving, liking, unsaving or unliking an opportunity changes no
    document of the engine's content collections, and unless a collection
    [opportunitys] holds a document with the item's id nothing is learnt
    either: the engine's store is as before. *)
Theorem X24_opportunities_are_out_of_reach (k : Mark) (now : Z)
    (userId : string) (b : Body.t) (st : Store) :
  Body.item_type b = Some "opportunity" ->
  let item_id := orEmptyStr (Body.item_id b) in
  let st1 := (engage k now userId b st).1 in
  (forall name, content_of (engine st1) name = content_of (engine st) name) /\
  (find (fun it => String.eqb (_id it) item_id)
        (default [] (others st !! "opportunitys")) = None ->
   engine st1 = engine st) /\
  engine (disengage k userId item_id "opportunity" st).1 = engine st.
Proof.
  intros Hty item_id st1. subst st1.
  assert (Hdis : engine (disengage k userId item_id "opportunity" st).1
                 = engine st).
  { destruct (disengage_cases k userId item_id "opportunity" st)
      as [(_ & E)|[(_ & _ & _ & E)|[(_ & _ & _ & _ & E)
                                    |(_ & _ & _ & _ & E)]]];
      rewrite E; cbn [fst]; try reflexivity.
    - apply engine_set_entries.
    - unfold update_docs. cbn. apply engine_set_entries. }
  destruct (engage_cases k now userId b st)
    as [(_ & E)|[(_ & _ & E)|[(_ & _ & _ & _ & E)|[(_ & _ & _ & _ & _ & E)
                                                   |(_ & _ & _ & _ & _ & E)]]]];
    rewrite E; cbn [fst]; try (split; [reflexivity|split; auto]; fail).
  - rewrite engine_set_entries. split; [reflexivity|split; auto].
  - unfold engaged_store. rewrite Hty.
    change (orEmptyStr (Some "opportunity")) with "opportunity".
    fold item_id.
    change ("opportunity" ++ "s") with "opportunitys".
    set (st' := set_entries k _ st).
    set (q := fun it => String.eqb (_id it) item_id).
    assert (Hst2 : engine (update_docs "opportunitys"
                             (update_first q (inc_counter k 1)) st')
                   = engine st).
    { unfold update_docs. cbn. apply engine_set_entries. }
    assert (Hdocs : docs (update_docs "opportunitys"
                            (update_first q (inc_counter k 1)) st')
                         "opportunitys"
                    = update_first q (inc_counter k 1)
                        (default [] (others st !! "opportunitys"))).
    { rewrite docs_update_docs. eval_eqb. subst st'.
      rewrite docs_set_entries. reflexivity. }
    rewrite Hdocs.
    rewrite find_update_first by (intros x; destruct k; reflexivity).
    destruct (find q (default [] (others st !! "opportunitys"))) as [c|];
      cbn [fmap option_fmap option_map].
    + cbn [engine set_engine]. rewrite Hst2.
      split; [intros name; apply content_of_learner|].
      split; [discriminate|exact Hdis].
    + rewrite Hst2. split; [reflexivity|split; auto].
Qed.

Lemma X24_opportunities_are_out_of_reach_witness :
  (saveHandler 5 "u" save_opportunity opportunity_store).2
  = respond 201 true "Item saved successfully" /\
  engine (saveHandler 5 "u" save_opportunity opportunity_store).1
  = engine opportunity_store.
Proof.
  split; [reflexivity|].
  destruct (X24_opportunities_are_out_of_reach Saved 5 "u" save_opportunity
              opportunity_store eq_refl) as (_ & Hsame & _).
  apply Hsame. reflexivity.
Defined.

(** X25: a request that is turned down writes nothing.  When [POST /save]
    or [POST /like] answers 400 (validation failed, or already there), and
    when [DELETE /save] or [DELETE /like] answers 404, the store is as it
    was. *)
Theorem X25_rejected_requests_write_nothing (k : Mark) (now : Z)
    (userId item_id item_type : string) (b : Body.t) (st : Store) :
  (status_code (engage k now userId b st).2 = 400%nat ->
   (engage k now userId b st).1 = st) /\
  (status_code (disengage k userId item_id item_type st).2 = 404%nat ->
   (disengage k userId item_id item_type st).1 = st).
Proof.
  split.
  - destruct (engage_cases k now userId b st)
      as [(_ & E)|[(_ & _ & E)|[(_ & _ & _ & _ & E)|[(_ & _ & _ & _ & _ & E)
                                                     |(_ & _ & _ & _ & _ & E)]]]];
      rewrite E; cbn; intros H; try discriminate H; reflexivity.
  - destruct (disengage_cases k userId item_id item_type st)
      as [(_ & E)|[(_ & _ & _ & E)|[(_ & _ & _ & _ & E)
                                    |(_ & _ & _ & _ & E)]]];
      rewrite E; cbn; intros H; try discriminate H; reflexivity.
Qed.

Lemma X25_rejected_requests_write_nothing_witness :
  (unsaveHandler "u" "job-1" "job" fresh_store).1 = fresh_store.
Proof.
  apply (X25_rejected_requests_write_nothing Saved 0 "u" "job-1" "job"
           save_job fresh_store).
  reflexivity.
Defined.

(** X26: the routes do not roll back.  If the content collection rejects
    after the entry was written, [POST /save] (or [POST /like]) answers
    500 with the entry in place and no counter moved and nothing learnt;
    the same request sent again is answered 400, the item counting as
    saved. *)
Theorem X26_no_rollback_after_a_failure (k : Mark) (now now' : Z)
    (userId : string) (b : Body.t) (st : Store) :
  let item_id := orEmptyStr (Body.item_id b) in
  let item_type := orEmptyStr (Body.item_type b) in
  validated b = true ->
  connected (engine st) = true ->
  collection (engine st) (entries_name k) = Ok tt ->
  find (entry_matches userId item_id item_type) (entries k st) = None ->
  In (item_type ++ "s") (failing (engine st)) ->
  let st1 := (engage k now userId b st).1 in
  (engage k now userId b st).2 = respond 500 false (failed_text k) /\
  entries k st1 =
    (entries k st ++ [new_entry k now userId item_id item_type b])%list /\
  engine st1 = engine st /\
  others st1 = others st /\
  engage k now' userId b st1 = (st1, respond 400 false (already k)).
Proof.
  intros item_id item_type Hv Hc Hcoll Hfind Hfail st1.
  subst st1 item_type item_id.
  pose proof (collection_failing _ _ Hfail) as Hcont.
  destruct (engage_cases k now userId b st)
    as [(Hx & _)|[(_ & [Hx|(e & Hx)] & _)|[(_ & _ & _ & Hx & _)
        |[(_ & _ & _ & _ & _ & E)|(_ & _ & _ & _ & Hx & _)]]]];
    try congruence.
  { rewrite Hfind in Hx. destruct Hx as [? [=]]. }
  rewrite E. cbn [fst snd].
  split; [reflexivity|]. split; [apply entries_set_entries|].
  split; [apply engine_set_entries|]. split; [destruct k; reflexivity|].
  set (st1 := set_entries k _ st).
  assert (Hfind1 : is_Some
            (find (entry_matches userId (orEmptyStr (Body.item_id b))
                     (orEmptyStr (Body.item_type b))) (entries k st1))).
  { subst st1. rewrite entries_set_entries.
    apply find_app_last, new_entry_matches. }
  assert (He1 : engine st1 = engine st) by apply engine_set_entries.
  destruct (engage_cases k now' userId b st1)
    as [(Hx & _)|[(_ & [Hx|(e & Hx)] & _)|[(_ & _ & _ & _ & E')
        |[(_ & _ & _ & Hx & _)|(_ & _ & _ & Hx & _)]]]];
    rewrite ?He1 in *; try congruence.
  - rewrite Hx in Hfind1. destruct Hfind1 as [? [=]].
  - rewrite Hx in Hfind1. destruct Hfind1 as [? [=]].
Qed.

Lemma X26_no_rollback_after_a_failure_witness :
  (saveHandler 5 "u" save_job jobs_down_store).2
  = respond 500 false "Failed to save item" /\
  length (saved_items (saveHandler 5 "u" save_job jobs_down_store).1) = 1%nat.
Proof.
  destruct (X26_no_rollback_after_a_failure Saved 5 6 "u" save_job
              jobs_down_store eq_refl eq_refl eq_refl eq_refl)
    as (Hr & He & _).
  - left. reflexivity.
  - split; [exact Hr|]. exact (f_equal (@length Entry.t) He).
Defined.

(** The ways in which [POST /click] ends. *)
Lemma click_cases (isURL : string -> bool) (now : Z)
    (userId agent referer : string) (b : Body.t) (st : Store) :
  let r := clickHandler isURL now userId agent referer b st in
  (exists resp, r = (st, resp) /\ status_code resp <> 200%nat) \/
  (exists c, r = (with_click c st,
                  respond 500 false "Failed to track click-through")) \/
  (exists c m,
     Click.user_id c = userId /\ Click.clicked_at c = now /\
     r = (set_engine (with_preferences (engine st) m) (with_click c st),
          respond 200 true "Click-through tracked successfully")).
Proof.
  intros r. subst r.
  destruct (validated b && isURL (orEmptyStr (Body.external_url b)) &&
            bool_decide (is_Some (Body.external_url b)) &&
            (0 <=? default 0 (Body.time_spent b))%Z) eqn:Hv.
  2:{ left. eexists. split; [|shelve].
      unfold clickHandler, click_body, io_catch, io_ret. rewrite Hv.
      reflexivity. Unshelve. discriminate. }
  destruct (connected (engine st)) eqn:Hc.
  2:{ left. eexists. split; [|shelve].
      unfold clickHandler, click_body. run_io. Unshelve. discriminate. }
  destruct (collection (engine st) "click_throughs") as [[]|e] eqn:Hcoll.
  2:{ left. eexists. split; [|shelve].
      unfold clickHandler, click_body. run_io. Unshelve. discriminate. }
  right.
  destruct (collection (engine st) (orEmptyStr (Body.item_type b) ++ "s"))
    as [[]|e] eqn:Hcont.
  2:{ left. eexists. unfold clickHandler, click_body. run_io.
      cbn [engine]. rewrite Hcont. reflexivity. }
  right.
  unfold clickHandler, click_body. run_io. cbn [engine]. rewrite Hcont.
  cbv beta iota.
  match goal with
  | |- context [find ?q ?l] => destruct (find q l) as [c|]
  end.
  - unfold learn. cbn [engine].
    destruct (updatePreferences_shape now (engine st) userId "click_through" c)
      as (m & -> & _).
    eexists. exists m. split; [|split].
    3: reflexivity.
    all: reflexivity.
  - eexists. exists (user_preferences (engine st)).
    rewrite with_preferences_same.
    split; [|split].
    3: destruct st; reflexivity.
    all: reflexivity.
Qed.

(** X27: a click moves no counter.  [POST /click] leaves the saved items,
    the likes, the profiles and every content document as they are; when
    it answers 200 it has appended exactly one click-through of the user,
    and when it answers 400 it has written nothing. *)
Theorem X27_a_click_moves_no_counter (isURL : string -> bool) (now : Z)
    (userId agent referer : string) (b : Body.t) (st : Store) :
  let r := clickHandler isURL now userId agent referer b st in
  saved_items r.1 = saved_items st /\
  likes r.1 = likes st /\
  others r.1 = others st /\
  (forall name, content_of (engine r.1) name = content_of (engine st) name) /\
  user_profiles (engine r.1) = user_profiles (engine st) /\
  (status_code r.2 = 200%nat ->
   exists c, click_throughs r.1 = (click_throughs st ++ [c])%list /\
             Click.user_id c = userId /\ Click.clicked_at c = now) /\
  (status_code r.2 = 400%nat -> r.1 = st).
Proof.
  intros r. subst r.
  destruct (click_cases isURL now userId agent referer b st)
    as [(resp & -> & Hresp)|[(c & ->)|(c & m & Hu & Hn & ->)]];
    cbn [fst snd].
  - repeat split. intros H. contradiction.
  - repeat split; intros H; discriminate H.
  - repeat split; try (intros H; discriminate H).
    intros _. exists c. auto.
Qed.

Lemma X27_a_click_moves_no_counter_witness :
  exists c,
    click_throughs
      (clickHandler (fun _ => true) 7 "u" "agent" "" click_job fresh_store).1
    = [c] /\
    Click.user_id c = "u" /\ Click.clicked_at c = 7.
Proof.
  destruct (X27_a_click_moves_no_counter (fun _ => true) 7 "u" "agent" ""
              click_job fresh_store) as (_ & _ & _ & _ & _ & H200 & _).
  exact (H200 eq_refl).
Defined.
